(** * Activity register: record store, audited mutations, month matrix

    A shallow embedding of [db.py] and of the parts of [app.py] that
    decide what it is called with: the administrator check, the month
    bounds, the registration form, the board's summary and the admin
    handlers.  The SQLite file is a value of type [db]; a connection
    works on a copy of it and either commits the copy or rolls it back;
    the wall clock, SQLite's [date()] and the pandas/Python library
    functions the code calls are the fields of the class [Runtime]. *)

From stdpp Require Import base gmap strings list pretty sorting.
From Stdlib Require Import ZArith OrderedTypeEx.

Local Open Scope string_scope.
Local Open Scope Z_scope.
Local Open Scope list_scope.

(** ** Python values that travel through the [dict[str, Any]] records

    [Any] is read as: [None], a [str] or an [int]; these are the values
    [app.py] builds and the ones SQLite's adapter accepts here. *)

Inductive pyval : Type :=
  | PNone
  | PStr (s : string)
  | PInt (z : Z).

#[global] Instance pyval_eq_dec : EqDecision pyval.
Proof. solve_decision. Defined.

(** Python truthiness, as used by [x or default] and [if specialist:]. *)
Definition truthy (v : pyval) : bool :=
  match v with
  | PNone => false
  | PStr s => negb (String.eqb s "")
  | PInt z => negb (z =? 0)
  end.

Definition py_or (v d : pyval) : pyval := if truthy v then v else d.

(** [r.get(k, d)] *)
Definition dict_get (r : gmap string pyval) (k : string) (d : pyval) : pyval :=
  default d (r !! k).

Inductive exn : Type :=
  | KeyError (k : string)
  | TypeError
  | ValueError
  | AttributeError (a : string)
  | OverflowError
  | IntegrityError (column : string)
  | DatabaseFull
  | IllegalCharacterError.

(** [datetime.date] *)
Record pydate : Type := Date { year : Z; month : Z; day : Z }.

#[global] Instance pydate_eq_dec : EqDecision pydate.
Proof. solve_decision. Defined.

Definition zfill (width : nat) (s : string) : string :=
  String.concat "" (replicate (width - String.length s)%nat "0") +:+ s.

(** [date.isoformat()]: [YYYY-MM-DD] *)
Definition isoformat (d : pydate) : string :=
  zfill 4 (pretty (year d)) +:+ "-" +:+ zfill 2 (pretty (month d)) +:+ "-"
    +:+ zfill 2 (pretty (day d)).

(** ** What the code takes from its libraries and from the machine *)

Class Runtime : Type := {
  (** the wall clock as [_now_iso] renders it, at the n-th reading *)
  now_iso : nat -> string;
  (** SQLite's [date(X)] on a text value; [None] is SQL NULL *)
  sql_date : string -> option string;
  (** [pd.to_datetime(s).dt.date]; [None] when pandas raises *)
  to_datetime : string -> option pydate;
  (** [int(s)] on a [str]; [None] when Python raises [ValueError] *)
  int_of_str : string -> option Z;
  (** [str.strip()] *)
  strip : string -> string;
  (** [date.strftime('%Y-%m')] *)
  strftime_Y_m : pydate -> string
}.

(** ** The two tables *)

Record activity : Type := Activity {
  sa_id : Z;
  sa_specialist : string;
  sa_activity : string;
  sa_unit : string;
  sa_scheduled_date : string;
  sa_status : string;
  sa_notes : string;
  sa_created_at : string;
  sa_created_by : string;
  sa_updated_at : option string;
  sa_updated_by : option string
}.

Record audit : Type := Audit {
  al_id : Z;
  al_action : string;
  al_record_id : Z;
  al_old_scheduled_date : option string;
  al_new_scheduled_date : option string;
  al_actor : string;
  al_reason : string;
  al_ts : string
}.

#[global] Instance activity_eq_dec : EqDecision activity.
Proof. solve_decision. Defined.
#[global] Instance audit_eq_dec : EqDecision audit.
Proof. solve_decision. Defined.

(** The database file after [init_db]: both tables in rowid order, and
    the AUTOINCREMENT counters SQLite keeps in [sqlite_sequence]. *)
Record db : Type := Db {
  scheduled_activities : list activity;
  seq_scheduled_activities : Z;
  audit_log : list audit;
  seq_audit_log : Z
}.

(** [init_db] on a fresh file; on an existing one [CREATE TABLE IF NOT
    EXISTS] changes nothing. *)
Definition init_db : db := Db [] 0 [] 0.

(** A connection: what is on disk, and the connection's own view with its
    uncommitted writes. *)
Record conn : Type := Conn {
  committed : db;
  working : db;
  ticks : nat
}.

Record world : Type := World {
  store : db;
  clock : nat
}.

(** ** Statements inside a connection: state and exceptions *)

Definition M (A : Type) : Type := conn -> (exn + A) * conn.

#[global] Instance M_ret : MRet M := fun A a c => (inr a, c).
#[global] Instance M_bind : MBind M := fun A B k m c =>
  match m c with
  | (inl e, c') => (inl e, c')
  | (inr a, c') => k a c'
  end.

Definition raise {A} (e : exn) : M A := fun c => (inl e, c).

Definition lift {A} (x : exn + A) : M A := fun c => (x, c).

Definition get_working : M db := fun c => (inr (working c), c).

Definition put_working (d : db) : M unit :=
  fun c => (inr tt, Conn (committed c) d (ticks c)).

(** [conn.commit()] *)
Definition commit : M unit :=
  fun c => (inr tt, Conn (working c) (working c) (ticks c)).

(** [_now_iso()] *)
Definition _now_iso `{Runtime} : M string :=
  fun c => (inr (now_iso (ticks c)), Conn (committed c) (working c) (S (ticks c))).

(** [with get_conn() as conn: body]: the connection commits when the body
    ends normally (also through [return]) and rolls back to the last
    commit when it raises. *)
Definition with_conn {A} (body : M A) (w : world) : (exn + A) * world :=
  match body (Conn (store w) (store w) (clock w)) with
  | (inl e, c) => (inl e, World (committed c) (ticks c))
  | (inr a, c) => (inr a, World (working c) (ticks c))
  end.

(** ** SQLite: parameter binding, column affinity, constraints, rowids *)

Inductive sqlval : Type :=
  | SNull
  | SText (s : string)
  | SInt (z : Z).

(** A rowid, and any INTEGER the adapter can bind, is a signed 64-bit
    integer. *)
Definition sqlite_int (z : Z) : bool := (- 2 ^ 63 <=? z) && (z <? 2 ^ 63).

(** The sqlite3 adapter: a Python [int] outside 64 bits raises. *)
Definition bind_param (v : pyval) : exn + sqlval :=
  match v with
  | PNone => inr SNull
  | PStr s => inr (SText s)
  | PInt z => if sqlite_int z then inr (SInt z) else inl OverflowError
  end.

(** A TEXT column stores an integer as its decimal text. *)
Definition text_affinity (v : sqlval) : option string :=
  match v with
  | SNull => None
  | SText s => Some s
  | SInt z => Some (pretty z)
  end.

Definition not_null (column : string) (o : option string) : exn + string :=
  match o with
  | Some s => inr s
  | None => inl (IntegrityError column)
  end.

(** [INTEGER PRIMARY KEY AUTOINCREMENT]: one more than the largest rowid
    the table holds or has ever held; no insert once the largest possible
    rowid has been used. *)
Definition next_rowid (seq : Z) (ids : list Z) : exn + Z :=
  let top := foldr Z.max seq ids in
  if top <? 2 ^ 63 - 1 then inr (top + 1) else inl DatabaseFull.

(** [INSERT INTO scheduled_activities (specialist, activity, unit,
    scheduled_date, status, notes, created_at, created_by) VALUES (...)] *)
Definition execute_insert_activity
    (specialist activity unit_ scheduled_date status notes created_at created_by : pyval)
    : M unit :=
  p1 ← lift (bind_param specialist);
  p2 ← lift (bind_param activity);
  p3 ← lift (bind_param unit_);
  p4 ← lift (bind_param scheduled_date);
  p5 ← lift (bind_param status);
  p6 ← lift (bind_param notes);
  p7 ← lift (bind_param created_at);
  p8 ← lift (bind_param created_by);
  d ← get_working;
  rowid ← lift (next_rowid (seq_scheduled_activities d)
                           (sa_id <$> scheduled_activities d));
  c1 ← lift (not_null "specialist" (text_affinity p1));
  c2 ← lift (not_null "activity" (text_affinity p2));
  c3 ← lift (not_null "unit" (text_affinity p3));
  c4 ← lift (not_null "scheduled_date" (text_affinity p4));
  c5 ← lift (not_null "status" (text_affinity p5));
  c6 ← lift (not_null "notes" (text_affinity p6));
  c7 ← lift (not_null "created_at" (text_affinity p7));
  c8 ← lift (not_null "created_by" (text_affinity p8));
  put_working
    (Db (scheduled_activities d ++ [Activity rowid c1 c2 c3 c4 c5 c6 c7 c8 None None])
        rowid (audit_log d) (seq_audit_log d)).

(** [INSERT INTO audit_log (action, record_id, old_scheduled_date,
    new_scheduled_date, actor, reason, ts) VALUES (...)] *)
Definition execute_insert_audit
    (action : string) (record_id : Z) (old new_date actor reason : pyval) (ts : string)
    : M unit :=
  p2 ← lift (bind_param (PInt record_id));
  p3 ← lift (bind_param old);
  p4 ← lift (bind_param new_date);
  p5 ← lift (bind_param actor);
  p6 ← lift (bind_param reason);
  d ← get_working;
  rowid ← lift (next_rowid (seq_audit_log d) (al_id <$> audit_log d));
  c5 ← lift (not_null "actor" (text_affinity p5));
  c6 ← lift (not_null "reason" (text_affinity p6));
  put_working
    (Db (scheduled_activities d) (seq_scheduled_activities d)
        (audit_log d ++ [Audit rowid action record_id (text_affinity p3)
                               (text_affinity p4) c5 c6 ts])
        rowid).

(** [UPDATE scheduled_activities SET ... WHERE id = ?]: every row whose id
    matches is rewritten by [set]; a constraint that fails on one of them
    fails the statement. *)
Fixpoint update_where_id (rid : Z) (set : activity -> exn + activity)
    (rows : list activity) : exn + list activity :=
  match rows with
  | [] => inr []
  | r :: rest =>
      match (if sa_id r =? rid then set r else inr r) with
      | inl e => inl e
      | inr r' =>
          match update_where_id rid set rest with
          | inl e => inl e
          | inr rest' => inr (r' :: rest')
          end
      end
  end.

Definition put_activities (rows : list activity) : M unit :=
  d ← get_working;
  put_working (Db rows (seq_scheduled_activities d) (audit_log d) (seq_audit_log d)).

(** [UPDATE scheduled_activities SET status = ?, notes = ?, updated_at = ?,
    updated_by = ? WHERE id = ?] *)
Definition execute_update_status
    (status notes : pyval) (updated_at : string) (updated_by : pyval) (rid : Z)
    : M unit :=
  p1 ← lift (bind_param status);
  p2 ← lift (bind_param notes);
  p4 ← lift (bind_param updated_by);
  p5 ← lift (bind_param (PInt rid));
  d ← get_working;
  rows ← lift (update_where_id rid
            (fun r =>
               match not_null "status" (text_affinity p1),
                     not_null "notes" (text_affinity p2) with
               | inl e, _ => inl e
               | _, inl e => inl e
               | inr st, inr no =>
                   inr (Activity (sa_id r) (sa_specialist r) (sa_activity r) (sa_unit r)
                          (sa_scheduled_date r) st no (sa_created_at r) (sa_created_by r)
                          (Some updated_at) (text_affinity p4))
               end)
            (scheduled_activities d));
  put_activities rows.

(** [UPDATE scheduled_activities SET scheduled_date = ?, updated_at = ?,
    updated_by = ? WHERE id = ?] *)
Definition execute_update_date
    (new_date : pyval) (updated_at : string) (updated_by : pyval) (rid : Z)
    : M unit :=
  p1 ← lift (bind_param new_date);
  p3 ← lift (bind_param updated_by);
  p4 ← lift (bind_param (PInt rid));
  d ← get_working;
  rows ← lift (update_where_id rid
            (fun r =>
               match not_null "scheduled_date" (text_affinity p1) with
               | inl e => inl e
               | inr sd =>
                   inr (Activity (sa_id r) (sa_specialist r) (sa_activity r) (sa_unit r)
                          sd (sa_status r) (sa_notes r) (sa_created_at r) (sa_created_by r)
                          (Some updated_at) (text_affinity p3))
               end)
            (scheduled_activities d));
  put_activities rows.

(** [DELETE FROM scheduled_activities WHERE id = ?] *)
Definition execute_delete (rid : Z) : M unit :=
  _ ← lift (bind_param (PInt rid));
  d ← get_working;
  put_activities (filter (fun r => sa_id r ≠ rid) (scheduled_activities d)).

(** [SELECT scheduled_date FROM scheduled_activities WHERE id = ?] followed
    by [fetchone()] *)
Definition fetchone_scheduled_date (rid : Z) : M (option string) :=
  _ ← lift (bind_param (PInt rid));
  d ← get_working;
  mret (sa_scheduled_date <$> head (filter (fun r => sa_id r = rid) (scheduled_activities d))).

(** ** [db.py]: the writers *)

(** [r[k]] *)
Definition getitem (r : gmap string pyval) (k : string) : M pyval :=
  match r !! k with
  | Some v => mret v
  | None => raise (KeyError k)
  end.

(** [int(x)] *)
Definition py_int `{Runtime} (v : pyval) : exn + Z :=
  match v with
  | PInt z => inr z
  | PStr s => match int_of_str s with Some z => inr z | None => inl ValueError end
  | PNone => inl TypeError
  end.

(** [for x in xs: body(x)] *)
Fixpoint for_each {A} (body : A -> M unit) (xs : list A) : M unit :=
  match xs with
  | [] => mret tt
  | x :: rest => body x;; for_each body rest
  end.

Definition add_scheduled_record `{Runtime} (r : gmap string pyval) : M unit :=
  specialist ← getitem r "specialist";
  activity ← getitem r "activity";
  unit_ ← getitem r "unit";
  scheduled_date ← getitem r "scheduled_date";
  let status := py_or (dict_get r "status" (PStr "")) (PStr "") in
  let notes := py_or (dict_get r "notes" (PStr "")) (PStr "") in
  created_at ← _now_iso;
  let created_by := py_or (dict_get r "created_by" (PStr "—")) (PStr "—") in
  execute_insert_activity specialist activity unit_ scheduled_date status notes
    (PStr created_at) created_by.

Definition add_scheduled_records `{Runtime} (records : list (gmap string pyval))
    (w : world) : (exn + unit) * world :=
  match records with
  | [] => (inr tt, w)
  | _ => with_conn (for_each add_scheduled_record records;; commit) w
  end.

Definition update_record_status_and_notes `{Runtime} (ch : gmap string pyval) : M unit :=
  let status := py_or (dict_get ch "status" (PStr "")) (PStr "") in
  let notes := py_or (dict_get ch "notes" (PStr "")) (PStr "") in
  updated_at ← _now_iso;
  let actor := py_or (dict_get ch "actor" (PStr "—")) (PStr "—") in
  v ← getitem ch "id";
  rid ← lift (py_int v);
  execute_update_status status notes updated_at actor rid.

Definition update_records_status_and_notes `{Runtime} (changes : list (gmap string pyval))
    (w : world) : (exn + unit) * world :=
  match changes with
  | [] => (inr tt, w)
  | _ => with_conn (for_each update_record_status_and_notes changes;; commit) w
  end.

Definition admin_update_scheduled_date `{Runtime}
    (record_id : Z) (new_date actor reason : pyval) : world -> (exn + bool) * world :=
  with_conn (
    row ← fetchone_scheduled_date record_id;
    match row with
    | None => mret false
    | Some old =>
        t1 ← _now_iso;
        execute_update_date new_date t1 actor record_id;;
        t2 ← _now_iso;
        execute_insert_audit "UPDATE_DATE" record_id (PStr old) new_date actor reason t2;;
        commit;;
        mret true
    end).

Definition admin_delete_record `{Runtime}
    (record_id : Z) (actor reason : pyval) : world -> (exn + bool) * world :=
  with_conn (
    row ← fetchone_scheduled_date record_id;
    match row with
    | None => mret false
    | Some old =>
        execute_delete record_id;;
        t ← _now_iso;
        execute_insert_audit "DELETE" record_id (PStr old) PNone actor reason t;;
        commit;;
        mret true
    end).

(** ** [db.py]: the range query *)

(** [a <= b] in SQL on two text values that may be NULL: a comparison with
    NULL is not true.  Text compares bytewise (BINARY collation). *)
Definition sql_le (a b : option string) : bool :=
  match a, b with
  | Some x, Some y => String.leb x y
  | _, _ => false
  end.

(** The WHERE clause of [get_month_records]; [specialist] is the bound
    parameter when the clause [AND specialist = ?] was added. *)
Definition month_where `{Runtime} (date_from date_to : string)
    (specialist : option string) (r : activity) : bool :=
  sql_le (sql_date date_from) (sql_date (sa_scheduled_date r))
  && sql_le (sql_date (sa_scheduled_date r)) (sql_date date_to)
  && match specialist with
     | Some s => String.eqb (sa_specialist r) s
     | None => true
     end.

(** NULL sorts before every text in ascending order. *)
Definition null_compare (a b : option string) : comparison :=
  match a, b with
  | None, None => Eq
  | None, Some _ => Lt
  | Some _, None => Gt
  | Some x, Some y => String.compare x y
  end.

(** [ORDER BY date(scheduled_date) ASC, specialist ASC, activity ASC] *)
Definition order_by_le `{Runtime} (r1 r2 : activity) : bool :=
  match null_compare (sql_date (sa_scheduled_date r1)) (sql_date (sa_scheduled_date r2)) with
  | Lt => true
  | Gt => false
  | Eq =>
      match String.compare (sa_specialist r1) (sa_specialist r2) with
      | Lt => true
      | Gt => false
      | Eq =>
          match String.compare (sa_activity r1) (sa_activity r2) with
          | Gt => false
          | _ => true
          end
      end
  end.

Fixpoint insert_sorted {A} (le : A -> A -> bool) (x : A) (l : list A) : list A :=
  match l with
  | [] => [x]
  | y :: rest => if le x y then x :: y :: rest else y :: insert_sorted le x rest
  end.

(** Rows that tie on the sort key keep their scan (rowid) order. *)
Definition sort_by {A} (le : A -> A -> bool) (l : list A) : list A :=
  foldr (insert_sorted le) [] l.

(** [conn.execute(q, params).fetchall()] *)
Definition fetchall_month `{Runtime} (date_from date_to : string)
    (specialist : option string) : M (list activity) :=
  d ← get_working;
  mret (sort_by order_by_le
          (filter (fun r => month_where date_from date_to specialist r = true)
                  (scheduled_activities d))).

(** A row of the data frame [get_month_records] returns. *)
Record df_row : Type := DfRow {
  df_id : Z;
  df_specialist : string;
  df_activity : string;
  df_unit : string;
  df_scheduled_date : pydate;
  df_status : string;
  df_notes : string;
  df_updated_at : option string
}.

#[global] Instance df_row_eq_dec : EqDecision df_row.
Proof. solve_decision. Defined.

(** [pd.DataFrame([dict(r) for r in rows])] with the date column put
    through [pd.to_datetime(...).dt.date] *)
Fixpoint to_frame `{Runtime} (rows : list activity) : exn + list df_row :=
  match rows with
  | [] => inr []
  | r :: rest =>
      match to_datetime (sa_scheduled_date r) with
      | None => inl ValueError
      | Some d =>
          match to_frame rest with
          | inl e => inl e
          | inr rest' =>
              inr (DfRow (sa_id r) (sa_specialist r) (sa_activity r) (sa_unit r) d
                         (sa_status r) (sa_notes r) (sa_updated_at r) :: rest')
          end
      end
  end.

(** [if specialist:] adds the filter only for a non-empty string. *)
Definition specialist_param (specialist : option string) : option string :=
  match specialist with
  | Some s => if truthy (PStr s) then Some s else None
  | None => None
  end.

Definition get_month_records `{Runtime} (date_from date_to : pydate)
    (specialist : option string) (w : world) : (exn + list df_row) * world :=
  match with_conn (fetchall_month (isoformat date_from) (isoformat date_to)
                                  (specialist_param specialist)) w with
  | (inl e, w') => (inl e, w')
  | (inr [], w') => (inr [], w')
  | (inr rows, w') => (to_frame rows, w')
  end.

(** ** pandas: the pivot and its row tuples *)

Definition group_key (r : df_row) : string * string * string :=
  (df_specialist r, df_activity r, df_unit r).

Definition group_le (a b : string * string * string) : bool :=
  match String.compare a.1.1 b.1.1 with
  | Lt => true
  | Gt => false
  | Eq =>
      match String.compare a.1.2 b.1.2 with
      | Lt => true
      | Gt => false
      | Eq => String.leb a.2 b.2
      end
  end.

(** [df["day"] = pd.to_datetime(df["scheduled_date"]).dt.day] *)
Definition df_day (r : df_row) : Z := day (df_scheduled_date r).

(** The index of the pivot: the distinct (specialist, activity, unit)
    keys, sorted. *)
Definition pivot_index (df : list df_row) : list (string * string * string) :=
  sort_by group_le (remove_dups (group_key <$> df)).

(** The columns of the pivot: the distinct days that occur, sorted. *)
Definition pivot_days (df : list df_row) : list Z :=
  sort_by Z.leb (remove_dups (df_day <$> df)).

(** [aggfunc="first"] over the rows of one (key, day) cell, in frame
    order; [fill_value=""] where the cell has no row. *)
Definition pivot_cell (df : list df_row) (k : string * string * string) (d : Z) : pyval :=
  match filter (fun r => group_key r = k ∧ df_day r = d) df with
  | r :: _ => PStr (df_status r)
  | [] => PStr ""
  end.

Inductive label : Type :=
  | LStr (s : string)
  | LInt (z : Z).

(** [str(label)] *)
Definition label_str (l : label) : string :=
  match l with
  | LStr s => s
  | LInt z => pretty z
  end.

Record frame : Type := Frame {
  columns : list label;
  values : list (list pyval)
}.

(** [df.pivot_table(index=["specialist", "activity", "unit"],
    columns="day", values="status", aggfunc="first",
    fill_value="").reset_index()] *)
Definition pivot_table (df : list df_row) : frame :=
  let days := pivot_days df in
  Frame ([LStr "specialist"; LStr "activity"; LStr "unit"] ++ (LInt <$> days))%list
        ((fun k => [PStr k.1.1; PStr k.1.2; PStr k.2] ++ (pivot_cell df k <$> days))%list
           <$> pivot_index df).

Definition is_id_start (a : Ascii.ascii) : bool :=
  let n := Ascii.N_of_ascii a in
  ((65 <=? n) && (n <=? 90) || (97 <=? n) && (n <=? 122) || (n =? 95))%N.

Definition is_id_continue (a : Ascii.ascii) : bool :=
  let n := Ascii.N_of_ascii a in
  (is_id_start a || (48 <=? n) && (n <=? 57))%N.

Fixpoint string_forall (p : Ascii.ascii -> bool) (s : string) : bool :=
  match s with
  | EmptyString => true
  | String a rest => p a && string_forall p rest
  end.

(** [str.isidentifier()] on the ASCII names that occur as column labels
    here: the three fixed ones and decimal numerals. *)
Definition isidentifier (s : string) : bool :=
  match s with
  | EmptyString => false
  | String a rest => is_id_start a && string_forall is_id_continue rest
  end.

Definition kwlist : list string :=
  ["False"; "None"; "True"; "and"; "as"; "assert"; "async"; "await"; "break";
   "class"; "continue"; "def"; "del"; "elif"; "else"; "except"; "finally";
   "for"; "from"; "global"; "if"; "import"; "in"; "is"; "lambda"; "nonlocal";
   "not"; "or"; "pass"; "raise"; "return"; "try"; "while"; "with"; "yield"].

(** [collections.namedtuple(name, fields, rename=True)]: a field name that
    is no identifier, is a keyword, starts with an underscore or repeats
    an earlier one is replaced by [_<position>]. *)
Fixpoint rename_fields (index : nat) (seen : list string) (names : list string)
    : list string :=
  match names with
  | [] => []
  | name :: rest =>
      (if negb (isidentifier name) || bool_decide (name ∈ kwlist)
          || String.prefix "_" name || bool_decide (name ∈ seen)
       then "_" +:+ pretty index
       else name)
      :: rename_fields (S index) (name :: seen) rest
  end.

(** A row tuple: field names with their values. *)
Definition namedtuple : Type := list (string * pyval).

(** [frame.itertuples(index=False)] *)
Definition itertuples (f : frame) : list namedtuple :=
  let fields := rename_fields 0 [] (label_str <$> columns f) in
  (fun vals => zip fields vals) <$> values f.

Definition field_lookup (row : namedtuple) (name : string) : option pyval :=
  (fun hit => hit.2.2) <$> list_find (fun kv => kv.1 = name) row.

(** [row.name] *)
Definition getattr (row : namedtuple) (name : string) : exn + pyval :=
  match field_lookup row name with
  | Some v => inr v
  | None => inl (AttributeError name)
  end.

(** [getattr(row, name, default)] *)
Definition getattr_default (row : namedtuple) (name : string) (d : pyval) : pyval :=
  default d (field_lookup row name).

(** ** openpyxl: the sheet of the new workbook

    Cell values only; fonts, fills, borders, alignments and column widths
    carry no data and are left out.  Reading a cell that does not exist
    creates it empty, as openpyxl does; writing a text into a cell cuts it
    to 32767 characters and raises when it holds a control character, as
    the setter of [cell.value] does.  The value returned by the export is
    the sheet [wb.save] serialises. *)

Record worksheet : Type := Sheet {
  title : string;
  cells : gmap (Z * Z) pyval;
  merged_cells : list string;
  showGridLines : bool
}.

(** [wb = Workbook(); ws = wb.active] *)
Definition Workbook : worksheet := Sheet "Sheet" ∅ [] true.

Definition set_title (t : string) (ws : worksheet) : worksheet :=
  Sheet t (cells ws) (merged_cells ws) (showGridLines ws).

Definition set_showGridLines (b : bool) (ws : worksheet) : worksheet :=
  Sheet (title ws) (cells ws) (merged_cells ws) b.

(** The cell at ([row], [column]) once a value is bound to it: the value
    is stored unless it is [None], and the cell exists from then on. *)
Definition put_cell (row column : Z) (value : pyval) (ws : worksheet) : worksheet :=
  Sheet (title ws)
        (match value, cells ws !! (row, column) with
         | PNone, Some _ => cells ws
         | _, _ => <[(row, column) := value]> (cells ws)
         end)
        (merged_cells ws) (showGridLines ws).

(** [ILLEGAL_CHARACTERS_RE]: the control characters but tab, line feed
    and carriage return. *)
Definition is_illegal_character (a : Ascii.ascii) : bool :=
  let n := Ascii.N_of_ascii a in
  ((n <=? 8) || (11 <=? n) && (n <=? 12) || (14 <=? n) && (n <=? 31))%N.

(** A byte that continues a character of a text held as UTF-8. *)
Definition is_continuation (a : Ascii.ascii) : bool :=
  let n := Ascii.N_of_ascii a in ((128 <=? n) && (n <? 192))%N.

(** [value[:n]]: the first [n] characters of a text held as UTF-8. *)
Fixpoint str_take (n : N) (s : string) : string :=
  match s with
  | EmptyString => EmptyString
  | String a rest =>
      if is_continuation a then String a (str_take n rest)
      else if (n =? 0)%N then EmptyString
      else String a (str_take (N.pred n) rest)
  end.

(** [Cell.check_string]: the text is cut to 32767 characters, and what is
    left must hold no illegal character. *)
Definition check_string (value : string) : exn + string :=
  let value := str_take 32767 value in
  if string_forall (fun a => negb (is_illegal_character a)) value
  then inr value
  else inl IllegalCharacterError.

(** The setter of [cell.value]: a text goes through [check_string], a
    number is taken as it is. *)
Definition bind_value (value : pyval) : exn + pyval :=
  match value with
  | PStr s =>
      match check_string s with
      | inl e => inl e
      | inr s' => inr (PStr s')
      end
  | _ => inr value
  end.

Definition and_then {A B} (m : exn + A) (k : A -> exn + B) : exn + B :=
  match m with
  | inl e => inl e
  | inr a => k a
  end.

(** [ws.cell(row, column, value)], and [ws["A1"] = value] *)
Definition ws_cell (row column : Z) (value : pyval) (ws : worksheet) : exn + worksheet :=
  and_then (bind_value value) (fun v => inr (put_cell row column v ws)).

(** A [for] loop of statements on the sheet. *)
Fixpoint for_cells {A} (body : A -> worksheet -> exn + worksheet) (l : list A)
    (ws : worksheet) : exn + worksheet :=
  match l with
  | [] => inr ws
  | x :: rest => and_then (body x ws) (for_cells body rest)
  end.

(** [ws.merge_cells("A1:AI1")]: the range is recorded and every cell of it
    but the first becomes an empty merged cell (AI is column 35). *)
Definition merge_cells_A1_AI1 (ws : worksheet) : worksheet :=
  Sheet (title ws)
        (foldr (fun c cs => <[(1, c) := PNone]> cs) (cells ws) (seqZ 2 34))
        (merged_cells ws ++ ["A1:AI1"]) (showGridLines ws).

(** ** [db.py]: the export *)

(** The body of [for i, row in enumerate(pivot.itertuples(index=False),
    start=start_row)] for one row. *)
Definition fill_row (max_day : Z) (i : Z) (row : namedtuple) (ws : worksheet)
    : exn + worksheet :=
  and_then (getattr row "specialist") (fun sp =>
  and_then (ws_cell i 1 sp ws) (fun ws =>
  and_then (getattr row "activity") (fun ac =>
  and_then (ws_cell i 2 ac ws) (fun ws =>
  and_then (getattr row "unit") (fun un =>
  and_then (ws_cell i 3 un ws) (fun ws =>
  and_then (for_cells (fun c ws => ws_cell i c PNone ws) (seqZ 1 (3 + max_day)) ws) (fun ws =>
  for_cells (fun d ws =>
               let val := getattr_default row (pretty d) (PStr "") in
               ws_cell i (3 + d) val ws)
            (seqZ 1 max_day) ws))))))).

Fixpoint fill_rows (max_day : Z) (i : Z) (rows : list namedtuple) (ws : worksheet)
    : exn + worksheet :=
  match rows with
  | [] => inr ws
  | row :: rest =>
      match fill_row max_day i row ws with
      | inl e => inl e
      | inr ws' => fill_rows max_day (i + 1) rest ws'
      end
  end.

(** The sheet for a range without rows. *)
Definition no_data_sheet : worksheet :=
  let ws := set_title "Matriz" Workbook in
  put_cell 1 1 (PStr "Sin datos para el rango seleccionado") ws.

(** The statements that build it. *)
Definition no_data_export : exn + worksheet :=
  let ws := set_title "Matriz" Workbook in
  ws_cell 1 1 (PStr "Sin datos para el rango seleccionado") ws.

(** The sheet for a non-empty frame. *)
Definition matrix_sheet `{Runtime} (month_first month_last : pydate)
    (df : list df_row) : exn + worksheet :=
  let pivot := pivot_table df in
  let ws := set_title "Matriz" Workbook in
  let ws := set_showGridLines false ws in
  and_then (ws_cell 1 1 (PStr ("Matriz mensual: " +:+ strftime_Y_m month_first)) ws) (fun ws =>
  let ws := merge_cells_A1_AI1 ws in
  let header_row := 3 in
  let headers := ["Especialista"; "Actividad"; "Unidad de medida"] in
  let max_day := day month_last in
  and_then (for_cells (fun jh ws => ws_cell header_row jh.1 (PStr jh.2) ws)
                      (zip (seqZ 1 3) headers) ws) (fun ws =>
  and_then (for_cells (fun d ws => ws_cell header_row (3 + d) (PInt d) ws)
                      (seqZ 1 max_day) ws) (fun ws =>
  let start_row := header_row + 1 in
  fill_rows max_day start_row (itertuples pivot) ws))).

Definition export_month_matrix_xlsx_bytes `{Runtime} (month_first month_last : pydate)
    (specialist : option string) (w : world) : (exn + worksheet) * world :=
  match get_month_records month_first month_last specialist w with
  | (inl e, w') => (inl e, w')
  | (inr [], w') => (no_data_export, w')
  | (inr df, w') => (matrix_sheet month_first month_last df, w')
  end.

(** ** [app.py]: the two buttons of the admin tab *)

(** [s.strip() or d] *)
Definition strip_or `{Runtime} (s d : string) : string :=
  if truthy (PStr (strip s)) then strip s else d.

(** The handler of "Actualizar fecha (plazo)". *)
Definition tab_admin_update `{Runtime} (rid : Z) (nueva_fecha : pydate)
    (actor_name motivo : string) : world -> (exn + bool) * world :=
  admin_update_scheduled_date rid (PStr (isoformat nueva_fecha))
    (PStr (strip_or actor_name "ADMIN")) (PStr (strip_or motivo "—")).

(** The handler of "Borrar registro". *)
Definition tab_admin_delete `{Runtime} (rid : Z) (actor_name motivo : string)
    : world -> (exn + bool) * world :=
  admin_delete_record rid (PStr (strip_or actor_name "ADMIN")) (PStr (strip_or motivo "—")).

(** ** A runtime to run the model on concrete inputs

    Dates are read in the canonical [YYYY-MM-DD] form the schema asks
    for, on which SQLite and pandas agree; the clock advances by one
    second per reading. *)

Definition digit_of (a : Ascii.ascii) : option Z :=
  let n := Ascii.N_of_ascii a in
  if ((48 <=? n) && (n <=? 57))%N then Some (Z.of_N n - 48) else None.

Definition is_leap (y : Z) : bool :=
  (y mod 4 =? 0) && (negb (y mod 100 =? 0) || (y mod 400 =? 0)).

Definition days_in_month (y m : Z) : Z :=
  if m =? 2 then (if is_leap y then 29 else 28)
  else if bool_decide (m ∈ [4; 6; 9; 11]) then 30 else 31.

Definition iso_parse (s : string) : option pydate :=
  match String.list_ascii_of_string s with
  | [y1; y2; y3; y4; h1; m1; m2; h2; d1; d2] =>
      y1 ← digit_of y1; y2 ← digit_of y2; y3 ← digit_of y3; y4 ← digit_of y4;
      m1 ← digit_of m1; m2 ← digit_of m2; d1 ← digit_of d1; d2 ← digit_of d2;
      let y := 1000 * y1 + 100 * y2 + 10 * y3 + y4 in
      let m := 10 * m1 + m2 in
      let d := 10 * d1 + d2 in
      if (Ascii.N_of_ascii h1 =? 45)%N && (Ascii.N_of_ascii h2 =? 45)%N
         && (1 <=? y) && (1 <=? m) && (m <=? 12) && (1 <=? d) && (d <=? days_in_month y m)
      then Some (Date y m d) else None
  | _ => None
  end.

Fixpoint decimal_of (acc : Z) (l : list Ascii.ascii) : option Z :=
  match l with
  | [] => Some acc
  | a :: rest => d ← digit_of a; decimal_of (10 * acc + d) rest
  end.

Definition is_space (a : Ascii.ascii) : bool :=
  let n := Ascii.N_of_ascii a in
  ((n =? 32) || (9 <=? n) && (n <=? 13))%N.

Fixpoint drop_spaces (l : list Ascii.ascii) : list Ascii.ascii :=
  match l with
  | a :: rest => if is_space a then drop_spaces rest else l
  | [] => []
  end.

Definition iso_runtime : Runtime := {|
  now_iso n :=
    "2024-03-01 09:" +:+ zfill 2 (pretty (Z.of_nat n / 60)) +:+ ":"
      +:+ zfill 2 (pretty (Z.of_nat n mod 60));
  sql_date s := isoformat <$> iso_parse s;
  to_datetime s := iso_parse s;
  int_of_str s :=
    match String.list_ascii_of_string s with
    | [] => None
    | l => decimal_of 0 l
    end;
  strip s :=
    String.string_of_list_ascii
      (reverse (drop_spaces (reverse (drop_spaces (String.list_ascii_of_string s)))));
  strftime_Y_m d := zfill 4 (pretty (year d)) +:+ "-" +:+ zfill 2 (pretty (month d))
|}.

(** ** Vocabulary of the statements proved below *)

(** A statement that leaves the committed state alone. *)
Definition keeps_committed {A} (m : M A) : Prop :=
  forall c, committed (m c).2 = committed c.

(** A statement after which, when it raises, nothing has been committed. *)
Definition raises_clean {A} (m : M A) : Prop :=
  forall c e c', m c = (inl e, c') -> committed c' = committed c.

(** The text a TEXT column holds for a bound Python value. *)
Definition stored_text (v : pyval) : option string :=
  match v with
  | PNone => None
  | PStr s => Some s
  | PInt z => Some (pretty z)
  end.

(** The row [rid] after a reschedule to [sd] at time [t] by [ub]; any
    other row as it was. *)
Definition reschedule (rid : Z) (sd t : string) (ub : option string) (r : activity)
    : activity :=
  if sa_id r =? rid
  then Activity (sa_id r) (sa_specialist r) (sa_activity r) (sa_unit r) sd (sa_status r)
         (sa_notes r) (sa_created_at r) (sa_created_by r) (Some t) ub
  else r.

(** The invariant of the file: row ids are distinct, positive and not
    above the table's AUTOINCREMENT counter, which is a 64-bit rowid. *)
Record wf_db (d : db) : Prop := WfDb {
  wf_sa_nodup : NoDup (sa_id <$> scheduled_activities d);
  wf_sa_ids : Forall (fun i => 1 <= i <= seq_scheduled_activities d)
                     (sa_id <$> scheduled_activities d);
  wf_sa_seq : 0 <= seq_scheduled_activities d < 2 ^ 63;
  wf_al_nodup : NoDup (al_id <$> audit_log d);
  wf_al_ids : Forall (fun i => 1 <= i <= seq_audit_log d) (al_id <$> audit_log d);
  wf_al_seq : 0 <= seq_audit_log d < 2 ^ 63
}.

(** The calls that write, and a run of them from a store. *)
Inductive call : Type :=
  | CreateBatch (records : list (gmap string pyval))
  | UpdateStatusAndNotes (changes : list (gmap string pyval))
  | AdminRescheduleDate (record_id : Z) (new_date actor reason : pyval)
  | AdminDelete (record_id : Z) (actor reason : pyval).

Definition step `{Runtime} (w : world) (c : call) : world :=
  match c with
  | CreateBatch records => (add_scheduled_records records w).2
  | UpdateStatusAndNotes changes => (update_records_status_and_notes changes w).2
  | AdminRescheduleDate r d a m => (admin_update_scheduled_date r d a m w).2
  | AdminDelete r a m => (admin_delete_record r a m w).2
  end.

Definition run `{Runtime} (calls : list call) (w : world) : world :=
  foldl step w calls.

(** What [admin_update_scheduled_date] can leave behind: the row change
    together with its one audit entry, or nothing. *)
Definition update_outcome `{Runtime} (w : world) (r : Z) (new_date actor reason : pyval)
    (out : (exn + bool) * world) : Prop :=
  (out.1 = inr true /\
   exists row sd ac re n,
     row ∈ scheduled_activities (store w) /\ sa_id row = r /\
     stored_text new_date = Some sd /\ stored_text actor = Some ac /\
     stored_text reason = Some re /\
     scheduled_activities (store out.2)
       = reschedule r sd (now_iso (clock w)) (Some ac) <$> scheduled_activities (store w) /\
     audit_log (store out.2)
       = audit_log (store w) ++
         [Audit n "UPDATE_DATE" r (Some (sa_scheduled_date row)) (Some sd) ac re
                (now_iso (S (clock w)))])
  \/ (out.1 ≠ inr true /\ store out.2 = store w).

(** The same for [admin_delete_record]. *)
Definition delete_outcome `{Runtime} (w : world) (r : Z) (actor reason : pyval)
    (out : (exn + bool) * world) : Prop :=
  (out.1 = inr true /\
   exists row ac re n,
     row ∈ scheduled_activities (store w) /\ sa_id row = r /\
     stored_text actor = Some ac /\ stored_text reason = Some re /\
     scheduled_activities (store out.2)
       = filter (fun x => sa_id x ≠ r) (scheduled_activities (store w)) /\
     audit_log (store out.2)
       = audit_log (store w) ++
         [Audit n "DELETE" r (Some (sa_scheduled_date row)) None ac re (now_iso (clock w))])
  \/ (out.1 ≠ inr true /\ store out.2 = store w).

(** pandas can read what SQLite takes for a date. *)
Definition pandas_reads `{Runtime} (s : string) : Prop :=
  is_Some (sql_date s) -> is_Some (to_datetime s).

(** The rows the SELECT of [get_month_records] fetches from a store. *)
Definition month_rows `{Runtime} (date_from date_to : pydate) (specialist : option string) (d : db)
    : list activity :=
  sort_by order_by_le
    (filter (fun r => month_where (isoformat date_from) (isoformat date_to)
                        (specialist_param specialist) r = true)
            (scheduled_activities d)).

(** The frame row a table row becomes. *)
Definition to_df_row `{Runtime} (r : activity) (dr : df_row) : Prop :=
  exists d, to_datetime (sa_scheduled_date r) = Some d /\
            dr = DfRow (sa_id r) (sa_specialist r) (sa_activity r) (sa_unit r) d
                       (sa_status r) (sa_notes r) (sa_updated_at r).

(** How a store can differ from an earlier one: counters only grow, a row
    id that is new lies above the old counter, the audit log only grows at
    its end. *)
Record extends (d d' : db) : Prop := Extends {
  ext_seq : seq_scheduled_activities d <= seq_scheduled_activities d';
  ext_ids : forall i, i ∈ sa_id <$> scheduled_activities d' ->
                      i ∈ sa_id <$> scheduled_activities d \/ seq_scheduled_activities d < i;
  ext_audit : audit_log d `prefix_of` audit_log d'
}.

(** One successful statement, or run of statements, seen as a step of the
    store. *)
Definition evolves (d d' : db) : Prop := (wf_db d -> wf_db d') /\ extends d d'.

Definition stmt_evolves {A} (m : M A) : Prop :=
  forall c a c', m c = (inr a, c') -> evolves (working c) (working c').

(** The text stored for [v or d]. *)
Definition or_text (v : pyval) (d : string) : string :=
  match v with
  | PNone => d
  | PStr s => if String.eqb s "" then d else s
  | PInt z => if z =? 0 then d else pretty z
  end.

(** The id a change is aimed at, when [int(ch["id"])] has a value. *)
Definition change_target `{Runtime} (ch : gmap string pyval) : option Z :=
  match ch !! "id" with
  | Some v => match py_int v with inr z => Some z | inl _ => None end
  | None => None
  end.

(** The last change of a list aimed at [rid], with its position. *)
Fixpoint last_change `{Runtime} (rid : Z) (changes : list (gmap string pyval))
    : option (nat * gmap string pyval) :=
  match changes with
  | [] => None
  | ch :: rest =>
      match last_change rid rest with
      | Some (i, c) => Some (S i, c)
      | None => if decide (change_target ch = Some rid) then Some (O, ch) else None
      end
  end.

(** The columns a status update has no business with. *)
Definition frame_fields (r : activity)
    : Z * string * string * string * string * string * string :=
  (sa_id r, sa_specialist r, sa_activity r, sa_unit r, sa_scheduled_date r,
   sa_created_at r, sa_created_by r).

(** The row [rid] after a status update; any other row as it was. *)
Definition set_status (rid : Z) (st no t : string) (ub : option string) (r : activity)
    : activity :=
  if sa_id r =? rid
  then Activity (sa_id r) (sa_specialist r) (sa_activity r) (sa_unit r)
         (sa_scheduled_date r) st no (sa_created_at r) (sa_created_by r) (Some t) ub
  else r.

(** What a row looks like after the changes, given the last change aimed at it. *)
Definition updated_as `{Runtime} (row row' : activity) (t0 : nat)
    (last : option (nat * gmap string pyval)) : Prop :=
  match last with
  | None => row' = row
  | Some (i, ch) =>
      sa_status row' = or_text (dict_get ch "status" (PStr "")) "" /\
      sa_notes row' = or_text (dict_get ch "notes" (PStr "")) "" /\
      sa_updated_at row' = Some (now_iso (t0 + i)%nat) /\
      sa_updated_by row' = Some (or_text (dict_get ch "actor" (PStr "—")) "—")
  end.

(** A required field the INSERT accepts: present, not [None], and within
    64 bits when it is an integer. *)
Definition required_ok (r : gmap string pyval) (k : string) : bool :=
  match r !! k with
  | Some (PStr _) => true
  | Some (PInt z) => sqlite_int z
  | Some PNone | None => false
  end.

(** An optional field the INSERT accepts: anything but an integer beyond
    64 bits. *)
Definition optional_ok (r : gmap string pyval) (k : string) : bool :=
  match r !! k with
  | Some (PInt z) => sqlite_int z
  | _ => true
  end.

Definition insertable (r : gmap string pyval) : bool :=
  required_ok r "specialist" && required_ok r "activity" && required_ok r "unit"
  && required_ok r "scheduled_date"
  && optional_ok r "status" && optional_ok r "notes" && optional_ok r "created_by".

(** The text of a required field. *)
Definition field_text (r : gmap string pyval) (k : string) : string :=
  default "" (r !! k ≫= stored_text).

(** The row a record becomes, with rowid [n], created at [t]. *)
Definition new_row (r : gmap string pyval) (n : Z) (t : string) : activity :=
  Activity n (field_text r "specialist") (field_text r "activity") (field_text r "unit")
    (field_text r "scheduled_date")
    (or_text (dict_get r "status" (PStr "")) "")
    (or_text (dict_get r "notes" (PStr "")) "")
    t
    (or_text (dict_get r "created_by" (PStr "—")) "—")
    None None.

(** The rows of a batch, numbered from [n] and timed from reading [t]. *)
Fixpoint new_rows `{Runtime} (records : list (gmap string pyval)) (n : Z) (t : nat)
    : list activity :=
  match records with
  | [] => []
  | r :: rest => new_row r n (now_iso t) :: new_rows rest (n + 1) (S t)
  end.

(** A text that begins like a decimal numeral: with a character no
    identifier begins with. *)
Definition numeral_head (s : string) : Prop :=
  match s with
  | String a _ => is_id_start a = false
  | EmptyString => False
  end.

(** ** Worked inputs *)

Definition ana (scheduled_date : string) : gmap string pyval :=
  {[ "specialist" := PStr "Ana"; "activity" := PStr "Informe mensual";
     "unit" := PStr "Informe"; "scheduled_date" := PStr scheduled_date;
     "status" := PStr ""; "notes" := PStr ""; "created_by" := PStr "Ana" ]}.

Definition march_batch : list (gmap string pyval) :=
  [ana "2024-03-01"; ana "2024-03-02"; ana "2024-03-03"].

Definition mark_2 : gmap string pyval :=
  {[ "id" := PInt 2; "status" := PStr "✓"; "notes" := PStr ""; "actor" := PStr "Ana" ]}.

(** Three rows for Ana on 1, 2 and 3 March 2024, the second one marked. *)
Definition w_marked : world :=
  @run iso_runtime [CreateBatch march_batch; UpdateStatusAndNotes [mark_2]]
       (World init_db 0).

Definition row_2 : activity :=
  Activity 2 "Ana" "Informe mensual" "Informe" "2024-03-02" "✓" ""
           "2024-03-01 09:00:01" "Ana" (Some "2024-03-01 09:00:03") (Some "Ana").

(** A record whose three text fields are empty strings. *)
Definition blank_record : gmap string pyval :=
  {[ "specialist" := PStr ""; "activity" := PStr ""; "unit" := PStr "";
     "scheduled_date" := PStr "2024-03-01" ]}.

(** The cell at a row and column of the March 2024 export of [w_marked];
    [None] where the sheet has no cell (or the export raised). *)
Definition march_cell (row column : Z) : option pyval :=
  match (@export_month_matrix_xlsx_bytes iso_runtime (Date 2024 3 1) (Date 2024 3 31) None
           w_marked).1 with
  | inr ws => cells ws !! (row, column)
  | inl _ => None
  end.

(** ** Further vocabulary *)

(** A statement that, when it returns, has left the audit table alone. *)
Definition keeps_audit {A} (m : M A) : Prop :=
  forall c a c', m c = (inr a, c') ->
    audit_log (working c') = audit_log (working c)
    /\ seq_audit_log (working c') = seq_audit_log (working c).

(** A change whose UPDATE sqlite3 can bind: an id that [int()] accepts and
    that lies within 64 bits, and no integer beyond 64 bits as status,
    notes or actor. *)
Definition bindable_change `{Runtime} (ch : gmap string pyval) : bool :=
  match change_target ch with
  | Some z => sqlite_int z
  | None => false
  end
  && optional_ok ch "status" && optional_ok ch "notes" && optional_ok ch "actor".

(** The key of [ORDER BY date(scheduled_date), specialist, activity]. *)
Definition order_key `{Runtime} (r : activity) : option string * string * string :=
  (sql_date (sa_scheduled_date r), sa_specialist r, sa_activity r).

(** [k1] sorts no later than [k2]: by date (NULL first), then specialist,
    then activity, each as bytes. *)
Definition key_le (k1 k2 : option string * string * string) : Prop :=
  null_compare k1.1.1 k2.1.1 = Lt
  \/ (k1.1.1 = k2.1.1 /\
      (String.compare k1.1.2 k2.1.2 = Lt
       \/ (k1.1.2 = k2.1.2 /\ String.compare k1.2 k2.2 ≠ Gt))).

(** The WHERE clause of the range query, spelled out. *)
Definition in_range `{Runtime} (date_from date_to : pydate) (specialist : option string)
    (r : activity) : Prop :=
  sql_le (sql_date (isoformat date_from)) (sql_date (sa_scheduled_date r)) = true
  /\ sql_le (sql_date (sa_scheduled_date r)) (sql_date (isoformat date_to)) = true
  /\ match specialist with
     | Some s => s = "" \/ sa_specialist r = s
     | None => True
     end.

#[global] Instance in_range_dec `{Runtime} date_from date_to specialist r :
  Decision (in_range date_from date_to specialist r).
Proof. unfold in_range. destruct specialist; apply _. Defined.

(** A text [check_string] lets through. *)
Definition cell_text_ok (s : string) : bool :=
  string_forall (fun a => negb (is_illegal_character a)) (str_take 32767 s).

(** The three texts of a group of the pivot. *)
Definition key_ok (k : string * string * string) : bool :=
  cell_text_ok k.1.1 && cell_text_ok k.1.2 && cell_text_ok k.2.

(** The texts the export of a non-empty frame writes: the heading and the
    three texts of every group. *)
Definition export_texts_ok `{Runtime} (month_first : pydate) (df : list df_row) : bool :=
  cell_text_ok ("Matriz mensual: " +:+ strftime_Y_m month_first)
  && forallb key_ok (pivot_index df).

(** ** [app.py]: who is an administrator *)

(** [get_admin_code]: [st.secrets.get("ADMIN_CODE")], or [None] when the
    lookup raises.  [secrets] is what the lookup does: it raises, or it
    returns the configured value ([None] when the key is not set; a value
    that is no text is written as an integer). *)
Definition get_admin_code (secrets : exn + pyval) : pyval :=
  match secrets with
  | inr v => v
  | inl _ => PNone
  end.

(** [code == secret] for a text [code] *)
Definition str_eq (code : string) (v : pyval) : bool :=
  match v with
  | PStr s => String.eqb code s
  | _ => false
  end.

(** [verify_admin]; [environ] is [os.getenv("ADMIN_CODE")]. *)
Definition verify_admin (secrets : exn + pyval) (environ : option string) (code : string)
    : bool :=
  let secret :=
    py_or (get_admin_code secrets)
          (match environ with Some s => PStr s | None => PNone end) in
  truthy secret && str_eq code secret.

(** The sidebar: [is_admin] from the chosen role and the typed code. *)
Definition sidebar_is_admin `{Runtime} (secrets : exn + pyval) (environ : option string)
    (role code : string) : bool :=
  if String.eqb role "Administrador"
  then (if truthy (PStr code) then verify_admin secrets environ (strip code) else false)
  else false.

(** The secret [verify_admin] compares with: the one from [st.secrets]
    when the lookup returns a truthy value, else the environment's. *)
Definition configured_secret (secrets : exn + pyval) (environ : option string)
    : option pyval :=
  match secrets with
  | inr v => if truthy v then Some v else PStr <$> environ
  | inl _ => PStr <$> environ
  end.

(** ** [datetime.date] as [app.py] uses it *)

(** The values a [date] object can hold: years 1 to 9999. *)
Definition valid_date (d : pydate) : bool :=
  (1 <=? year d) && (year d <=? 9999) && (1 <=? month d) && (month d <=? 12)
  && (1 <=? day d) && (day d <=? days_in_month (year d) (month d)).

(** [date(y, m, d)] *)
Definition py_date (y m d : Z) : exn + pydate :=
  if valid_date (Date y m d) then inr (Date y m d) else inl ValueError.

(** [d.replace(day=k)] *)
Definition replace_day (d : pydate) (k : Z) : exn + pydate :=
  py_date (year d) (month d) k.

(** [d1 <= d2] and [d1 < d2]: on (year, month, day) *)
Definition date_le (d1 d2 : pydate) : bool :=
  (year d1 <? year d2)
  || ((year d1 =? year d2)
      && ((month d1 <? month d2) || ((month d1 =? month d2) && (day d1 <=? day d2)))).

Definition date_lt (d1 d2 : pydate) : bool :=
  (year d1 <? year d2)
  || ((year d1 =? year d2)
      && ((month d1 <? month d2) || ((month d1 =? month d2) && (day d1 <? day d2)))).

(** [_days_before_year] *)
Definition days_before_year (y : Z) : Z :=
  let y := y - 1 in y * 365 + y / 4 - y / 100 + y / 400.

Definition DAYS_BEFORE_MONTH : list Z :=
  [-1; 0; 31; 59; 90; 120; 151; 181; 212; 243; 273; 304; 334].

(** [_days_before_month] *)
Definition days_before_month (y m : Z) : Z :=
  DAYS_BEFORE_MONTH !!! Z.to_nat m + (if (2 <? m) && is_leap y then 1 else 0).

(** [d.toordinal()]: 1 for 1 January of year 1 *)
Definition toordinal (d : pydate) : Z :=
  days_before_year (year d) + days_before_month (year d) (month d) + day d.

(** [d.weekday()]: 0 for Monday *)
Definition weekday (d : pydate) : Z := (toordinal d + 6) mod 7.

(** [d + timedelta(days=1)]: the date one ordinal later, [OverflowError]
    after 31 December 9999. *)
Definition add_one_day (d : pydate) : exn + pydate :=
  if day d <? days_in_month (year d) (month d)
  then inr (Date (year d) (month d) (day d + 1))
  else if month d <? 12 then inr (Date (year d) (month d + 1) 1)
  else if year d <? 9999 then inr (Date (year d + 1) 1 1)
  else inl OverflowError.

(** [d - timedelta(days=1)]: the date one ordinal earlier, [OverflowError]
    before 1 January of year 1. *)
Definition sub_one_day (d : pydate) : exn + pydate :=
  if 1 <? day d then inr (Date (year d) (month d) (day d - 1))
  else if 1 <? month d
  then inr (Date (year d) (month d - 1) (days_in_month (year d) (month d - 1)))
  else if 1 <? year d then inr (Date (year d - 1) 12 31)
  else inl OverflowError.

(** [month_bounds] *)
Definition month_bounds (any_day : pydate) : exn + pydate * pydate :=
  match replace_day any_day 1 with
  | inl e => inl e
  | inr first =>
      match (if month first =? 12 then py_date (year first + 1) 1 1
             else py_date (year first) (month first + 1) 1) with
      | inl e => inl e
      | inr next_first =>
          match sub_one_day next_first with
          | inl e => inl e
          | inr last => inr (first, last)
          end
      end
  end.

(** ** [app.py]: the dates of a range *)

(** [map_wd] *)
Definition map_wd : list (Z * string) :=
  [(0, "Lun"); (1, "Mar"); (2, "Mié"); (3, "Jue"); (4, "Vie"); (5, "Sáb"); (6, "Dom")].

(** [map_wd[k]] *)
Definition map_wd_get (k : Z) : exn + string :=
  match list_find (fun p => p.1 = k) map_wd with
  | Some (_, p) => inr p.2
  | None => inl (KeyError (pretty k))
  end.

(** [set(dias) if dias else set(map_wd.values())] *)
Definition allowed_days (dias : list string) : list string :=
  match dias with
  | [] => map_wd.*2
  | _ => dias
  end.

(** The [while cur <= f_fin] loop; [None] when [fuel] iterations were not
    enough to leave it. *)
Fixpoint fechas_loop (fuel : nat) (cur f_fin : pydate) (incluir_finde : bool)
    (allowed : list string) (fechas : list pydate) : option (exn + list pydate) :=
  if date_le cur f_fin then
    match fuel with
    | O => None
    | S fuel =>
        match map_wd_get (weekday cur) with
        | inl e => Some (inl e)
        | inr wd =>
            let fechas :=
              if (incluir_finde || negb (bool_decide (wd ∈ ["Sáb"; "Dom"])))
                 && bool_decide (wd ∈ allowed)
              then fechas ++ [cur] else fechas in
            match add_one_day cur with
            | inl e => Some (inl e)
            | inr cur => fechas_loop fuel cur f_fin incluir_finde allowed fechas
            end
        end
    end
  else Some (inr fechas).

(** The date list of the "Rango" mode.  The loop runs once per day from
    [f_ini] to [f_fin], so that many iterations are given. *)
Definition build_fechas (f_ini f_fin : pydate) (dias : list string) (incluir_finde : bool)
    : option (exn + list pydate) :=
  if date_le f_ini f_fin
  then fechas_loop (Z.to_nat (toordinal f_fin - toordinal f_ini + 1)) f_ini f_fin
                   incluir_finde (allowed_days dias) []
  else Some (inr []).

(** The test of line 118 on a date, by the number of its weekday. *)
Definition programmed (dias : list string) (incluir_finde : bool) (d : pydate) : Prop :=
  (incluir_finde = true \/ weekday d < 5)
  /\ exists wd, (weekday d, wd) ∈ map_wd /\ wd ∈ allowed_days dias.

(** ** [app.py]: the "Registrar" form *)

Inductive registro : Type :=
  | Faltan_datos
  | Listo (n : nat).

(** The record built for one date of the form. *)
Definition registro_record `{Runtime} (especialista actividad unidad_final notas
    actor_name : string) (f : pydate) : gmap string pyval :=
  {[ "specialist" := PStr (strip especialista);
     "activity" := PStr (strip actividad);
     "unit" := PStr unidad_final;
     "scheduled_date" := PStr (isoformat f);
     "status" := PStr "";
     "notes" := PStr (strip notas);
     "created_by" := PStr (strip (if truthy (PStr actor_name) then actor_name else "—")) ]}.

(** What happens on "Registrar": the message shown, and the store. *)
Definition tab_reg_submit `{Runtime} (especialista actividad unidad unidad_otro : string)
    (fechas : list pydate) (notas actor_name : string) (w : world)
    : (exn + registro) * world :=
  if negb (truthy (PStr especialista) && truthy (PStr actividad)
           && (truthy (PStr unidad) || truthy (PStr unidad_otro))
           && negb (bool_decide (fechas = [])))
  then (inr Faltan_datos, w)
  else
    let unidad_final := if String.eqb unidad "Otro" then strip unidad_otro else unidad in
    let records :=
      registro_record especialista actividad unidad_final notas actor_name <$> fechas in
    match add_scheduled_records records w with
    | (inl e, w') => (inl e, w')
    | (inr _, w') => (inr (Listo (length records)), w')
    end.

(** ** [app.py]: the board *)

Record resumen_row : Type := Resumen {
  rs_specialist : string;
  planned : nat;
  completed : nat;
  missed : nat;
  pending : nat
}.

(** The sum of [(dfm["status"] == s).astype(int)] over a group *)
Definition count_status (s : string) (g : list df_row) : nat :=
  length (filter (fun r => df_status r = s) g).

(** [dfm.assign(planned=1, completed=..., missed=..., pending=...)
    .groupby("specialist", as_index=False)[[...]].sum()]: one row per
    specialist, in the order of the names. *)
Definition tablero_resumen (dfm : list df_row) : list resumen_row :=
  (fun s =>
     let g := filter (fun r => df_specialist r = s) dfm in
     Resumen s (length g) (count_status "✓" g) (count_status "✗" g) (count_status "" g))
  <$> sort_by String.leb (remove_dups (df_specialist <$> dfm)).

(** ** The text of a date *)

(** The character of a decimal digit *)
Definition digit_char (d : Z) : Ascii.ascii := Ascii.ascii_of_N (Z.to_N (48 + d)).

Definition hyphen : Ascii.ascii := Ascii.ascii_of_N 45.

(** [YYYY-MM-DD] from the eight digits *)
Definition iso_text (y1 y2 y3 y4 m1 m2 d1 d2 : Z) : string :=
  String (digit_char y1) (String (digit_char y2) (String (digit_char y3)
    (String (digit_char y4) (String hyphen (String (digit_char m1) (String (digit_char m2)
      (String hyphen (String (digit_char d1) (String (digit_char d2) EmptyString))))))))).

(** The digits of a number below 10000, as [isoformat] writes a year,
    and of one below 100, as it writes a month or a day. *)
Definition digits_ok (n : Z) : bool :=
  String.eqb (zfill 4 (pretty n))
    (String (digit_char (n / 1000)) (String (digit_char (n / 100 mod 10))
       (String (digit_char (n / 10 mod 10)) (String (digit_char (n mod 10)) EmptyString))))
  && (negb (n <? 100)
      || String.eqb (zfill 2 (pretty n))
           (String (digit_char (n / 10)) (String (digit_char (n mod 10)) EmptyString))).

(** ** More worked inputs *)

(** The frame of March 2024 over [w_marked]. *)
Definition march_frame : list df_row :=
  match (@get_month_records iso_runtime (Date 2024 3 1) (Date 2024 3 31) None w_marked).1 with
  | inr df => df
  | inl _ => []
  end.

(** A change aimed at an id no row of [w_marked] carries. *)
Definition mark_99 : gmap string pyval :=
  {[ "id" := PInt 99; "status" := PStr "✓"; "notes" := PStr ""; "actor" := PStr "Ana" ]}.

(** * Proofs *)

(** ** Statements, transactions and rollback *)

Lemma bind_run {A B} (m : M A) (k : A -> M B) c :
  (m ≫= k) c = match m c with (inl e, c') => (inl e, c') | (inr a, c') => k a c' end.
Proof. reflexivity. Qed.

Lemma bind_ok {A B} (m : M A) (k : A -> M B) c b c' :
  (m ≫= k) c = (inr b, c') -> exists a c1, m c = (inr a, c1) /\ k a c1 = (inr b, c').
Proof.
  rewrite bind_run. destruct (m c) as [[e|a] c1]; [discriminate|]. eauto.
Qed.

Lemma lift_ok {A} (x : exn + A) c a c' : lift x c = (inr a, c') -> x = inr a /\ c' = c.
Proof. unfold lift. intros [= -> ->]. done. Qed.

Lemma keeps_ret {A} (a : A) : keeps_committed (mret a : M A).
Proof. done. Qed.
Lemma keeps_raise {A} e : keeps_committed (raise e : M A).
Proof. done. Qed.
Lemma keeps_lift {A} (x : exn + A) : keeps_committed (lift x).
Proof. done. Qed.
Lemma keeps_get_working : keeps_committed get_working.
Proof. done. Qed.
Lemma keeps_put_working d : keeps_committed (put_working d).
Proof. done. Qed.
Lemma keeps_now `{Runtime} : keeps_committed _now_iso.
Proof. done. Qed.
Lemma keeps_bind {A B} (m : M A) (k : A -> M B) :
  keeps_committed m -> (forall a, keeps_committed (k a)) -> keeps_committed (m ≫= k).
Proof.
  intros Hm Hk c. rewrite bind_run. specialize (Hm c).
  destruct (m c) as [[e|a] c1]; simpl in *; [done|]. by rewrite Hk.
Qed.

Create HintDb txn.
#[export] Hint Resolve keeps_ret keeps_raise keeps_lift keeps_get_working
  keeps_put_working keeps_now keeps_bind : txn.

Lemma keeps_getitem r k : keeps_committed (getitem r k).
Proof. unfold getitem. destruct (r !! k); auto with txn. Qed.
#[export] Hint Resolve keeps_getitem : txn.

Ltac keeps :=
  unfold put_activities;
  repeat (first [ apply keeps_bind; [|intros ?] | solve [auto with txn] ]).

Lemma keeps_insert_activity a b c d e f g h :
  keeps_committed (execute_insert_activity a b c d e f g h).
Proof. unfold execute_insert_activity. keeps. Qed.
Lemma keeps_insert_audit a b c d e f g : keeps_committed (execute_insert_audit a b c d e f g).
Proof. unfold execute_insert_audit. keeps. Qed.
Lemma keeps_update_status a b c d e : keeps_committed (execute_update_status a b c d e).
Proof. unfold execute_update_status. keeps. Qed.
Lemma keeps_update_date a b c d : keeps_committed (execute_update_date a b c d).
Proof. unfold execute_update_date. keeps. Qed.
Lemma keeps_delete r : keeps_committed (execute_delete r).
Proof. unfold execute_delete. keeps. Qed.
Lemma keeps_fetchone r : keeps_committed (fetchone_scheduled_date r).
Proof. unfold fetchone_scheduled_date. keeps. Qed.
#[export] Hint Resolve keeps_insert_activity keeps_insert_audit keeps_update_status
  keeps_update_date keeps_delete keeps_fetchone : txn.

Lemma keeps_add_record `{Runtime} r : keeps_committed (add_scheduled_record r).
Proof. unfold add_scheduled_record. keeps. Qed.
Lemma keeps_update_record `{Runtime} ch : keeps_committed (update_record_status_and_notes ch).
Proof. unfold update_record_status_and_notes. keeps. Qed.
#[export] Hint Resolve keeps_add_record keeps_update_record : txn.

Lemma keeps_for_each {A} (body : A -> M unit) xs :
  (forall x, keeps_committed (body x)) -> keeps_committed (for_each body xs).
Proof. intros Hb. induction xs; simpl; auto with txn. Qed.
#[export] Hint Resolve keeps_for_each : txn.

Lemma clean_keeps {A} (m : M A) : keeps_committed m -> raises_clean m.
Proof. intros Hm c e c' E. specialize (Hm c). by rewrite E in Hm. Qed.

Lemma clean_bind {A B} (m : M A) (k : A -> M B) :
  keeps_committed m -> (forall a, raises_clean (k a)) -> raises_clean (m ≫= k).
Proof.
  intros Hm Hk c e c'. rewrite bind_run. specialize (Hm c).
  destruct (m c) as [[e1|a] c1]; simpl in *.
  - intros [= <- <-]. done.
  - intros E. apply Hk in E. congruence.
Qed.

Lemma clean_commit_ret {A} (a : A) : raises_clean (commit;; mret a).
Proof. intros c e c'. discriminate. Qed.

Lemma clean_commit : raises_clean commit.
Proof. intros c e c'. discriminate. Qed.

(** A transaction that raises leaves the store as it was. *)
Lemma with_conn_raise {A} (body : M A) w e w' :
  raises_clean body -> with_conn body w = (inl e, w') -> store w' = store w.
Proof.
  intros Hb. unfold with_conn.
  destruct (body _) as [[e1|a] c1] eqn:E; intros [= <- <-]. simpl.
  by apply Hb in E.
Qed.

Lemma with_conn_ok {A} (body : M A) w a w' :
  with_conn body w = (inr a, w') ->
  exists c, body (Conn (store w) (store w) (clock w)) = (inr a, c)
            /\ w' = World (working c) (ticks c).
Proof.
  unfold with_conn. destruct (body _) as [[e|a1] c1]; intros [= <- <-]; eauto.
Qed.

(** ** The SQL statements, run *)

Lemma bind_param_text v p : bind_param v = inr p -> text_affinity p = stored_text v.
Proof. destruct v; simpl; [intros [= <-]..|]; try done. case_match; intros [= <-]; done. Qed.

Lemma update_where_id_total rid f rows :
  update_where_id rid (fun r => inr (f r)) rows
  = inr ((fun r => if sa_id r =? rid then f r else r) <$> rows).
Proof.
  induction rows as [|r rows IH]; simpl; [done|]. rewrite IH.
  by destruct (sa_id r =? rid).
Qed.

Lemma update_where_id_fail rid e rows r :
  r ∈ rows -> sa_id r = rid -> exists e', update_where_id rid (fun _ => inl e) rows = inl e'.
Proof.
  induction 1 as [r rows|r r' rows Hin IH]; intros Hid; simpl.
  - rewrite Hid, Z.eqb_refl. eauto.
  - destruct (sa_id r' =? rid); [eauto|]. destruct (IH Hid) as [e' ->]. eauto.
Qed.

Lemma update_where_id_miss rid set rows :
  (forall r, r ∈ rows -> sa_id r ≠ rid) -> update_where_id rid set rows = inr rows.
Proof.
  induction rows as [|r rows IH]; intros Hm; simpl; [done|].
  destruct (Z.eqb_spec (sa_id r) rid) as [E|_].
  - exfalso. eapply Hm; [left|done].
  - rewrite IH; [done|]. intros r' Hr'. apply Hm. by right.
Qed.

Lemma fetchone_run rid c :
  fetchone_scheduled_date rid c =
  if sqlite_int rid
  then (inr (sa_scheduled_date <$>
               head (filter (fun r => sa_id r = rid) (scheduled_activities (working c)))), c)
  else (inl OverflowError, c).
Proof.
  unfold fetchone_scheduled_date. rewrite bind_run. unfold lift. simpl.
  by destruct (sqlite_int rid).
Qed.

Lemma head_filter_id rid (rows : list activity) :
  match head (filter (fun r => sa_id r = rid) rows) with
  | Some r => r ∈ rows /\ sa_id r = rid
  | None => forall r, r ∈ rows -> sa_id r ≠ rid
  end.
Proof.
  destruct (head _) as [r|] eqn:E.
  - apply head_Some_elem_of in E. by apply list_elem_of_filter in E as [? ?].
  - apply head_None in E. intros r Hr Hid.
    assert (r ∈ filter (fun r => sa_id r = rid) rows) as Hf by by apply list_elem_of_filter.
    rewrite E in Hf. by apply not_elem_of_nil in Hf.
Qed.

Lemma execute_update_date_run nd t ub rid c :
  execute_update_date nd t ub rid c =
  match bind_param nd, bind_param ub, sqlite_int rid with
  | inl e, _, _ => (inl e, c)
  | inr _, inl e, _ => (inl e, c)
  | inr _, inr _, false => (inl OverflowError, c)
  | inr p1, inr p3, true =>
      match text_affinity p1 with
      | Some sd =>
          (inr tt, Conn (committed c)
                     (Db (reschedule rid sd t (text_affinity p3)
                            <$> scheduled_activities (working c))
                         (seq_scheduled_activities (working c))
                         (audit_log (working c)) (seq_audit_log (working c)))
                     (ticks c))
      | None =>
          match update_where_id rid (fun _ => inl (IntegrityError "scheduled_date"))
                  (scheduled_activities (working c)) with
          | inl e => (inl e, c)
          | inr rows =>
              (inr tt, Conn (committed c)
                         (Db rows (seq_scheduled_activities (working c))
                             (audit_log (working c)) (seq_audit_log (working c)))
                         (ticks c))
          end
      end
  end.
Proof.
  unfold execute_update_date. rewrite !bind_run. unfold lift at 1.
  destruct (bind_param nd) as [e|p1]; [done|]. rewrite bind_run. unfold lift at 1.
  destruct (bind_param ub) as [e|p3]; [done|]. rewrite bind_run. unfold lift at 1. simpl.
  destruct (sqlite_int rid); [|done]. rewrite bind_run. unfold get_working at 1.
  rewrite bind_run. unfold lift at 1.
  destruct (text_affinity p1) as [sd|]; simpl.
  - rewrite (update_where_id_total rid). done.
  - destruct (update_where_id _ _ _); done.
Qed.

Lemma execute_insert_audit_run action rid old nd actor reason ts c :
  execute_insert_audit action rid old nd actor reason ts c =
  match sqlite_int rid, bind_param old, bind_param nd, bind_param actor, bind_param reason with
  | true, inr p3, inr p4, inr p5, inr p6 =>
      match next_rowid (seq_audit_log (working c)) (al_id <$> audit_log (working c)),
            text_affinity p5, text_affinity p6 with
      | inr rowid, Some ac, Some re =>
          (inr tt, Conn (committed c)
                     (Db (scheduled_activities (working c))
                         (seq_scheduled_activities (working c))
                         (audit_log (working c) ++
                            [Audit rowid action rid (text_affinity p3) (text_affinity p4)
                                   ac re ts])
                         rowid)
                     (ticks c))
      | inl e, _, _ => (inl e, c)
      | inr _, None, _ => (inl (IntegrityError "actor"), c)
      | inr _, Some _, None => (inl (IntegrityError "reason"), c)
      end
  | false, _, _, _, _ => (inl OverflowError, c)
  | true, inl e, _, _, _ => (inl e, c)
  | true, inr _, inl e, _, _ => (inl e, c)
  | true, inr _, inr _, inl e, _ => (inl e, c)
  | true, inr _, inr _, inr _, inl e => (inl e, c)
  end.
Proof.
  unfold execute_insert_audit. rewrite !bind_run. unfold lift at 1. simpl.
  destruct (sqlite_int rid); [|done]. rewrite bind_run. unfold lift at 1.
  destruct (bind_param old); [done|]. rewrite bind_run. unfold lift at 1.
  destruct (bind_param nd); [done|]. rewrite bind_run. unfold lift at 1.
  destruct (bind_param actor); [done|]. rewrite bind_run. unfold lift at 1.
  destruct (bind_param reason); [done|]. rewrite bind_run. unfold get_working at 1.
  rewrite bind_run. unfold lift at 1.
  destruct (next_rowid _ _); [done|]. rewrite bind_run. unfold lift at 1.
  destruct (text_affinity s1); [|done]. simpl. rewrite bind_run. unfold lift at 1.
  destruct (text_affinity s2); done.
Qed.

Lemma execute_delete_run rid c :
  execute_delete rid c =
  if sqlite_int rid
  then (inr tt, Conn (committed c)
                  (Db (filter (fun r => sa_id r ≠ rid) (scheduled_activities (working c)))
                      (seq_scheduled_activities (working c))
                      (audit_log (working c)) (seq_audit_log (working c)))
                  (ticks c))
  else (inl OverflowError, c).
Proof.
  unfold execute_delete. rewrite bind_run. unfold lift at 1. simpl.
  by destruct (sqlite_int rid).
Qed.

Section AdminAtomic.
Context `{Runtime}.

Lemma admin_update_clean r nd actor reason :
  raises_clean (
    row ← fetchone_scheduled_date r;
    match row with
    | None => mret false
    | Some old =>
        t1 ← _now_iso;
        execute_update_date nd t1 actor r;;
        t2 ← _now_iso;
        execute_insert_audit "UPDATE_DATE" r (PStr old) nd actor reason t2;;
        commit;;
        mret true
    end).
Proof.
  apply clean_bind; [auto with txn|]. intros [old|].
  - repeat (apply clean_bind; [solve [auto with txn]|]; intros ?). apply clean_commit_ret.
  - apply clean_keeps. auto with txn.
Qed.

Lemma admin_delete_clean r actor reason :
  raises_clean (
    row ← fetchone_scheduled_date r;
    match row with
    | None => mret false
    | Some old =>
        execute_delete r;;
        t ← _now_iso;
        execute_insert_audit "DELETE" r (PStr old) PNone actor reason t;;
        commit;;
        mret true
    end).
Proof.
  apply clean_bind; [auto with txn|]. intros [old|].
  - repeat (apply clean_bind; [solve [auto with txn]|]; intros ?). apply clean_commit_ret.
  - apply clean_keeps. auto with txn.
Qed.

Lemma admin_update_atomic w r nd actor reason :
  update_outcome w r nd actor reason (admin_update_scheduled_date r nd actor reason w).
Proof.
  destruct (admin_update_scheduled_date r nd actor reason w) as [[e|b] w'] eqn:E.
  { right. split; [done|]. simpl. eapply with_conn_raise; [apply admin_update_clean|exact E]. }
  apply with_conn_ok in E as (c & E & ->).
  rewrite bind_run, fetchone_run in E. simpl in E.
  destruct (sqlite_int r) eqn:Hr; [|done].
  pose proof (head_filter_id r (scheduled_activities (store w))) as Hh.
  destruct (head _) as [row|]; simpl in E.
  2:{ injection E as <- <-. right. done. }
  destruct Hh as [Hin Hid]. left.
  rewrite bind_run in E. unfold _now_iso at 1 in E. rewrite bind_run in E.
  rewrite execute_update_date_run in E. simpl in E. rewrite Hr in E.
  destruct (bind_param nd) as [|p1] eqn:E1; [done|].
  destruct (bind_param actor) as [|p3] eqn:E3; [done|].
  pose proof (bind_param_text _ _ E1) as X1. pose proof (bind_param_text _ _ E3) as X3.
  destruct (text_affinity p1) as [sd|] eqn:T1.
  2:{ destruct (update_where_id_fail r (IntegrityError "scheduled_date") _ _ Hin Hid)
        as [e' He']. rewrite He' in E. done. }
  rewrite bind_run in E. unfold _now_iso at 1 in E. rewrite bind_run in E.
  rewrite execute_insert_audit_run in E. simpl in E. rewrite Hr, E1, E3 in E.
  destruct (bind_param reason) as [|p6] eqn:E6; [done|]. apply bind_param_text in E6.
  destruct (next_rowid _ _) as [|n]; [done|].
  destruct (text_affinity p3) as [ac|] eqn:Ta; [|done].
  destruct (text_affinity p6) as [re|] eqn:T6; [|done].
  injection E as <- <-. simpl. split; [done|].
  exists row, sd, ac, re, n. rewrite <- X1, <- X3, <- E6, T1. done.
Qed.
End AdminAtomic.

(** ** Row ids and the invariant *)

Section RowIds.
Context `{Runtime}.

Lemma admin_delete_atomic w r actor reason :
  delete_outcome w r actor reason (admin_delete_record r actor reason w).
Proof.
  destruct (admin_delete_record r actor reason w) as [[e|b] w'] eqn:E.
  { right. split; [done|]. simpl. eapply with_conn_raise; [apply admin_delete_clean|exact E]. }
  apply with_conn_ok in E as (c & E & ->).
  rewrite bind_run, fetchone_run in E. simpl in E.
  destruct (sqlite_int r) eqn:Hr; [|done].
  pose proof (head_filter_id r (scheduled_activities (store w))) as Hh.
  destruct (head _) as [row|]; simpl in E.
  2:{ injection E as <- <-. right. done. }
  destruct Hh as [Hin Hid]. left.
  rewrite bind_run, execute_delete_run in E. simpl in E. rewrite Hr in E.
  rewrite bind_run in E. unfold _now_iso at 1 in E. rewrite bind_run in E.
  rewrite execute_insert_audit_run in E. simpl in E. rewrite Hr in E.
  destruct (bind_param actor) as [|p5] eqn:E5; [done|].
  destruct (bind_param reason) as [|p6] eqn:E6; [done|].
  apply bind_param_text in E5, E6.
  destruct (next_rowid _ _) as [|n]; [done|].
  destruct (text_affinity p5) as [ac|] eqn:T5; [|done].
  destruct (text_affinity p6) as [re|] eqn:T6; [|done].
  injection E as <- <-. simpl. split; [done|].
  exists row, ac, re, n. rewrite <- E5, <- E6. done.
Qed.

Lemma world_eta (w : world) : World (store w) (clock w) = w.
Proof. by destruct w. Qed.

Lemma admin_update_missing w r nd actor reason :
  sqlite_int r = true ->
  (forall row, row ∈ scheduled_activities (store w) -> sa_id row ≠ r) ->
  admin_update_scheduled_date r nd actor reason w = (inr false, w).
Proof.
  intros Hr Hm. unfold admin_update_scheduled_date, with_conn.
  rewrite bind_run, fetchone_run. simpl. rewrite Hr.
  pose proof (head_filter_id r (scheduled_activities (store w))) as Hh.
  destruct (head _) as [row|]; simpl.
  - destruct Hh as [Hin Hid]. by apply Hm in Hin.
  - by rewrite world_eta.
Qed.

Lemma admin_delete_missing w r actor reason :
  sqlite_int r = true ->
  (forall row, row ∈ scheduled_activities (store w) -> sa_id row ≠ r) ->
  admin_delete_record r actor reason w = (inr false, w).
Proof.
  intros Hr Hm. unfold admin_delete_record, with_conn.
  rewrite bind_run, fetchone_run. simpl. rewrite Hr.
  pose proof (head_filter_id r (scheduled_activities (store w))) as Hh.
  destruct (head _) as [row|]; simpl.
  - destruct Hh as [Hin Hid]. by apply Hm in Hin.
  - by rewrite world_eta.
Qed.

Lemma admin_update_unbindable w r nd actor reason :
  sqlite_int r = false ->
  admin_update_scheduled_date r nd actor reason w = (inl OverflowError, w).
Proof.
  intros Hr. unfold admin_update_scheduled_date, with_conn.
  rewrite bind_run, fetchone_run. simpl. rewrite Hr. simpl. by rewrite world_eta.
Qed.

Lemma admin_delete_unbindable w r actor reason :
  sqlite_int r = false ->
  admin_delete_record r actor reason w = (inl OverflowError, w).
Proof.
  intros Hr. unfold admin_delete_record, with_conn.
  rewrite bind_run, fetchone_run. simpl. rewrite Hr. simpl. by rewrite world_eta.
Qed.

Lemma foldr_max_bound (seq : Z) (ids : list Z) :
  Forall (fun i => i <= seq) ids -> foldr Z.max seq ids = seq.
Proof. induction 1 as [|i ids Hi _ IH]; simpl; [done|]. rewrite IH. lia. Qed.

Lemma foldr_max_ge (seq : Z) (ids : list Z) :
  seq <= foldr Z.max seq ids /\ Forall (fun i => i <= foldr Z.max seq ids) ids.
Proof.
  induction ids as [|i ids [IH1 IH2]]; simpl; [split; [lia|constructor]|].
  split; [lia|]. constructor; [lia|]. eapply Forall_impl; [exact IH2|]. simpl. lia.
Qed.

Lemma next_rowid_room (seq : Z) (ids : list Z) :
  Forall (fun i => 1 <= i <= seq) ids -> seq < 2 ^ 63 - 1 ->
  next_rowid seq ids = inr (seq + 1).
Proof.
  intros Hids Hroom. unfold next_rowid. rewrite foldr_max_bound.
  - by destruct (Z.ltb_spec seq (2 ^ 63 - 1)); [|lia].
  - eapply Forall_impl; [exact Hids|]. simpl. lia.
Qed.

Lemma next_rowid_fresh (seq : Z) (ids : list Z) n :
  next_rowid seq ids = inr n ->
  seq < n /\ n < 2 ^ 63 /\ Forall (fun i => i < n) ids.
Proof.
  unfold next_rowid. destruct (foldr_max_ge seq ids) as [H1 H2].
  destruct (Z.ltb_spec (foldr Z.max seq ids) (2 ^ 63 - 1)); [|done].
  intros [= <-]. split; [lia|]. split; [lia|].
  eapply Forall_impl; [exact H2|]. simpl. lia.
Qed.

Lemma wf_id_int d row :
  wf_db d -> row ∈ scheduled_activities d -> sqlite_int (sa_id row) = true.
Proof.
  intros Hwf Hin. pose proof (wf_sa_ids _ Hwf) as Hids. pose proof (wf_sa_seq _ Hwf).
  rewrite Forall_forall in Hids. specialize (Hids (sa_id row)).
  assert (sa_id row ∈ sa_id <$> scheduled_activities d) as Hm by by apply list_elem_of_fmap_2.
  apply Hids in Hm. unfold sqlite_int. apply andb_true_intro.
  split; [apply Z.leb_le|apply Z.ltb_lt]; lia.
Qed.

Lemma head_filter_unique (rows : list activity) row :
  NoDup (sa_id <$> rows) -> row ∈ rows ->
  head (filter (fun x => sa_id x = sa_id row) rows) = Some row.
Proof.
  intros Hnd Hin. pose proof (head_filter_id (sa_id row) rows) as Hh.
  destruct (head _) as [row'|].
  - destruct Hh as [Hin' Hid]. f_equal.
    apply list_elem_of_lookup in Hin as [i Hi]. apply list_elem_of_lookup in Hin' as [j Hj].
    assert (i = j) as ->.
    { eapply NoDup_lookup; [exact Hnd|..]; rewrite list_lookup_fmap.
      - by rewrite Hi.
      - rewrite Hj. simpl. by rewrite Hid. }
    congruence.
  - by apply Hh in Hin.
Qed.

Lemma admin_update_str w row d1 actor reason :
  wf_db (store w) -> seq_audit_log (store w) < 2 ^ 63 - 1 ->
  row ∈ scheduled_activities (store w) ->
  admin_update_scheduled_date (sa_id row) (PStr d1) (PStr actor) (PStr reason) w =
  (inr true,
   World (Db (reschedule (sa_id row) d1 (now_iso (clock w)) (Some actor)
                <$> scheduled_activities (store w))
             (seq_scheduled_activities (store w))
             (audit_log (store w) ++
                [Audit (seq_audit_log (store w) + 1) "UPDATE_DATE" (sa_id row)
                       (Some (sa_scheduled_date row)) (Some d1) actor reason
                       (now_iso (S (clock w)))])
             (seq_audit_log (store w) + 1))
         (S (S (clock w)))).
Proof.
  intros Hwf Hroom Hin. unfold admin_update_scheduled_date, with_conn.
  rewrite bind_run, fetchone_run. simpl.
  rewrite (wf_id_int _ _ Hwf Hin), (head_filter_unique _ _ (wf_sa_nodup _ Hwf) Hin). simpl.
  rewrite bind_run. unfold _now_iso at 1. rewrite bind_run, execute_update_date_run. simpl.
  rewrite (wf_id_int _ _ Hwf Hin). rewrite bind_run. unfold _now_iso at 1.
  rewrite bind_run, execute_insert_audit_run. simpl.
  rewrite (wf_id_int _ _ Hwf Hin), (next_rowid_room _ _ (wf_al_ids _ Hwf) Hroom). done.
Qed.

Lemma admin_delete_str w row actor reason :
  wf_db (store w) -> seq_audit_log (store w) < 2 ^ 63 - 1 ->
  row ∈ scheduled_activities (store w) ->
  admin_delete_record (sa_id row) (PStr actor) (PStr reason) w =
  (inr true,
   World (Db (filter (fun x => sa_id x ≠ sa_id row) (scheduled_activities (store w)))
             (seq_scheduled_activities (store w))
             (audit_log (store w) ++
                [Audit (seq_audit_log (store w) + 1) "DELETE" (sa_id row)
                       (Some (sa_scheduled_date row)) None actor reason
                       (now_iso (clock w))])
             (seq_audit_log (store w) + 1))
         (S (clock w))).
Proof.
  intros Hwf Hroom Hin. unfold admin_delete_record, with_conn.
  rewrite bind_run, fetchone_run. simpl.
  rewrite (wf_id_int _ _ Hwf Hin), (head_filter_unique _ _ (wf_sa_nodup _ Hwf) Hin). simpl.
  rewrite bind_run, execute_delete_run. simpl. rewrite (wf_id_int _ _ Hwf Hin).
  rewrite bind_run. unfold _now_iso at 1.
  rewrite bind_run, execute_insert_audit_run. simpl.
  rewrite (wf_id_int _ _ Hwf Hin), (next_rowid_room _ _ (wf_al_ids _ Hwf) Hroom). done.
Qed.
End RowIds.

(** ** The range query *)

Lemma insert_sorted_perm {A} (le : A -> A -> bool) x l : insert_sorted le x l ≡ₚ x :: l.
Proof.
  induction l as [|y l IH]; simpl; [done|].
  destruct (le x y); [done|]. rewrite IH. apply Permutation_swap.
Qed.

Lemma sort_by_perm {A} (le : A -> A -> bool) l : sort_by le l ≡ₚ l.
Proof.
  unfold sort_by. induction l as [|x l IH]; simpl; [done|].
  rewrite insert_sorted_perm. by rewrite IH.
Qed.

Lemma elem_of_sort_by {A} (le : A -> A -> bool) l x : x ∈ sort_by le l <-> x ∈ l.
Proof. by rewrite sort_by_perm. Qed.

Section Query.
Context `{Runtime}.

Lemma get_month_records_run date_from date_to specialist w :
  get_month_records date_from date_to specialist w =
  (to_frame (month_rows date_from date_to specialist (store w)), w).
Proof.
  unfold get_month_records, with_conn, fetchall_month. rewrite bind_run. simpl.
  rewrite world_eta. unfold month_rows. by destruct (sort_by _ _).
Qed.

Lemma to_frame_nil : to_frame [] = inr [].
Proof. done. Qed.

Lemma to_frame_ok rows df : to_frame rows = inr df -> Forall2 to_df_row rows df.
Proof.
  revert df. induction rows as [|r rows IH]; simpl; intros df.
  - intros [= <-]. constructor.
  - destruct (to_datetime _) as [d|] eqn:E; [|done].
    destruct (to_frame rows) as [|df']; [done|]. intros [= <-].
    constructor; [by exists d|by apply IH].
Qed.

Lemma to_frame_total rows :
  Forall (fun r => is_Some (to_datetime (sa_scheduled_date r))) rows ->
  exists df, to_frame rows = inr df.
Proof.
  induction 1 as [|r rows [d Hd] _ [df IH]]; simpl; [eauto|].
  rewrite Hd, IH. eauto.
Qed.

Lemma month_rows_elem date_from date_to specialist d r :
  r ∈ month_rows date_from date_to specialist d <->
  r ∈ scheduled_activities d /\
  month_where (isoformat date_from) (isoformat date_to) (specialist_param specialist) r = true.
Proof. unfold month_rows. rewrite elem_of_sort_by, list_elem_of_filter. tauto. Qed.

Lemma month_where_date a b sp r :
  month_where a b sp r = true -> is_Some (sql_date (sa_scheduled_date r)).
Proof.
  unfold month_where. intros Hw. apply andb_prop in Hw as [Hw _].
  apply andb_prop in Hw as [_ Hw]. unfold sql_le in Hw.
  destruct (sql_date (sa_scheduled_date r)); [eauto|done].
Qed.

(** What a query returns, in terms of the rows it fetched. *)
Lemma get_month_records_frame date_from date_to specialist w df :
  (get_month_records date_from date_to specialist w).1 = inr df ->
  Forall2 to_df_row (month_rows date_from date_to specialist (store w)) df.
Proof.
  rewrite get_month_records_run. apply to_frame_ok.
Qed.

Lemma get_month_records_total date_from date_to specialist w :
  Forall pandas_reads (sa_scheduled_date <$> scheduled_activities (store w)) ->
  exists df, (get_month_records date_from date_to specialist w).1 = inr df.
Proof.
  intros Hr. rewrite get_month_records_run. simpl.
  assert (Forall (fun r => is_Some (to_datetime (sa_scheduled_date r)))
            (month_rows date_from date_to specialist (store w))) as Hall.
  { apply Forall_forall. intros r Hin. apply month_rows_elem in Hin as [Hin Hw].
    rewrite Forall_forall in Hr. apply (Hr (sa_scheduled_date r)).
    - by apply list_elem_of_fmap_2.
    - by eapply month_where_date. }
  by apply to_frame_total.
Qed.
End Query.

Lemma nodup_id_inj (rows : list activity) r1 r2 :
  NoDup (sa_id <$> rows) -> r1 ∈ rows -> r2 ∈ rows -> sa_id r1 = sa_id r2 -> r1 = r2.
Proof.
  intros Hnd H1 H2 Hid.
  apply list_elem_of_lookup in H1 as [i Hi]. apply list_elem_of_lookup in H2 as [j Hj].
  assert (i = j) as ->; [|congruence].
  eapply NoDup_lookup; [exact Hnd|..]; rewrite list_lookup_fmap.
  - by rewrite Hi.
  - rewrite Hj. simpl. by rewrite Hid.
Qed.

Lemma reschedule_id rid sd t ub r : sa_id (reschedule rid sd t ub r) = sa_id r.
Proof. unfold reschedule. by destruct (sa_id r =? rid). Qed.



Section Reschedule.
Context `{Runtime}.

Lemma to_df_row_fun r dr1 dr2 : to_df_row r dr1 -> to_df_row r dr2 -> dr1 = dr2.
Proof. intros (d1 & E1 & ->) (d2 & E2 & ->). congruence. Qed.

Lemma to_df_row_id r dr : to_df_row r dr -> df_id dr = sa_id r.
Proof. by intros (d & _ & ->). Qed.

End Reschedule.

(** ** Every call is a step of the store *)

Lemma extends_refl d : extends d d.
Proof. split; [lia|auto|done]. Qed.

Lemma extends_trans d1 d2 d3 : extends d1 d2 -> extends d2 d3 -> extends d1 d3.
Proof.
  intros [S1 I1 A1] [S2 I2 A2]. split; [lia| |by etrans].
  intros i Hi. destruct (I2 i Hi) as [Hi2|Hlt]; [|right; lia]. auto.
Qed.

Lemma evolves_refl d : evolves d d.
Proof. split; [done|apply extends_refl]. Qed.

Lemma evolves_trans d1 d2 d3 : evolves d1 d2 -> evolves d2 d3 -> evolves d1 d3.
Proof. intros [W1 E1] [W2 E2]. split; [auto|by eapply extends_trans]. Qed.

Lemma evolves_bind {A B} (m : M A) (k : A -> M B) :
  stmt_evolves m -> (forall a, stmt_evolves (k a)) -> stmt_evolves (m ≫= k).
Proof.
  intros Hm Hk c b c' E. apply bind_ok in E as (a & c1 & E1 & E2).
  eapply evolves_trans; [by eapply Hm|by eapply Hk].
Qed.

Lemma evolves_ret {A} (a : A) : stmt_evolves (mret a : M A).
Proof. intros c b c' [= <- <-]. apply evolves_refl. Qed.
Lemma evolves_lift {A} (x : exn + A) : stmt_evolves (lift x).
Proof. intros c b c' [= _ <-]. apply evolves_refl. Qed.
Lemma evolves_raise {A} e : stmt_evolves (raise e : M A).
Proof. intros c b c' [=]. Qed.
Lemma evolves_now `{Runtime} : stmt_evolves _now_iso.
Proof. intros c b c' [= _ <-]. simpl. apply evolves_refl. Qed.
Lemma evolves_commit : stmt_evolves commit.
Proof. intros c b c' [= _ <-]. simpl. apply evolves_refl. Qed.
Lemma evolves_getitem r k : stmt_evolves (getitem r k).
Proof.
  unfold getitem. destruct (r !! k); [apply evolves_ret|apply evolves_raise].
Qed.

#[export] Hint Resolve evolves_ret evolves_lift evolves_raise evolves_now evolves_commit
  evolves_getitem : txn.

Lemma get_working_ok c d c' : get_working c = (inr d, c') -> d = working c /\ c' = c.
Proof. by intros [= <- <-]. Qed.

Lemma put_working_ok d c u c' :
  put_working d c = (inr u, c') -> c' = Conn (committed c) d (ticks c).
Proof. by intros [= <-]. Qed.

Ltac inv_lift H :=
  let a := fresh "p" in let c := fresh "c" in let E := fresh "E" in
  apply bind_ok in H as (a & c & E & H); apply lift_ok in E as [E ->].

Ltac inv_get H :=
  let a := fresh "d" in let c := fresh "c" in let E := fresh "E" in
  apply bind_ok in H as (a & c & E & H); apply get_working_ok in E as [-> ->].

Lemma wf_insert_activity d n r :
  wf_db d -> next_rowid (seq_scheduled_activities d) (sa_id <$> scheduled_activities d) = inr n ->
  sa_id r = n ->
  wf_db (Db (scheduled_activities d ++ [r]) n (audit_log d) (seq_audit_log d)).
Proof.
  intros [N1 I1 S1 N2 I2 S2] Hn Hr. apply next_rowid_fresh in Hn as (Hlt & Hmax & Hall).
  split; simpl; try done.
  - rewrite fmap_app. simpl. apply NoDup_app. split; [done|]. split; [|apply NoDup_singleton].
    intros i Hi Hi'. apply list_elem_of_singleton in Hi'. subst i.
    rewrite Forall_forall in Hall. apply Hall in Hi. lia.
  - rewrite fmap_app. apply Forall_app. split.
    + eapply Forall_impl; [exact I1|]. simpl. lia.
    + simpl. constructor; [lia|constructor].
  - lia.
Qed.

Lemma evolves_insert_activity a1 a2 a3 a4 a5 a6 a7 a8 :
  stmt_evolves (execute_insert_activity a1 a2 a3 a4 a5 a6 a7 a8).
Proof.
  intros c u c' E. unfold execute_insert_activity in E.
  do 8 inv_lift E. inv_get E. do 9 inv_lift E. apply put_working_ok in E as ->. simpl.
  split.
  - intros Hwf. by eapply wf_insert_activity.
  - apply next_rowid_fresh in E8 as (Hlt & _ & _). split; simpl; [lia| |done].
    intros i. rewrite fmap_app. simpl. intros Hi. apply elem_of_app in Hi as [Hi|Hi]; [by left|].
    apply list_elem_of_singleton in Hi. right. lia.
Qed.

Lemma evolves_insert_audit a1 a2 a3 a4 a5 a6 a7 :
  stmt_evolves (execute_insert_audit a1 a2 a3 a4 a5 a6 a7).
Proof.
  intros c u c' E. unfold execute_insert_audit in E.
  do 5 inv_lift E. inv_get E. do 3 inv_lift E. apply put_working_ok in E as ->. simpl.
  apply next_rowid_fresh in E5 as (Hlt & Hmax & Hall). split.
  - intros [N1 I1 S1 N2 I2 S2]. split; simpl; try done.
    + rewrite fmap_app. simpl. apply NoDup_app. split; [done|]. split; [|apply NoDup_singleton].
      intros i Hi Hi'. apply list_elem_of_singleton in Hi'. subst i.
      rewrite Forall_forall in Hall. apply Hall in Hi. lia.
    + rewrite fmap_app. apply Forall_app. split.
      * eapply Forall_impl; [exact I2|]. simpl. lia.
      * simpl. constructor; [lia|constructor].
    + lia.
  - split; simpl; [lia|auto|]. by apply prefix_app_r.
Qed.

Lemma evolves_same_ids d rows :
  sa_id <$> rows = sa_id <$> scheduled_activities d ->
  evolves d (Db rows (seq_scheduled_activities d) (audit_log d) (seq_audit_log d)).
Proof.
  intros Hids. split.
  - intros [N1 I1 S1 N2 I2 S2]. split; simpl; rewrite ?Hids; done.
  - split; simpl; [lia| |done]. rewrite Hids. auto.
Qed.

Lemma update_where_id_ids rid set rows rows' :
  (forall r r', set r = inr r' -> sa_id r' = sa_id r) ->
  update_where_id rid set rows = inr rows' -> sa_id <$> rows' = sa_id <$> rows.
Proof.
  intros Hset. revert rows'. induction rows as [|r rows IH]; simpl; intros rows'.
  - by intros [= <-].
  - destruct (if sa_id r =? rid then set r else inr r) as [|r1] eqn:E1; [done|].
    destruct (update_where_id rid set rows) as [|rest]; [done|]. intros [= <-].
    rewrite !fmap_cons, (IH rest eq_refl). f_equal.
    destruct (sa_id r =? rid); [by apply Hset|congruence].
Qed.

Lemma evolves_update_status a1 a2 a3 a4 a5 : stmt_evolves (execute_update_status a1 a2 a3 a4 a5).
Proof.
  intros c u c' E. unfold execute_update_status, put_activities in E.
  do 4 inv_lift E. inv_get E. inv_lift E. inv_get E. apply put_working_ok in E as ->. simpl.
  apply evolves_same_ids. eapply update_where_id_ids; [|exact E4].
  intros r r'. repeat case_match; try done. by intros [= <-].
Qed.

Lemma evolves_update_date a1 a2 a3 a4 : stmt_evolves (execute_update_date a1 a2 a3 a4).
Proof.
  intros c u c' E. unfold execute_update_date, put_activities in E.
  do 3 inv_lift E. inv_get E. inv_lift E. inv_get E. apply put_working_ok in E as ->. simpl.
  apply evolves_same_ids. eapply update_where_id_ids; [|exact E3].
  intros r r'. repeat case_match; try done. by intros [= <-].
Qed.

Lemma evolves_delete rid : stmt_evolves (execute_delete rid).
Proof.
  intros c u c' E. unfold execute_delete, put_activities in E.
  inv_lift E. inv_get E. inv_get E. apply put_working_ok in E as ->. simpl. split.
  - intros [N1 I1 S1 N2 I2 S2]. split; simpl; try done.
    + apply (NoDup_fmap_2_strong); [|by apply NoDup_filter, (NoDup_fmap_1 sa_id)].
      intros x y Hx Hy. apply list_elem_of_filter in Hx as [_ Hx], Hy as [_ Hy].
      by apply (nodup_id_inj (scheduled_activities (working c))).
    + apply Forall_forall. intros i Hi. apply list_elem_of_fmap in Hi as (x & -> & Hx).
      apply list_elem_of_filter in Hx as [_ Hx]. rewrite Forall_forall in I1. apply I1.
      by apply list_elem_of_fmap_2.
  - split; simpl; [lia| |done]. intros i Hi. left.
    apply list_elem_of_fmap in Hi as (x & -> & Hx). apply list_elem_of_filter in Hx as [_ Hx].
    by apply list_elem_of_fmap_2.
Qed.

Lemma evolves_fetchone rid : stmt_evolves (fetchone_scheduled_date rid).
Proof.
  intros c u c' E. unfold fetchone_scheduled_date in E. inv_lift E. inv_get E.
  injection E as _ <-. apply evolves_refl.
Qed.

#[export] Hint Resolve evolves_insert_activity evolves_insert_audit evolves_update_status
  evolves_update_date evolves_delete evolves_fetchone : txn.

Ltac evolves_auto :=
  repeat (first [ solve [auto with txn] | apply evolves_bind; [|intros ?] ]).

Lemma evolves_for_each {A} (body : A -> M unit) xs :
  (forall x, stmt_evolves (body x)) -> stmt_evolves (for_each body xs).
Proof.
  intros Hb. induction xs; simpl; [apply evolves_ret|]. apply evolves_bind; auto.
Qed.

Section Steps.
Context `{Runtime}.

Lemma evolves_add_record r : stmt_evolves (add_scheduled_record r).
Proof. unfold add_scheduled_record. evolves_auto. Qed.

Lemma evolves_update_record ch : stmt_evolves (update_record_status_and_notes ch).
Proof. unfold update_record_status_and_notes. evolves_auto. Qed.

(** A transaction is a step of the store, committed or rolled back. *)
Lemma with_conn_evolves {A} (body : M A) w :
  raises_clean body -> stmt_evolves body ->
  evolves (store w) (store (with_conn body w).2).
Proof.
  intros Hc He. destruct (with_conn body w) as [[e|a] w'] eqn:E; simpl.
  - apply with_conn_raise in E; [|done]. rewrite E. apply evolves_refl.
  - apply with_conn_ok in E as (c & E & ->). apply He in E. done.
Qed.

Lemma step_evolves w c : evolves (store w) (store (step w c)).
Proof.
  destruct c as [records|changes|r d a m|r a m]; simpl.
  - unfold add_scheduled_records. destruct records as [|x l]; [apply evolves_refl|].
    apply with_conn_evolves.
    + apply clean_bind; [|intros ?; apply clean_commit].
      apply keeps_for_each. auto with txn.
    + apply evolves_bind; [|intros ?; apply evolves_commit].
      apply evolves_for_each, evolves_add_record.
  - unfold update_records_status_and_notes. destruct changes as [|x l]; [apply evolves_refl|].
    apply with_conn_evolves.
    + apply clean_bind; [|intros ?; apply clean_commit].
      apply keeps_for_each. auto with txn.
    + apply evolves_bind; [|intros ?; apply evolves_commit].
      apply evolves_for_each, evolves_update_record.
  - apply with_conn_evolves; [apply admin_update_clean|].
    apply evolves_bind; [auto with txn|]. intros [old|]; evolves_auto.
  - apply with_conn_evolves; [apply admin_delete_clean|].
    apply evolves_bind; [auto with txn|]. intros [old|]; evolves_auto.
Qed.

Lemma run_evolves calls w : evolves (store w) (store (run calls w)).
Proof.
  revert w. induction calls as [|c calls IH]; intros w; simpl; [apply evolves_refl|].
  eapply evolves_trans; [apply step_evolves|apply IH].
Qed.

Lemma init_db_wf : wf_db init_db.
Proof. split; simpl; try constructor; lia. Qed.

(** Every store reached from the empty one by a run of calls satisfies
    the invariant. *)
Lemma reachable_wf calls n : wf_db (store (run calls (World init_db n))).
Proof. apply (run_evolves calls (World init_db n)). apply init_db_wf. Qed.
End Steps.

(** ** The administrative path *)

Section AdminPath.
Context `{Runtime}.

(** A query shows only rows of the table. *)
Lemma get_month_records_sound date_from date_to specialist w df dr :
  (get_month_records date_from date_to specialist w).1 = inr df -> dr ∈ df ->
  exists r, r ∈ scheduled_activities (store w) /\ to_df_row r dr /\
            month_where (isoformat date_from) (isoformat date_to)
                        (specialist_param specialist) r = true.
Proof.
  intros Hdf Hin. apply get_month_records_frame in Hdf.
  apply list_elem_of_lookup in Hin as [j Hj].
  destruct (Forall2_lookup_r _ _ _ _ _ Hdf Hj) as (r & Hr & Hto).
  apply list_elem_of_lookup_2, month_rows_elem in Hr as [Hr Hw]. eauto.
Qed.

(** C1.  A call of [admin_update_scheduled_date] or [admin_delete_record]
    leaves one of two things behind: it returned [True], a row with the
    given id existed, the table carries the mutation (the row rescheduled,
    or the row removed) and the audit log has grown by exactly one entry
    for it; or it did not return [True] and the store is exactly as it was.
    No outcome has the mutation without its audit entry or an audit entry
    without the mutation. *)
Theorem admin_mutation_and_audit_are_one_unit (w : world) (r : Z)
    (new_date actor reason : pyval) :
  update_outcome w r new_date actor reason
    (admin_update_scheduled_date r new_date actor reason w)
  /\ delete_outcome w r actor reason (admin_delete_record r actor reason w).
Proof. split; [apply admin_update_atomic|apply admin_delete_atomic]. Qed.

(** C3.  For a record id [r] stored with date [d0], [admin_delete_record]
    returns [True] and appends exactly one audit entry (DELETE, [r], [d0],
    no new date, the given actor and reason).  After it, and after any
    further run of writing calls, no row with id [r] is in the table, no
    range query shows [r], and the audit log still begins with the entries
    it had right after the deletion, the one for [r] included. *)
Theorem delete_existing_record (w : world) (r : Z) (row : activity) (actor reason : string) :
  wf_db (store w) ->
  seq_audit_log (store w) < 2 ^ 63 - 1 ->
  row ∈ scheduled_activities (store w) ->
  sa_id row = r ->
  let out := admin_delete_record r (PStr actor) (PStr reason) w in
  out.1 = inr true /\
  audit_log (store out.2) =
    audit_log (store w) ++
      [Audit (seq_audit_log (store w) + 1) "DELETE" r (Some (sa_scheduled_date row)) None
             actor reason (now_iso (clock w))] /\
  forall calls,
    let w' := run calls out.2 in
    (forall x, x ∈ scheduled_activities (store w') -> sa_id x ≠ r) /\
    (forall date_from date_to specialist df dr,
        (get_month_records date_from date_to specialist w').1 = inr df ->
        dr ∈ df -> df_id dr ≠ r) /\
    audit_log (store out.2) `prefix_of` audit_log (store w').
Proof.
  intros Hwf Hroom Hin <- out. subst out.
  rewrite (admin_delete_str w row actor reason Hwf Hroom Hin). simpl.
  split; [done|]. split; [done|]. intros calls. set (w1 := World _ _).
  destruct (run_evolves calls w1) as [_ [_ Hids Haud]].
  assert (forall x, x ∈ scheduled_activities (store (run calls w1)) -> sa_id x ≠ sa_id row)
    as Hgone.
  { intros x Hx Hid.
    destruct (Hids (sa_id x)) as [Hold|Hnew]; [by apply list_elem_of_fmap_2|..].
    - simpl in Hold. apply list_elem_of_fmap in Hold as (y & Hy & Hyin).
      apply list_elem_of_filter in Hyin as [Hne _]. congruence.
    - simpl in Hnew. pose proof (wf_sa_ids _ Hwf) as Hall. rewrite Forall_forall in Hall.
      specialize (Hall (sa_id row) (list_elem_of_fmap_2 _ _ _ Hin)). lia. }
  split; [exact Hgone|]. split; [|exact Haud].
  intros date_from date_to specialist df dr Hdf Hdr.
  destruct (get_month_records_sound _ _ _ _ _ _ Hdf Hdr) as (x & Hx & Hto & _).
  rewrite (to_df_row_id _ _ Hto). by apply Hgone.
Qed.

(** C4, amended.  For an id [r] that no row of the table carries,
    [admin_update_scheduled_date] and [admin_delete_record] leave the
    world as it was: no row changes and no audit entry is appended.  Both
    return [False] when [r] is within the signed 64-bit range of SQLite's
    integers; outside that range the SELECT cannot bind [r] and both raise
    [OverflowError] instead. *)
Theorem admin_on_missing_id (w : world) (r : Z) (new_date actor reason : pyval) :
  (forall row, row ∈ scheduled_activities (store w) -> sa_id row ≠ r) ->
  let outcome : exn + bool := if sqlite_int r then inr false else inl OverflowError in
  admin_update_scheduled_date r new_date actor reason w = (outcome, w)
  /\ admin_delete_record r actor reason w = (outcome, w).
Proof.
  intros Hm outcome. subst outcome. destruct (sqlite_int r) eqn:Hr.
  - split; [by apply admin_update_missing|by apply admin_delete_missing].
  - split; [by apply admin_update_unbindable|by apply admin_delete_unbindable].
Qed.


(** C8.  When the range query returns no rows, the export is the sheet
    titled "Matriz" whose only cell is A1 with the text "Sin datos para el
    rango seleccionado": no header row, no day columns, no merged range. *)
Theorem export_without_rows (month_first month_last : pydate) (specialist : option string)
    (w w' : world) :
  get_month_records month_first month_last specialist w = (inr [], w') ->
  export_month_matrix_xlsx_bytes month_first month_last specialist w = (inr no_data_sheet, w')
  /\ title no_data_sheet = "Matriz"
  /\ cells no_data_sheet = {[ (1, 1) := PStr "Sin datos para el rango seleccionado" ]}
  /\ merged_cells no_data_sheet = [].
Proof.
  intros Hq. unfold export_month_matrix_xlsx_bytes. rewrite Hq. done.
Qed.
End AdminPath.

(** ** Status updates *)

Lemma py_or_text v d p :
  bind_param (py_or v (PStr d)) = inr p -> text_affinity p = Some (or_text v d).
Proof.
  intros E. rewrite (bind_param_text _ _ E). unfold py_or, or_text, truthy.
  destruct v as [|s|z]; simpl; [done|..].
  - by destruct (String.eqb s "").
  - by destruct (z =? 0).
Qed.

Lemma set_status_frame rid st no t ub r :
  frame_fields (set_status rid st no t ub r) = frame_fields r.
Proof. unfold set_status. by destruct (sa_id r =? rid). Qed.

Section Status.
Context `{Runtime}.

Lemma update_record_ok ch c c' :
  update_record_status_and_notes ch c = (inr tt, c') ->
  exists rid,
    change_target ch = Some rid /\
    c' = Conn (committed c)
           (Db (set_status rid (or_text (dict_get ch "status" (PStr "")) "")
                  (or_text (dict_get ch "notes" (PStr "")) "")
                  (now_iso (ticks c))
                  (Some (or_text (dict_get ch "actor" (PStr "—")) "—"))
                  <$> scheduled_activities (working c))
               (seq_scheduled_activities (working c)) (audit_log (working c))
               (seq_audit_log (working c)))
           (S (ticks c)).
Proof.
  unfold update_record_status_and_notes, change_target. intros E.
  apply bind_ok in E as (t & c1 & Et & E). injection Et as <- <-.
  apply bind_ok in E as (v & c2 & Ev & E). unfold getitem in Ev.
  destruct (ch !! "id") as [v'|]; [|done]. injection Ev as <- <-.
  inv_lift E. rewrite E0. exists p. split; [done|].
  unfold execute_update_status, put_activities in E.
  do 4 inv_lift E. inv_get E. inv_lift E. inv_get E. apply put_working_ok in E as ->. simpl.
  apply py_or_text in E1, E2, E3. rewrite E1, E2 in E5. simpl in E5.
  rewrite update_where_id_total in E5. injection E5 as <-. rewrite E3. done.
Qed.

Lemma last_change_None rid ch rest :
  last_change rid (ch :: rest) = None ->
  change_target ch ≠ Some rid /\ last_change rid rest = None.
Proof.
  simpl. destruct (last_change rid rest) as [[i c]|]; [done|].
  destruct (decide _); [done|]. done.
Qed.

Lemma for_each_update_ok changes c c' :
  for_each update_record_status_and_notes changes c = (inr tt, c') ->
  committed c' = committed c /\
  audit_log (working c') = audit_log (working c) /\
  seq_audit_log (working c') = seq_audit_log (working c) /\
  seq_scheduled_activities (working c') = seq_scheduled_activities (working c) /\
  frame_fields <$> scheduled_activities (working c')
    = frame_fields <$> scheduled_activities (working c) /\
  forall k row, scheduled_activities (working c) !! k = Some row ->
    exists row', scheduled_activities (working c') !! k = Some row' /\
                 updated_as row row' (ticks c) (last_change (sa_id row) changes).
Proof.
  revert c. induction changes as [|ch rest IH]; intros c E.
  - injection E as <-. repeat split; try done. intros k row Hk. exists row. done.
  - simpl in E. apply bind_ok in E as ([] & c1 & E1 & E).
    apply update_record_ok in E1 as (rid & Ht & ->).
    apply IH in E as (Hc & Ha & Hsa & Hss & Hf & Hrows). simpl in *.
    split; [done|]. split; [done|]. split; [done|]. split; [done|]. split.
    { rewrite Hf, <- list_fmap_compose. apply list_fmap_ext. intros i x _. simpl.
      apply set_status_frame. }
    intros k row Hk.
    destruct (Hrows k (set_status rid (or_text (dict_get ch "status" (PStr "")) "")
                         (or_text (dict_get ch "notes" (PStr "")) "")
                         (now_iso (ticks c))
                         (Some (or_text (dict_get ch "actor" (PStr "—")) "—")) row))
      as (row' & Hk' & Hup).
    { rewrite list_lookup_fmap, Hk. done. }
    exists row'. split; [done|].
    assert (sa_id (set_status rid (or_text (dict_get ch "status" (PStr "")) "")
                         (or_text (dict_get ch "notes" (PStr "")) "")
                         (now_iso (ticks c))
                         (Some (or_text (dict_get ch "actor" (PStr "—")) "—")) row)
            = sa_id row) as Hid.
    { unfold set_status. by destruct (sa_id row =? rid). }
    rewrite Hid in Hup. simpl.
    destruct (last_change (sa_id row) rest) as [[i c0]|]; simpl in *.
    { by rewrite Nat.add_succ_r. }
    subst row'. unfold set_status. rewrite Ht.
    destruct (decide (Some rid = Some (sa_id row))) as [[= ->]|Hne].
    + rewrite Z.eqb_refl. simpl. by rewrite Nat.add_0_r.
    + destruct (Z.eqb_spec (sa_id row) rid); [congruence|done].
Qed.

End Status.

(** ** Batch creation *)

Lemma required_ok_bind r k :
  required_ok r k = true ->
  exists v p, r !! k = Some v /\ bind_param v = inr p
              /\ text_affinity p = Some (field_text r k).
Proof.
  unfold required_ok, field_text. destruct (r !! k) as [[|s|z]|] eqn:E; try done.
  - intros _. exists (PStr s), (SText s). done.
  - intros Hz. exists (PInt z), (SInt z). simpl. rewrite Hz. done.
Qed.

Lemma required_ko_bind r k :
  required_ok r k = false ->
  r !! k = None \/ r !! k = Some PNone \/ exists z, r !! k = Some (PInt z) /\ sqlite_int z = false.
Proof.
  unfold required_ok. destruct (r !! k) as [[|s|z]|] eqn:E; try done; eauto.
Qed.

Lemma optional_ok_bind r k d :
  optional_ok r k = true ->
  exists p, bind_param (py_or (dict_get r k (PStr d)) (PStr d)) = inr p
            /\ text_affinity p = Some (or_text (dict_get r k (PStr d)) d).
Proof.
  unfold optional_ok, dict_get. intros Hok.
  assert (exists p, bind_param (py_or (default (PStr d) (r !! k)) (PStr d)) = inr p) as [p Hp].
  { destruct (r !! k) as [[|s|z]|]; simpl in *; unfold py_or; simpl;
      repeat case_match; simpl; rewrite ?Hok; eauto. }
  exists p. split; [done|]. by apply py_or_text.
Qed.

Lemma optional_ko_bind r k d :
  optional_ok r k = false ->
  bind_param (py_or (dict_get r k (PStr d)) (PStr d)) = inl OverflowError.
Proof.
  unfold optional_ok, dict_get. destruct (r !! k) as [[|s|z]|]; try done. simpl.
  intros Hz. unfold py_or. simpl. destruct (Z.eqb_spec z 0) as [->|_]; [done|].
  simpl. by rewrite Hz.
Qed.

Section Batch.
Context `{Runtime}.

Lemma add_record_run r c n :
  insertable r = true ->
  next_rowid (seq_scheduled_activities (working c))
             (sa_id <$> scheduled_activities (working c)) = inr n ->
  add_scheduled_record r c =
  (inr tt, Conn (committed c)
             (Db (scheduled_activities (working c) ++ [new_row r n (now_iso (ticks c))])
                 n (audit_log (working c)) (seq_audit_log (working c)))
             (S (ticks c))).
Proof.
  unfold insertable. intros Hins Hn. repeat (apply andb_prop in Hins as [Hins ?]).
  destruct (required_ok_bind r "specialist") as (v1 & p1 & G1 & B1 & T1); [done|].
  destruct (required_ok_bind r "activity") as (v2 & p2 & G2 & B2 & T2); [done|].
  destruct (required_ok_bind r "unit") as (v3 & p3 & G3 & B3 & T3); [done|].
  destruct (required_ok_bind r "scheduled_date") as (v4 & p4 & G4 & B4 & T4); [done|].
  destruct (optional_ok_bind r "status" "") as (p5 & B5 & T5); [done|].
  destruct (optional_ok_bind r "notes" "") as (p6 & B6 & T6); [done|].
  destruct (optional_ok_bind r "created_by" "—") as (p8 & B8 & T8); [done|].
  unfold add_scheduled_record, getitem. rewrite G1, G2, G3, G4.
  unfold execute_insert_activity, _now_iso, lift, get_working, put_working.
  unfold mbind, M_bind, mret, M_ret. simpl.
  rewrite B1, B2, B3, B4, B5, B6, B8. simpl.
  rewrite Hn. simpl. rewrite T1, T2, T3, T4, T5, T6, T8. simpl. done.
Qed.

Lemma add_record_raises r c :
  insertable r = false -> exists e c', add_scheduled_record r c = (inl e, c').
Proof.
  intros Hins. destruct (add_scheduled_record r c) as [[e|[]] c'] eqn:E; [eauto|].
  exfalso. unfold add_scheduled_record in E.
  apply bind_ok in E as (v1 & c1 & G1 & E). apply bind_ok in E as (v2 & c2 & G2 & E).
  apply bind_ok in E as (v3 & c3 & G3 & E). apply bind_ok in E as (v4 & c4 & G4 & E).
  apply bind_ok in E as (t & c5 & _ & E).
  unfold getitem in G1, G2, G3, G4.
  destruct (r !! "specialist") as [x1|] eqn:L1; [|done].
  destruct (r !! "activity") as [x2|] eqn:L2; [|done].
  destruct (r !! "unit") as [x3|] eqn:L3; [|done].
  destruct (r !! "scheduled_date") as [x4|] eqn:L4; [|done].
  injection G1 as -> _. injection G2 as -> _. injection G3 as -> _. injection G4 as -> _.
  unfold execute_insert_activity in E.
  do 8 inv_lift E. inv_get E. do 9 inv_lift E.
  assert (forall k v q s, r !! k = Some v -> bind_param v = inr q ->
            not_null k (text_affinity q) = inr s -> required_ok r k = true) as Hreq.
  { intros k v q s Hk Hb Hn. unfold required_ok. rewrite Hk.
    destruct v as [|s'|z]; simpl in *; [by injection Hb as <-|done|].
    by destruct (sqlite_int z). }
  assert (forall k d q, bind_param (py_or (dict_get r k (PStr d)) (PStr d)) = inr q ->
            optional_ok r k = true) as Hopt.
  { intros k d q Hb. destruct (optional_ok r k) eqn:Ho; [done|].
    apply (optional_ko_bind r k d) in Ho. congruence. }
  unfold insertable in Hins.
  rewrite (Hreq _ _ _ _ L1 E0 E9), (Hreq _ _ _ _ L2 E1 E10), (Hreq _ _ _ _ L3 E2 E11),
    (Hreq _ _ _ _ L4 E3 E12), (Hopt _ _ _ E4), (Hopt _ _ _ E5), (Hopt _ _ _ E7) in Hins.
  done.
Qed.

Lemma for_each_add_raises records c :
  (exists r, r ∈ records /\ insertable r = false) ->
  exists e c', for_each add_scheduled_record records c = (inl e, c').
Proof.
  intros (r & Hin & Hr). revert c. induction Hin as [r rest|r r' rest Hin IH]; intros c; simpl.
  - destruct (add_record_raises r c Hr) as (e & c' & E). rewrite bind_run, E. eauto.
  - rewrite bind_run. destruct (add_scheduled_record r' c) as [[e|[]] c1]; [eauto|].
    by apply IH.
Qed.

Lemma for_each_add_run records c :
  Forall (fun r => insertable r = true) records ->
  Forall (fun i => 1 <= i <= seq_scheduled_activities (working c))
         (sa_id <$> scheduled_activities (working c)) ->
  0 <= seq_scheduled_activities (working c) ->
  seq_scheduled_activities (working c) + Z.of_nat (length records) < 2 ^ 63 ->
  for_each add_scheduled_record records c =
  (inr tt, Conn (committed c)
             (Db (scheduled_activities (working c)
                    ++ new_rows records (seq_scheduled_activities (working c) + 1) (ticks c))
                 (seq_scheduled_activities (working c) + Z.of_nat (length records))
                 (audit_log (working c)) (seq_audit_log (working c)))
             (ticks c + length records)%nat).
Proof.
  intros Hall. revert c. induction Hall as [|r rest Hr _ IH]; intros c Hids Hpos Hroom.
  - simpl. rewrite app_nil_r, Z.add_0_r, Nat.add_0_r. by destruct c as [? []].
  - simpl for_each. rewrite bind_run.
    rewrite (add_record_run r c (seq_scheduled_activities (working c) + 1) Hr).
    2:{ apply next_rowid_room; [done|]. simpl length in Hroom. lia. }
    rewrite IH; simpl.
    + rewrite <- app_assoc. simpl.
      replace (seq_scheduled_activities (working c) + 1 + Z.of_nat (length rest))
        with (seq_scheduled_activities (working c) + Z.of_nat (S (length rest))) by lia.
      replace (S (ticks c + length rest)) with (ticks c + S (length rest))%nat by lia.
      done.
    + rewrite fmap_app. apply Forall_app. split.
      * eapply Forall_impl; [exact Hids|]. simpl. lia.
      * simpl. constructor; [|constructor]. lia.
    + lia.
    + simpl length in Hroom. lia.
Qed.
End Batch.

Section CreateBatch.
Context `{Runtime}.

Lemma add_records_clean records :
  raises_clean (for_each add_scheduled_record records;; commit).
Proof.
  apply clean_bind; [|intros ?; apply clean_commit]. apply keeps_for_each. auto with txn.
Qed.

(** C6, amended.  [add_scheduled_records] changes nothing on an empty list;
    whenever it raises, no row of the batch is stored; it raises when some
    record lacks specialist, activity, unit or scheduled_date (key absent
    or [None]) or carries an integer beyond 64 bits; otherwise, while
    rowids remain, every record becomes a row, with consecutive fresh ids,
    created_at read from the clock, and status and notes defaulting to
    the empty string.  Empty strings in the text fields are accepted. *)
Theorem create_batch_all_or_nothing (records : list (gmap string pyval)) (w : world) :
  wf_db (store w) ->
  let out := add_scheduled_records records w in
  (records = [] -> out = (inr tt, w))
  /\ (forall e, out.1 = inl e -> store out.2 = store w)
  /\ ((exists r, r ∈ records /\ insertable r = false) -> exists e, out.1 = inl e)
  /\ (Forall (fun r => insertable r = true) records ->
      seq_scheduled_activities (store w) + Z.of_nat (length records) < 2 ^ 63 ->
      out.1 = inr tt /\
      store out.2 =
        Db (scheduled_activities (store w)
              ++ new_rows records (seq_scheduled_activities (store w) + 1) (clock w))
           (seq_scheduled_activities (store w) + Z.of_nat (length records))
           (audit_log (store w)) (seq_audit_log (store w))).
Proof.
  intros Hwf out. subst out. destruct records as [|r0 rest].
  { simpl. split; [done|]. split; [done|]. split.
    - intros (r & Hr & _). by apply not_elem_of_nil in Hr.
    - intros _ _. split; [done|]. rewrite app_nil_r, Z.add_0_r. by destruct (store w). }
  set (records := r0 :: rest). unfold add_scheduled_records. fold records.
  change (match records with [] => (inr (), w) | _ :: _ =>
            with_conn (for_each add_scheduled_record records;; commit) w end)
    with (with_conn (for_each add_scheduled_record records;; commit) w).
  split; [done|]. split; [|split].
  - intros e He. destruct (with_conn _ w) as [res w'] eqn:E. cbn [fst snd] in *. subst res.
    exact (with_conn_raise _ _ _ _ (add_records_clean records) E).
  - intros Hbad.
    destruct (for_each_add_raises records (Conn (store w) (store w) (clock w)) Hbad)
      as (e & c' & E).
    exists e. unfold with_conn. rewrite bind_run, E. done.
  - intros Hall Hroom. unfold with_conn. rewrite bind_run.
    rewrite for_each_add_run; simpl; try done.
    + apply (wf_sa_ids _ Hwf).
    + apply (wf_sa_seq _ Hwf).
Qed.
End CreateBatch.

(** C6 as stated fails: a batch whose record has empty specialist,
    activity and unit is stored without error. *)
Lemma create_batch_accepts_empty_strings :
  blank_record !! "specialist" = Some (PStr "")
  /\ blank_record !! "activity" = Some (PStr "")
  /\ blank_record !! "unit" = Some (PStr "")
  /\ @add_scheduled_records iso_runtime [blank_record] (World init_db 0)
     = (inr tt,
        World (Db [Activity 1 "" "" "" "2024-03-01" "" "" "2024-03-01 09:00:00" "—"
                            None None]
                  1 [] 0)
              1).
Proof. vm_compute. done. Qed.

Lemma create_batch_all_or_nothing_witness :
  wf_db init_db
  /\ (@add_scheduled_records iso_runtime march_batch (World init_db 0)).1 = inr tt.
Proof.
  split; [apply init_db_wf|].
  apply (create_batch_all_or_nothing (H:=iso_runtime) march_batch (World init_db 0)
           init_db_wf).
  - repeat constructor.
  - vm_compute. reflexivity.
Defined.

(** ** The admin tab, the export, and worked runs *)

Section Handlers.
Context `{Runtime}.

Lemma strip_or_blank s d : strip s = "" -> strip_or s d = d.
Proof. unfold strip_or. intros ->. done. Qed.

Lemma strip_or_given s d : strip s ≠ "" -> strip_or s d = strip s.
Proof.
  unfold strip_or, truthy. intros Hs. by destruct (String.eqb_spec (strip s) "").
Qed.

Lemma strip_or_nonempty s d : d ≠ "" -> strip_or s d ≠ "".
Proof.
  intros Hd. unfold strip_or, truthy. by destruct (String.eqb_spec (strip s) "").
Qed.

(** C9, amended.  The "Actualizar fecha" handler of the admin tab passes
    "ADMIN" for a blank actor name and "—" for a blank reason (blank after
    [strip]), and the stripped text otherwise; so the audit entry a call
    through the handler records, and the updated_by of the row, never
    carry an empty actor or reason. *)
Theorem admin_tab_fills_blank_actor_and_reason (w : world) (rid : Z) (nueva_fecha : pydate)
    (actor_name motivo : string) :
  let out := tab_admin_update rid nueva_fecha actor_name motivo w in
  let actor := if decide (strip actor_name = "") then "ADMIN" else strip actor_name in
  let reason := if decide (strip motivo = "") then "—" else strip motivo in
  actor ≠ "" /\ reason ≠ "" /\
  (store out.2 = store w
   \/ exists a,
        audit_log (store out.2) = audit_log (store w) ++ [a] /\
        al_record_id a = rid /\ al_actor a = actor /\ al_reason a = reason /\
        exists row, row ∈ scheduled_activities (store out.2) /\ sa_id row = rid /\
                    sa_updated_by row = Some actor).
Proof.
  intros out actor reason.
  assert (strip_or actor_name "ADMIN" = actor) as Ha.
  { unfold actor.
    destruct (decide (strip actor_name = "")); [by apply strip_or_blank|by apply strip_or_given]. }
  assert (strip_or motivo "—" = reason) as Hr.
  { unfold reason.
    destruct (decide (strip motivo = "")); [by apply strip_or_blank|by apply strip_or_given]. }
  split; [rewrite <- Ha; by apply strip_or_nonempty|].
  split; [rewrite <- Hr; by apply strip_or_nonempty|].
  subst out. unfold tab_admin_update. rewrite Ha, Hr.
  destruct (admin_update_atomic w rid (PStr (isoformat nueva_fecha)) (PStr actor)
              (PStr reason)) as [[_ Hok]|[_ Hsame]]; [right|by left].
  destruct Hok as (row & sd & ac & re & n & Hin & Hid & _ & [= <-] & [= <-] & Hrows & Haud).
  eexists. split; [exact Haud|]. split; [done|]. split; [done|]. split; [done|].
  exists (reschedule rid sd (now_iso (clock w)) (Some actor) row).
  rewrite Hrows. split; [by apply list_elem_of_fmap_2|].
  unfold reschedule. rewrite Hid, Z.eqb_refl. done.
Qed.
End Handlers.

(** C9 as stated fails: [admin_update_scheduled_date] called with an empty
    actor and an empty reason records both as they are. *)
Lemma reschedule_records_blank_actor_and_reason :
  (@admin_update_scheduled_date iso_runtime 2 (PStr "2024-03-10") (PStr "") (PStr "")
     w_marked).1 = inr true
  /\ audit_log (store (@admin_update_scheduled_date iso_runtime 2 (PStr "2024-03-10")
                         (PStr "") (PStr "") w_marked).2)
     = [Audit 1 "UPDATE_DATE" 2 (Some "2024-03-02") (Some "2024-03-10") "" ""
              "2024-03-01 09:00:05"].
Proof. vm_compute. done. Qed.

(** C5.  Three rows for Ana on 1 to 3 March 2024, the second marked "✓":
    the March export has the header row (three labels, then the days) and
    one row for Ana, but its cell for day 2 holds the empty string, as
    does every day cell from 1 to 31; the mark is not exported. *)
Theorem march_export_has_blank_day_cells :
  row_2 ∈ scheduled_activities (store w_marked)
  /\ sa_status row_2 = "✓" /\ sa_scheduled_date row_2 = "2024-03-02"
  /\ march_cell 3 <$> seqZ 1 5
     = [Some (PStr "Especialista"); Some (PStr "Actividad");
        Some (PStr "Unidad de medida"); Some (PInt 1); Some (PInt 2)]
  /\ march_cell 4 <$> seqZ 1 3
     = [Some (PStr "Ana"); Some (PStr "Informe mensual"); Some (PStr "Informe")]
  /\ march_cell 4 (3 + 2) = Some (PStr "")
  /\ march_cell 4 <$> seqZ 4 31 = replicate 31 (Some (PStr ""))
  /\ march_cell 5 1 = None.
Proof.
  split; [apply list_elem_of_In; vm_compute; tauto|].
  split; [reflexivity|]. split; [reflexivity|].
  split; [vm_compute; reflexivity|]. split; [vm_compute; reflexivity|].
  split; [vm_compute; reflexivity|]. split; vm_compute; reflexivity.
Qed.

Lemma w_marked_wf : wf_db (store w_marked).
Proof. apply (reachable_wf (H:=iso_runtime)). Qed.

Lemma row_2_stored : row_2 ∈ scheduled_activities (store w_marked).
Proof. apply list_elem_of_In. vm_compute. tauto. Qed.



Lemma delete_existing_record_witness :
  (@admin_delete_record iso_runtime 2 (PStr "admin1") (PStr "duplicate") w_marked).1
  = inr true.
Proof.
  apply (delete_existing_record (H:=iso_runtime) w_marked 2 row_2 "admin1" "duplicate").
  - apply w_marked_wf.
  - vm_compute. reflexivity.
  - apply row_2_stored.
  - reflexivity.
Defined.

Lemma admin_on_missing_id_witness :
  @admin_update_scheduled_date iso_runtime 99 (PStr "2024-03-10") (PStr "admin1")
    (PStr "client request") w_marked = (inr false, w_marked).
Proof.
  apply (admin_on_missing_id (H:=iso_runtime) w_marked 99).
  intros row Hrow. apply list_elem_of_In in Hrow. vm_compute in Hrow.
  destruct Hrow as [<-|[<-|[<-|[]]]]; done.
Defined.

(** No row carries the id 2^63, and neither call returns [False] on it. *)
Lemma admin_calls_raise_on_id_beyond_64_bits :
  Forall (fun row => sa_id row ≠ 2 ^ 63) (scheduled_activities (store w_marked))
  /\ @admin_update_scheduled_date iso_runtime (2 ^ 63) (PStr "2024-03-10") (PStr "admin1")
       (PStr "client request") w_marked = (inl OverflowError, w_marked)
  /\ @admin_delete_record iso_runtime (2 ^ 63) (PStr "admin1") (PStr "client request")
       w_marked = (inl OverflowError, w_marked).
Proof.
  split; [|split; vm_compute; reflexivity].
  apply Forall_forall. intros row Hrow. apply list_elem_of_In in Hrow. vm_compute in Hrow.
  destruct Hrow as [<-|[<-|[<-|[]]]]; done.
Qed.

Lemma export_without_rows_witness :
  @export_month_matrix_xlsx_bytes iso_runtime (Date 2024 4 1) (Date 2024 4 30) None w_marked
  = (inr no_data_sheet, w_marked).
Proof.
  apply (export_without_rows (H:=iso_runtime) (Date 2024 4 1) (Date 2024 4 30) None
           w_marked w_marked).
  vm_compute. reflexivity.
Defined.

(** ** Why the day cells are blank *)

Lemma pretty_N_go_head x s : numeral_head s -> numeral_head (pretty_N_go x s).
Proof.
  revert s. induction (N.lt_wf_0 x) as [x _ IH]; intros s Hs.
  assert (x = 0 \/ 0 < x)%N as [->|Hx] by lia.
  - by rewrite pretty_N_go_0.
  - rewrite pretty_N_go_step by done. apply IH; [by apply N.div_lt|].
    simpl. unfold pretty_N_char. by repeat case_match.
Qed.

Lemma pretty_N_head (x : N) : numeral_head (pretty x).
Proof.
  unfold pretty, pretty_N. destruct (decide (x = 0)%N) as [->|Hx]; [done|].
  rewrite pretty_N_go_step by lia. apply pretty_N_go_head.
  simpl. unfold pretty_N_char. by repeat case_match.
Qed.

Lemma pretty_Z_head (z : Z) : numeral_head (pretty z).
Proof.
  destruct z as [|p|p]; [done|apply (pretty_N_head (Npos p))|done].
Qed.

Lemma numeral_head_no_field s :
  numeral_head s -> isidentifier s = false /\ String.prefix "_" s = false.
Proof.
  destruct s as [|a s]; [done|]. simpl. intros Ha. rewrite Ha. split; [done|].
  case_match; [|done]. subst a. done.
Qed.

Lemma prefix_underscore (x : string) : String.prefix "_" ("_" +:+ x) = true.
Proof. by destruct x. Qed.

Lemma rename_fields_shape index seen names f :
  f ∈ rename_fields index seen names ->
  isidentifier f = true \/ String.prefix "_" f = true.
Proof.
  revert index seen. induction names as [|name rest IH]; intros index seen; simpl.
  - intros Hf. by apply not_elem_of_nil in Hf.
  - intros Hf. apply elem_of_cons in Hf as [->|Hf]; [|by eapply IH].
    destruct (negb (isidentifier name) || bool_decide (name ∈ kwlist)
              || String.prefix "_" name || bool_decide (name ∈ seen)) eqn:Hc.
    + right. apply prefix_underscore.
    + left. apply orb_false_elim in Hc as [Hc _]. apply orb_false_elim in Hc as [Hc _].
      apply orb_false_elim in Hc as [Hc _]. by apply negb_false_iff in Hc.
Qed.

Lemma field_lookup_absent (fields : list string) (vals : list pyval) name :
  name ∉ fields -> field_lookup (zip fields vals) name = None.
Proof.
  intros Hn. unfold field_lookup.
  assert (list_find (fun kv : string * pyval => kv.1 = name) (zip fields vals) = None) as ->;
    [|done].
  apply list_find_None, Forall_forall. intros [k v] Hkv Heq. simpl in Heq. subst name. apply Hn.
  apply list_elem_of_lookup in Hkv as [i Hi]. apply lookup_zip_with_Some in Hi
    as (k' & v' & [= <- <-] & Hk & _). by eapply list_elem_of_lookup_2.
Qed.

(** No row tuple of a frame has an attribute named by a numeral: the
    lookup [getattr(row, str(d), "")] always takes its default. *)
Lemma numeral_attribute_is_never_found (f : frame) (row : namedtuple) (d : Z) :
  row ∈ itertuples f -> getattr_default row (pretty d) (PStr "") = PStr "".
Proof.
  unfold itertuples. intros Hrow. apply list_elem_of_fmap in Hrow as (vals & -> & _).
  unfold getattr_default. rewrite field_lookup_absent; [done|].
  intros Hin. apply rename_fields_shape in Hin.
  destruct (numeral_head_no_field _ (pretty_Z_head d)) as [H1 H2]. destruct Hin; congruence.
Qed.

Lemma and_then_inr {A B} (a : A) (k : A -> exn + B) : and_then (inr a) k = k a.
Proof. done. Qed.

Lemma and_then_ok {A B} (m : exn + A) (k : A -> exn + B) (b : B) :
  and_then m k = inr b -> exists a, m = inr a /\ k a = inr b.
Proof. destruct m as [e|a]; [done|]. intros Hk. by exists a. Qed.

(** A loop all of whose statements go through. *)
Lemma for_cells_put {A} (body : A -> worksheet -> exn + worksheet)
    (put : A -> worksheet -> worksheet) (l : list A) (ws : worksheet) :
  (forall x ws, x ∈ l -> body x ws = inr (put x ws)) ->
  for_cells body l ws = inr (foldl (fun ws x => put x ws) ws l).
Proof.
  revert ws. induction l as [|x l IH]; intros ws Hbody; [done|]. simpl.
  rewrite Hbody by left. simpl. apply IH. intros y ws' Hy. apply Hbody. by right.
Qed.

Lemma fill_days_blank (i : Z) (days : list Z) (val : Z -> pyval) (ws : worksheet) (d : Z) :
  (forall x, val x = PStr "") -> d ∈ days ->
  cells (foldl (fun ws d => put_cell i (3 + d) (val d) ws) ws days) !! (i, 3 + d)
  = Some (PStr "").
Proof.
  intros Hval. revert ws. induction days as [|d' days IH] using rev_ind; intros ws Hd.
  - by apply not_elem_of_nil in Hd.
  - rewrite foldl_app. simpl. rewrite Hval. destruct (decide (d = d')) as [->|Hne].
    + apply lookup_insert_eq.
    + rewrite lookup_insert_ne by (intros [= ?]; lia). apply IH.
      apply elem_of_app in Hd as [Hd|Hd]; [done|]. apply list_elem_of_singleton in Hd. done.
Qed.

(** Every day cell the export writes for a pivot row is the empty string,
    whatever statuses the pivot holds. *)
Lemma fill_row_days_blank (f : frame) (row : namedtuple) (max_day i : Z)
    (ws ws' : worksheet) (d : Z) :
  row ∈ itertuples f -> fill_row max_day i row ws = inr ws' ->
  1 <= d <= max_day -> cells ws' !! (i, 3 + d) = Some (PStr "").
Proof.
  intros Hrow Hfill Hd. unfold fill_row in Hfill.
  do 7 (apply and_then_ok in Hfill as (? & _ & Hfill)).
  rewrite (for_cells_put _ (fun d ws => put_cell i (3 + d) (PStr "") ws)) in Hfill.
  2:{ intros day_ ws0 _. cbv zeta.
      by rewrite (numeral_attribute_is_never_found f row day_ Hrow). }
  injection Hfill as <-.
  apply (fill_days_blank i _ (fun _ => PStr "")); [done|].
  apply elem_of_seqZ. lia.
Qed.

(** * Further properties of [db.py] *)

(** ** Who writes the audit log *)

Lemma keeps_audit_bind {A B} (m : M A) (k : A -> M B) :
  keeps_audit m -> (forall a, keeps_audit (k a)) -> keeps_audit (m ≫= k).
Proof.
  intros Hm Hk c b c' E. apply bind_ok in E as (a & c1 & E1 & E2).
  apply Hm in E1 as [H1 H2]. apply Hk in E2 as [H3 H4]. split; congruence.
Qed.

Lemma keeps_audit_same {A} (m : M A) :
  (forall c a c', m c = (inr a, c') -> working c' = working c) -> keeps_audit m.
Proof. intros Hm c a c' E. by rewrite (Hm _ _ _ E). Qed.

Lemma keeps_audit_for_each {A} (body : A -> M unit) xs :
  (forall x, keeps_audit (body x)) -> keeps_audit (for_each body xs).
Proof.
  intros Hb. induction xs as [|x xs IH]; simpl.
  - by intros c a c' [= _ <-].
  - apply keeps_audit_bind; auto.
Qed.

Section AuditWriters.
Context `{Runtime}.

Lemma keeps_audit_add_record r : keeps_audit (add_scheduled_record r).
Proof.
  intros c u c' E. unfold add_scheduled_record in E.
  apply bind_ok in E as (v1 & c1 & G1 & E). apply bind_ok in E as (v2 & c2 & G2 & E).
  apply bind_ok in E as (v3 & c3 & G3 & E). apply bind_ok in E as (v4 & c4 & G4 & E).
  apply bind_ok in E as (t & c5 & Et & E).
  assert (forall k v c0 c0', getitem r k c0 = (inr v, c0') -> c0' = c0) as Hg.
  { intros k v c0 c0'. unfold getitem. destruct (r !! k); [by intros [= _ <-]|done]. }
  apply Hg in G1, G2, G3, G4. subst c1 c2 c3 c4. injection Et as _ <-.
  unfold execute_insert_activity in E.
  do 8 inv_lift E. inv_get E. do 9 inv_lift E. apply put_working_ok in E as ->. done.
Qed.

Lemma add_records_keep_audit records w :
  audit_log (store (add_scheduled_records records w).2) = audit_log (store w).
Proof.
  unfold add_scheduled_records. destruct records as [|r rest]; [done|].
  destruct (with_conn _ w) as [[e|[]] w'] eqn:E; simpl.
  - by rewrite (with_conn_raise _ _ _ _ (add_records_clean (r :: rest)) E).
  - apply with_conn_ok in E as (c & E & ->). simpl.
    apply bind_ok in E as ([] & c1 & E & Ec). injection Ec as <-. simpl.
    by apply (keeps_audit_for_each _ _ keeps_audit_add_record) in E as [-> _].
Qed.

Lemma update_records_clean changes :
  raises_clean (for_each update_record_status_and_notes changes;; commit).
Proof.
  apply clean_bind; [|intros ?; apply clean_commit]. apply keeps_for_each. auto with txn.
Qed.

Lemma update_records_keep_audit changes w :
  audit_log (store (update_records_status_and_notes changes w).2) = audit_log (store w).
Proof.
  unfold update_records_status_and_notes. destruct changes as [|ch rest]; [done|].
  destruct (with_conn _ w) as [[e|[]] w'] eqn:E; simpl.
  - by rewrite (with_conn_raise _ _ _ _ (update_records_clean (ch :: rest)) E).
  - apply with_conn_ok in E as (c & E & ->). simpl.
    apply bind_ok in E as ([] & c1 & E & Ec). injection Ec as <-. simpl.
    by apply for_each_update_ok in E as (_ & -> & _).
Qed.

(** X1.  From a store that satisfies the invariant (row ids distinct,
    positive, not above the table's counter, the counter a 64-bit rowid,
    for both tables), every run of writing calls, whether they return or
    raise, ends in a store that satisfies it. *)
Theorem every_run_keeps_the_invariant (calls : list call) (w : world) :
  wf_db (store w) -> wf_db (store (run calls w)).
Proof. intros Hwf. by apply (run_evolves calls w). Qed.

(** X2.  Only the two administrative calls write to the audit log: a batch
    insert and a status update leave it as it is; a reschedule or a delete
    leaves it as it is or appends exactly one entry, which names the
    record id of the call; and over any run of calls the entries already
    there stay, unchanged and in place. *)
Theorem audit_log_is_written_by_admin_calls_only (w : world) (c : call) :
  match c with
  | CreateBatch _ | UpdateStatusAndNotes _ =>
      audit_log (store (step w c)) = audit_log (store w)
  | AdminRescheduleDate r _ _ _ | AdminDelete r _ _ =>
      audit_log (store (step w c)) = audit_log (store w)
      \/ exists a, audit_log (store (step w c)) = audit_log (store w) ++ [a]
                   /\ al_record_id a = r
  end
  /\ forall calls, audit_log (store w) `prefix_of` audit_log (store (run calls w)).
Proof.
  split; [|intros calls; apply (run_evolves calls w)].
  destruct c as [records|changes|r d a m|r a m]; simpl.
  - apply add_records_keep_audit.
  - apply update_records_keep_audit.
  - destruct (admin_update_atomic w r d a m) as [[_ Hok]|[_ Hsame]].
    + destruct Hok as (row & sd & ac & re & n & _ & _ & _ & _ & _ & _ & Haud).
      right. eexists. split; [exact Haud|done].
    + left. by rewrite Hsame.
  - destruct (admin_delete_atomic w r a m) as [[_ Hok]|[_ Hsame]].
    + destruct Hok as (row & ac & re & n & _ & _ & _ & _ & _ & Haud).
      right. eexists. split; [exact Haud|done].
    + left. by rewrite Hsame.
Qed.
End AuditWriters.

(** ** Status updates: the whole list or nothing, and ids nobody has *)

Lemma for_each_raises {A} (body : A -> M unit) (xs : list A) (x : A) :
  x ∈ xs -> (forall c, exists e c', body x c = (inl e, c')) ->
  forall c, exists e c', for_each body xs c = (inl e, c').
Proof.
  intros Hin Hx. induction Hin as [x rest|x y rest Hin IH]; intros c; simpl.
  - destruct (Hx c) as (e & c' & E). rewrite bind_run, E. eauto.
  - rewrite bind_run. destruct (body y c) as [[e|[]] c1]; [eauto|]. by apply IH.
Qed.

Lemma set_status_miss rid st no t ub (rows : list activity) :
  (forall row, row ∈ rows -> sa_id row ≠ rid) -> set_status rid st no t ub <$> rows = rows.
Proof.
  intros Hm. induction rows as [|r rows IH]; [done|]. rewrite fmap_cons, IH.
  - unfold set_status. destruct (Z.eqb_spec (sa_id r) rid) as [E|_]; [|done].
    exfalso. eapply Hm; [left|done].
  - intros row Hrow. apply Hm. by right.
Qed.

Section StatusBatch.
Context `{Runtime}.

Lemma update_record_raises ch c :
  change_target ch = None -> exists e c', update_record_status_and_notes ch c = (inl e, c').
Proof.
  intros Hn. destruct (update_record_status_and_notes ch c) as [[e|[]] c'] eqn:E; [eauto|].
  apply update_record_ok in E as (rid & Ht & _). congruence.
Qed.

Lemma update_record_run ch z c :
  bindable_change ch = true -> change_target ch = Some z ->
  update_record_status_and_notes ch c =
  (inr tt,
   Conn (committed c)
     (Db (set_status z (or_text (dict_get ch "status" (PStr "")) "")
            (or_text (dict_get ch "notes" (PStr "")) "")
            (now_iso (ticks c))
            (Some (or_text (dict_get ch "actor" (PStr "—")) "—"))
            <$> scheduled_activities (working c))
         (seq_scheduled_activities (working c)) (audit_log (working c))
         (seq_audit_log (working c)))
     (S (ticks c))).
Proof.
  unfold bindable_change. intros Hb Ht. rewrite Ht in Hb.
  do 3 (apply andb_prop in Hb as [Hb ?]).
  destruct (optional_ok_bind ch "status" "") as (p1 & B1 & T1); [done|].
  destruct (optional_ok_bind ch "notes" "") as (p2 & B2 & T2); [done|].
  destruct (optional_ok_bind ch "actor" "—") as (p4 & B4 & T4); [done|].
  unfold change_target in Ht. destruct (ch !! "id") as [v|] eqn:Hid; [|done].
  destruct (py_int v) as [e|z'] eqn:Hp; [done|]. injection Ht as ->.
  unfold update_record_status_and_notes, getitem. rewrite Hid.
  unfold execute_update_status, put_activities, _now_iso, lift, get_working, put_working.
  unfold mbind, M_bind, mret, M_ret. simpl.
  rewrite Hp, B1, B2, B4. simpl. rewrite Hb. simpl.
  rewrite T1, T2, T4. simpl.
  rewrite update_where_id_total. done.
Qed.

(** A change that is stored was one sqlite3 could bind. *)
Lemma update_record_bindable ch c c' :
  update_record_status_and_notes ch c = (inr tt, c') -> bindable_change ch = true.
Proof.
  intros E. pose proof (update_record_ok ch c c' E) as (rid & Ht & _).
  unfold bindable_change. rewrite Ht.
  unfold update_record_status_and_notes in E.
  apply bind_ok in E as (t & c1 & _ & E).
  apply bind_ok in E as (v & c2 & Ev & E). unfold getitem in Ev.
  unfold change_target in Ht.
  destruct (ch !! "id") as [v'|]; [|done]. injection Ev as <- <-.
  inv_lift E. rewrite E0 in Ht. injection Ht as ->.
  unfold execute_update_status in E. do 4 inv_lift E.
  destruct (optional_ok ch "status") eqn:O1;
    [|by rewrite (optional_ko_bind ch "status" "" O1) in E1].
  destruct (optional_ok ch "notes") eqn:O2;
    [|by rewrite (optional_ko_bind ch "notes" "" O2) in E2].
  destruct (optional_ok ch "actor") eqn:O3;
    [|by rewrite (optional_ko_bind ch "actor" "—" O3) in E3].
  simpl in E4. by destruct (sqlite_int rid).
Qed.

Lemma update_record_unbindable ch c :
  bindable_change ch = false ->
  exists e c', update_record_status_and_notes ch c = (inl e, c').
Proof.
  intros Hn. destruct (update_record_status_and_notes ch c) as [[e|[]] c'] eqn:E; [eauto|].
  apply update_record_bindable in E. congruence.
Qed.

(** X3.  [update_records_status_and_notes] stores the whole list of
    changes or none of it: whenever it raises, the store is as it was; and
    it raises when any change of the list has no usable id (the key is
    missing, or [int()] rejects its value), so the changes before that one
    are not stored either. *)
Theorem status_update_is_all_or_nothing (changes : list (gmap string pyval)) (w : world) :
  let out := update_records_status_and_notes changes w in
  (forall e, out.1 = inl e -> store out.2 = store w)
  /\ ((exists ch, ch ∈ changes /\ change_target ch = None) -> exists e, out.1 = inl e).
Proof.
  intros out. subst out. unfold update_records_status_and_notes.
  destruct changes as [|ch0 rest].
  { split; [done|]. intros (ch & Hch & _). by apply not_elem_of_nil in Hch. }
  set (changes := ch0 :: rest). split.
  - intros e He. destruct (with_conn _ w) as [res w'] eqn:E. cbn [fst snd] in *. subst res.
    exact (with_conn_raise _ _ _ _ (update_records_clean changes) E).
  - intros (ch & Hch & Hn).
    destruct (for_each_raises update_record_status_and_notes changes ch Hch
                (fun c => update_record_raises ch c Hn)
                (Conn (store w) (store w) (clock w))) as (e & c' & E).
    exists e. unfold with_conn. rewrite bind_run. fold changes. rewrite E. done.
Qed.

Lemma for_each_update_miss changes c :
  Forall (fun ch => bindable_change ch = true) changes ->
  (forall ch z row, ch ∈ changes -> change_target ch = Some z ->
                    row ∈ scheduled_activities (working c) -> sa_id row ≠ z) ->
  for_each update_record_status_and_notes changes c =
  (inr tt, Conn (committed c) (working c) (ticks c + length changes)%nat).
Proof.
  intros Hall. revert c. induction Hall as [|ch rest Hch _ IH]; intros c Hmiss.
  - simpl. rewrite Nat.add_0_r. by destruct c.
  - assert (exists z, change_target ch = Some z) as [z Hz].
    { unfold bindable_change in Hch. destruct (change_target ch); [eauto|done]. }
    simpl for_each. rewrite bind_run, (update_record_run ch z c Hch Hz).
    rewrite set_status_miss.
    2:{ intros row Hrow. eapply Hmiss; [left|done..]. }
    rewrite IH; simpl.
    + replace (S (ticks c + length rest))%nat with (ticks c + S (length rest))%nat by lia.
      by destruct (working c).
    + intros ch' z' row Hch' Hz' Hrow. eapply Hmiss; [by right|done|].
      by destruct (working c).
Qed.

(** X4.  A status update whose changes are all aimed at ids no row
    carries never changes the store.  When sqlite3 can bind every change
    (the id is one [int()] accepts and lies within 64 bits, and status,
    notes and actor are no integers beyond 64 bits) the call is a silent
    no-op: it returns normally, and only the clock has been read, once per
    change.  When some change cannot be bound (its id is missing, is
    rejected by [int()] or lies beyond 64 bits, as 2^63 does) the call
    raises instead. *)
Theorem status_update_of_unknown_ids_changes_nothing
    (changes : list (gmap string pyval)) (w : world) :
  (forall ch z row, ch ∈ changes -> change_target ch = Some z ->
                    row ∈ scheduled_activities (store w) -> sa_id row ≠ z) ->
  let out := update_records_status_and_notes changes w in
  store out.2 = store w
  /\ (Forall (fun ch => bindable_change ch = true) changes ->
      out = (inr tt, World (store w) (clock w + length changes)))
  /\ (Exists (fun ch => bindable_change ch = false) changes -> exists e, out.1 = inl e).
Proof.
  intros Hmiss out.
  assert (Forall (fun ch => bindable_change ch = true) changes ->
          out = (inr tt, World (store w) (clock w + length changes))) as Hok.
  { intros Hall. subst out. unfold update_records_status_and_notes.
    destruct changes as [|ch rest]; [simpl; by rewrite Nat.add_0_r, world_eta|].
    unfold with_conn. rewrite bind_run, for_each_update_miss; done. }
  assert (Exists (fun ch => bindable_change ch = false) changes -> exists e, out.1 = inl e)
    as Hko.
  { intros (ch & Hch & Hn)%Exists_exists. subst out.
    unfold update_records_status_and_notes.
    destruct changes as [|ch0 rest]; [by apply not_elem_of_nil in Hch|].
    set (l := ch0 :: rest) in *.
    destruct (for_each_raises update_record_status_and_notes l ch Hch
                (fun c => update_record_unbindable ch c Hn)
                (Conn (store w) (store w) (clock w))) as (e & c' & E).
    exists e. unfold with_conn. rewrite bind_run, E. done. }
  split; [|by split].
  destruct (decide (Forall (fun ch => bindable_change ch = true) changes)) as [Hall|Hnot].
  - by rewrite (Hok Hall).
  - apply not_Forall_Exists in Hnot; [|intros ch; apply _].
    assert (Exists (fun ch => bindable_change ch = false) changes) as Hex.
    { eapply Exists_impl; [exact Hnot|]. intros ch Hch. by apply not_true_is_false. }
    destruct (Hko Hex) as [e He]. subst out.
    unfold update_records_status_and_notes in *.
    destruct changes as [|ch0 rest]; [done|].
    destruct (with_conn _ w) as [res w1] eqn:E. cbn [fst snd] in *. subst res.
    exact (with_conn_raise _ _ _ _ (update_records_clean (ch0 :: rest)) E).
Qed.
End StatusBatch.

(** ** The range query: what it returns, and in which order *)

Lemma string_compare_eq (a b : string) : String.compare a b = Eq <-> a = b.
Proof. apply String_as_OT.cmp_eq. Qed.

Lemma string_compare_lt_trans (a b c : string) :
  String.compare a b = Lt -> String.compare b c = Lt -> String.compare a c = Lt.
Proof.
  intros H1 H2. apply String_as_OT.cmp_lt.
  eapply String_as_OT.lt_trans; by apply String_as_OT.cmp_lt.
Qed.

Lemma string_compare_gt_lt (a b : string) : String.compare a b = Gt -> String.compare b a = Lt.
Proof. intros Hg. rewrite String.compare_antisym, Hg. done. Qed.

Lemma string_compare_le_trans (a b c : string) :
  String.compare a b ≠ Gt -> String.compare b c ≠ Gt -> String.compare a c ≠ Gt.
Proof.
  intros H1 H2.
  destruct (String.compare a b) eqn:E1; [apply string_compare_eq in E1 as ->; done| |done].
  destruct (String.compare b c) eqn:E2; [apply string_compare_eq in E2 as <-; by rewrite E1| |done].
  by rewrite (string_compare_lt_trans a b c).
Qed.

Lemma null_compare_eq (a b : option string) : null_compare a b = Eq <-> a = b.
Proof.
  destruct a as [x|], b as [y|]; simpl; try done.
  rewrite string_compare_eq. split; [by intros ->|by intros [= ->]].
Qed.

Lemma null_compare_lt_trans (a b c : option string) :
  null_compare a b = Lt -> null_compare b c = Lt -> null_compare a c = Lt.
Proof.
  destruct a as [x|], b as [y|], c as [z|]; simpl; try done.
  apply string_compare_lt_trans.
Qed.

Lemma null_compare_gt_lt (a b : option string) :
  null_compare a b = Gt -> null_compare b a = Lt.
Proof.
  destruct a as [x|], b as [y|]; simpl; try done. apply string_compare_gt_lt.
Qed.

Lemma key_le_trans k1 k2 k3 : key_le k1 k2 -> key_le k2 k3 -> key_le k1 k3.
Proof.
  destruct k1 as [[d1 s1] a1], k2 as [[d2 s2] a2], k3 as [[d3 s3] a3].
  unfold key_le. simpl.
  intros [L1|[-> R1]] [L2|[-> R2]].
  - left. by eapply null_compare_lt_trans.
  - by left.
  - by left.
  - right. split; [done|].
    destruct R1 as [M1|[-> N1]], R2 as [M2|[-> N2]].
    + left. by eapply string_compare_lt_trans.
    + by left.
    + by left.
    + right. split; [done|]. by eapply string_compare_le_trans.
Qed.

Section Ordering.
Context `{Runtime}.

Lemma order_by_le_key r1 r2 : order_by_le r1 r2 = true <-> key_le (order_key r1) (order_key r2).
Proof.
  unfold order_by_le, key_le, order_key. simpl.
  pose proof (null_compare_eq (sql_date (sa_scheduled_date r1))
                (sql_date (sa_scheduled_date r2))) as Hd.
  pose proof (string_compare_eq (sa_specialist r1) (sa_specialist r2)) as Hs.
  destruct (null_compare _ _); destruct (String.compare (sa_specialist r1) _);
    destruct (String.compare (sa_activity r1) _); intuition congruence.
Qed.

Lemma order_by_le_total r1 r2 : order_by_le r1 r2 = false -> order_by_le r2 r1 = true.
Proof.
  unfold order_by_le.
  destruct (null_compare (sql_date (sa_scheduled_date r1)) _) eqn:E1; [| done |].
  - apply null_compare_eq in E1. rewrite E1.
    assert (null_compare (sql_date (sa_scheduled_date r2))
              (sql_date (sa_scheduled_date r2)) = Eq) as -> by by apply null_compare_eq.
    destruct (String.compare (sa_specialist r1) _) eqn:E2; [| done |].
    + apply string_compare_eq in E2. rewrite E2.
      assert (String.compare (sa_specialist r2) (sa_specialist r2) = Eq) as ->
        by by apply string_compare_eq.
      destruct (String.compare (sa_activity r1) _) eqn:E3; try done.
      intros _. by rewrite (string_compare_gt_lt _ _ E3).
    + intros _. by rewrite (string_compare_gt_lt _ _ E2).
  - intros _. by rewrite (null_compare_gt_lt _ _ E1).
Qed.
End Ordering.

Lemma insert_sorted_strongly {A} (le : A -> A -> bool) (x : A) (l : list A) :
  (forall a b, le a b = false -> le b a = true) ->
  (forall a b c, le a b = true -> le b c = true -> le a c = true) ->
  StronglySorted (fun a b => le a b = true) l ->
  StronglySorted (fun a b => le a b = true) (insert_sorted le x l).
Proof.
  intros Htot Htrans. induction 1 as [|y l Hl IH Hy]; simpl.
  - repeat constructor.
  - destruct (le x y) eqn:E.
    + constructor; [by constructor|]. constructor; [done|].
      eapply Forall_impl; [exact Hy|]. simpl. eauto.
    + constructor; [done|]. apply Forall_forall. intros z Hz.
      apply elem_of_Permutation_proper with (y:=x :: l) in Hz; [|apply insert_sorted_perm].
      apply elem_of_cons in Hz as [->|Hz]; [by apply Htot|].
      rewrite Forall_forall in Hy. by apply Hy.
Qed.

Lemma sort_by_strongly {A} (le : A -> A -> bool) (l : list A) :
  (forall a b, le a b = false -> le b a = true) ->
  (forall a b c, le a b = true -> le b c = true -> le a c = true) ->
  StronglySorted (fun a b => le a b = true) (sort_by le l).
Proof.
  intros Htot Htrans. unfold sort_by. induction l as [|x l IH]; simpl; [constructor|].
  by apply insert_sorted_strongly.
Qed.

Lemma strongly_sorted_impl {A} (R S : A -> A -> Prop) (l : list A) :
  (forall a b, R a b -> S a b) -> StronglySorted R l -> StronglySorted S l.
Proof.
  intros HRS. induction 1 as [|x l _ IH Hx]; constructor; [done|].
  eapply Forall_impl; [exact Hx|]. auto.
Qed.

Section QueryProps.
Context `{Runtime}.

Lemma month_where_in_range date_from date_to specialist r :
  month_where (isoformat date_from) (isoformat date_to) (specialist_param specialist) r = true
  <-> in_range date_from date_to specialist r.
Proof.
  unfold month_where, in_range, specialist_param. rewrite !andb_true_iff.
  destruct specialist as [s|]; simpl; [|tauto].
  destruct (String.eqb_spec s "") as [->|Hs]; simpl; [tauto|].
  rewrite String.eqb_eq. intuition congruence.
Qed.

(** X5.  [get_month_records] never writes: the world after it is the world
    before.  When it returns a frame, the frame has one row for each
    stored row that passes the WHERE clause (date within the two bounds,
    both inclusive, as SQLite compares them, and specialist equal to the
    filter when a non-empty one is given) and no other row: same count,
    and each frame row carries the fields of its table row. *)
Theorem range_query_returns_the_rows_in_range (date_from date_to : pydate)
    (specialist : option string) (w : world) :
  let out := get_month_records date_from date_to specialist w in
  out.2 = w
  /\ forall df, out.1 = inr df ->
       length df = length (filter (in_range date_from date_to specialist)
                                  (scheduled_activities (store w)))
       /\ forall dr, dr ∈ df <->
            exists r, r ∈ scheduled_activities (store w)
                      /\ in_range date_from date_to specialist r /\ to_df_row r dr.
Proof.
  intros out. subst out. rewrite get_month_records_run. simpl. split; [done|].
  intros df Hdf. apply to_frame_ok in Hdf. split.
  - rewrite <- (Forall2_length _ _ _ Hdf). unfold month_rows.
    rewrite (Permutation_length (sort_by_perm _ _)). f_equal.
    apply list_filter_iff. intros r. apply month_where_in_range.
  - intros dr. split.
    + intros Hin. apply list_elem_of_lookup in Hin as [j Hj].
      destruct (Forall2_lookup_r _ _ _ _ _ Hdf Hj) as (r & Hr & Hto).
      apply list_elem_of_lookup_2, month_rows_elem in Hr as [Hr Hw].
      exists r. by rewrite <- month_where_in_range.
    + intros (r & Hr & Hrange & Hto).
      assert (r ∈ month_rows date_from date_to specialist (store w)) as Hsel.
      { apply month_rows_elem. by rewrite month_where_in_range. }
      apply list_elem_of_lookup in Hsel as [i Hi].
      destruct (Forall2_lookup_l _ _ _ _ _ Hdf Hi) as (dr' & Hdr' & Hto').
      rewrite (to_df_row_fun _ _ _ Hto Hto'). by eapply list_elem_of_lookup_2.
Qed.

(** X6.  The frame [get_month_records] returns is ordered as the ORDER BY
    clause says: its rows come from table rows of which each one sorts no
    later than every one after it, by date as SQLite reads it, then by
    specialist, then by activity, texts compared as bytes. *)
Theorem range_query_is_ordered (date_from date_to : pydate) (specialist : option string)
    (w : world) (df : list df_row) :
  (get_month_records date_from date_to specialist w).1 = inr df ->
  exists rows,
    Forall2 to_df_row rows df
    /\ StronglySorted (fun r1 r2 => key_le (order_key r1) (order_key r2)) rows.
Proof.
  intros Hdf. exists (month_rows date_from date_to specialist (store w)).
  split; [by apply get_month_records_frame|].
  eapply strongly_sorted_impl; [|apply sort_by_strongly].
  - intros r1 r2. apply order_by_le_key.
  - apply order_by_le_total.
  - intros a b c. rewrite !order_by_le_key. apply key_le_trans.
Qed.
End QueryProps.

(** ** A batch, then a query *)

Lemma filter_all {A} (P : A -> Prop) `{!forall x, Decision (P x)} (l : list A) :
  Forall P l -> filter P l = l.
Proof.
  induction 1 as [|x l Hx _ IH]; [done|]. by rewrite filter_cons_True, IH.
Qed.

Section RoundTrip.
Context `{Runtime}.

Lemma add_scheduled_records_run records w :
  wf_db (store w) ->
  Forall (fun r => insertable r = true) records ->
  seq_scheduled_activities (store w) + Z.of_nat (length records) < 2 ^ 63 ->
  add_scheduled_records records w =
  (inr tt,
   World (Db (scheduled_activities (store w)
                ++ new_rows records (seq_scheduled_activities (store w) + 1) (clock w))
             (seq_scheduled_activities (store w) + Z.of_nat (length records))
             (audit_log (store w)) (seq_audit_log (store w)))
         (clock w + length records)).
Proof.
  intros Hwf Hall Hroom. unfold add_scheduled_records. destruct records as [|r rest].
  { simpl. rewrite app_nil_r, Z.add_0_r, Nat.add_0_r. by destruct w as [[] ?]. }
  unfold with_conn. rewrite bind_run, for_each_add_run; simpl; try done.
  - apply (wf_sa_ids _ Hwf).
  - apply (wf_sa_seq _ Hwf).
Qed.

Lemma new_rows_lookup records n t i :
  new_rows records n t !! i
  = (fun r => new_row r (n + Z.of_nat i) (now_iso (t + i))) <$> records !! i.
Proof.
  revert n t i. induction records as [|r rest IH]; intros n t i; [done|].
  destruct i as [|i]; simpl.
  - by rewrite Z.add_0_r, Nat.add_0_r.
  - rewrite IH.
    replace (n + 1 + Z.of_nat i) with (n + Z.of_nat (S i)) by lia.
    by replace (S t + i)%nat with (t + S i)%nat by lia.
Qed.

Lemma new_rows_length records n t : length (new_rows records n t) = length records.
Proof. revert n t. induction records as [|r rest IH]; intros n t; simpl; [done|]. by rewrite IH. Qed.

(** X7.  What [add_scheduled_records] writes, [get_month_records] reads
    back: after a batch of storable records is added to a store that
    satisfies the invariant, a query without specialist filter whose
    bounds cover a record's date returns a frame with a row for that
    record, carrying its fresh id (the counter plus its position in the
    batch), its specialist, activity and unit, its status and notes (empty
    when not given), its date as pandas reads it, and no update stamp.
    When the bounds cover every record of the batch, the frame has as
    many rows more than before as the batch has records. *)
Theorem created_records_are_read_back (records : list (gmap string pyval)) (w : world) :
  wf_db (store w) ->
  Forall (fun r => insertable r = true) records ->
  seq_scheduled_activities (store w) + Z.of_nat (length records) < 2 ^ 63 ->
  let w' := (add_scheduled_records records w).2 in
  forall date_from date_to df,
    (get_month_records date_from date_to None w').1 = inr df ->
    let covered (r : gmap string pyval) :=
      sql_le (sql_date (isoformat date_from)) (sql_date (field_text r "scheduled_date")) = true
      /\ sql_le (sql_date (field_text r "scheduled_date")) (sql_date (isoformat date_to)) = true
    in
    (forall i r, records !! i = Some r -> covered r ->
       exists dr d,
         dr ∈ df /\ to_datetime (field_text r "scheduled_date") = Some d /\
         dr = DfRow (seq_scheduled_activities (store w) + 1 + Z.of_nat i)
                    (field_text r "specialist") (field_text r "activity")
                    (field_text r "unit") d
                    (or_text (dict_get r "status" (PStr "")) "")
                    (or_text (dict_get r "notes" (PStr "")) "") None)
    /\ (Forall covered records ->
        forall df0, (get_month_records date_from date_to None w).1 = inr df0 ->
                    length df = (length df0 + length records)%nat).
Proof.
  intros Hwf Hall Hroom w'. subst w'.
  rewrite (add_scheduled_records_run records w Hwf Hall Hroom). simpl.
  intros date_from date_to df Hdf. set (w' := World _ _) in Hdf.
  pose proof (get_month_records_frame _ _ _ _ _ Hdf) as Hf2. split.
  - intros i r Hi [Hfrom Hto].
    set (row := new_row r (seq_scheduled_activities (store w) + 1 + Z.of_nat i)
                        (now_iso (clock w + i))).
    assert (row ∈ month_rows date_from date_to None (store w')) as Hsel.
    { apply month_rows_elem. split.
      - simpl. apply elem_of_app. right. apply list_elem_of_lookup. exists i.
        by rewrite new_rows_lookup, Hi.
      - unfold month_where. simpl. by rewrite Hfrom, Hto. }
    apply list_elem_of_lookup in Hsel as [j Hj].
    destruct (Forall2_lookup_l _ _ _ _ _ Hf2 Hj) as (dr & Hdr & d & Hd & Heq).
    exists dr, d. split; [by eapply list_elem_of_lookup_2|]. done.
  - intros Hcov df0 Hdf0. apply get_month_records_frame in Hdf0.
    rewrite <- (Forall2_length _ _ _ Hf2), <- (Forall2_length _ _ _ Hdf0).
    unfold month_rows. rewrite !(Permutation_length (sort_by_perm _ _)). simpl.
    rewrite filter_app, length_app. f_equal.
    rewrite <- (new_rows_length records (seq_scheduled_activities (store w) + 1) (clock w)).
    f_equal. apply filter_all. rewrite Forall_lookup. intros i row Hrow.
    rewrite new_rows_lookup in Hrow. destruct (records !! i) as [r|] eqn:Hi; [|done].
    injection Hrow as <-. rewrite Forall_lookup in Hcov. destruct (Hcov i r Hi) as [Hfrom Hto].
    unfold month_where. simpl. by rewrite Hfrom, Hto.
Qed.
End RoundTrip.

(** ** The exported sheet, cell by cell *)

Lemma put_cell_other r c v ws r' c' :
  (r', c') ≠ (r, c) -> cells (put_cell r c v ws) !! (r', c') = cells ws !! (r', c').
Proof.
  intros Hne. unfold put_cell. simpl.
  destruct v; destruct (cells ws !! (r, c)); try done; by rewrite lookup_insert_ne.
Qed.

Lemma put_cell_value r c v ws : v ≠ PNone -> cells (put_cell r c v ws) !! (r, c) = Some v.
Proof.
  intros Hv. unfold put_cell. simpl.
  destruct v; [done|..]; destruct (cells ws !! (r, c)); apply lookup_insert_eq.
Qed.

Lemma put_cell_touch r c ws r' c' v :
  cells ws !! (r', c') = Some v -> cells (put_cell r c PNone ws) !! (r', c') = Some v.
Proof.
  intros Hv. destruct (decide ((r', c') = (r, c))) as [[= -> ->]|Hne].
  - unfold put_cell. simpl. by rewrite Hv.
  - by rewrite put_cell_other.
Qed.

Lemma put_cell_touch_none r c ws r' c' :
  (r', c') ≠ (r, c) -> cells ws !! (r', c') = None ->
  cells (put_cell r c PNone ws) !! (r', c') = None.
Proof. intros Hne Hn. by rewrite put_cell_other. Qed.

Lemma put_cell_meta r c v ws :
  title (put_cell r c v ws) = title ws
  /\ merged_cells (put_cell r c v ws) = merged_cells ws
  /\ showGridLines (put_cell r c v ws) = showGridLines ws.
Proof. done. Qed.

(** A loop of [ws.cell] calls along one row. *)
Lemma row_loop_other (i : Z) (col : Z -> Z) (val : Z -> pyval) (l : list Z)
    (ws : worksheet) r c :
  (forall x, x ∈ l -> (r, c) ≠ (i, col x)) ->
  cells (foldl (fun ws x => put_cell i (col x) (val x) ws) ws l) !! (r, c)
  = cells ws !! (r, c).
Proof.
  revert ws. induction l as [|x l IH]; intros ws Hne; [done|]. simpl.
  rewrite IH; [|intros y Hy; apply Hne; by right].
  apply put_cell_other, Hne. by left.
Qed.

Lemma row_loop_meta (i : Z) (col : Z -> Z) (val : Z -> pyval) (l : list Z) (ws : worksheet) :
  title (foldl (fun ws x => put_cell i (col x) (val x) ws) ws l) = title ws
  /\ merged_cells (foldl (fun ws x => put_cell i (col x) (val x) ws) ws l) = merged_cells ws
  /\ showGridLines (foldl (fun ws x => put_cell i (col x) (val x) ws) ws l)
     = showGridLines ws.
Proof.
  revert ws. induction l as [|x l IH]; intros ws; [done|]. simpl.
  destruct (IH (put_cell i (col x) (val x) ws)) as (-> & -> & ->). done.
Qed.

Lemma row_loop_touch (i : Z) (col : Z -> Z) (l : list Z) (ws : worksheet) r c v :
  cells ws !! (r, c) = Some v ->
  cells (foldl (fun ws x => put_cell i (col x) PNone ws) ws l) !! (r, c) = Some v.
Proof.
  revert ws. induction l as [|x l IH]; intros ws Hv; [done|]. simpl.
  apply IH. by apply put_cell_touch.
Qed.

Lemma row_loop_value (i : Z) (col : Z -> Z) (val : Z -> pyval) (l : list Z)
    (ws : worksheet) x :
  x ∈ l -> (forall y, y ∈ l -> col y = col x -> val y = val x) -> val x ≠ PNone ->
  cells (foldl (fun ws x => put_cell i (col x) (val x) ws) ws l) !! (i, col x)
  = Some (val x).
Proof.
  intros Hx Hinj Hv. revert ws Hx Hinj.
  induction l as [|y l IH] using rev_ind; intros ws Hx Hinj.
  - by apply not_elem_of_nil in Hx.
  - rewrite foldl_app. cbn [foldl]. destruct (decide (col y = col x)) as [Hc|Hc].
    + rewrite Hc. rewrite (Hinj y); [by apply put_cell_value| |done].
      apply elem_of_app. right. by apply list_elem_of_singleton.
    + rewrite put_cell_other by congruence. apply IH.
      * apply elem_of_app in Hx as [Hx|Hx]; [done|].
        apply list_elem_of_singleton in Hx. congruence.
      * intros z Hz. apply Hinj. apply elem_of_app. by left.
Qed.

(** [ws.cell] on the values the export writes. *)
Lemma ws_cell_text_ok r c s ws :
  cell_text_ok s = true ->
  ws_cell r c (PStr s) ws = inr (put_cell r c (PStr (str_take 32767 s)) ws).
Proof.
  intros Hs. unfold cell_text_ok in Hs. unfold ws_cell, bind_value, check_string. cbv zeta.
  by rewrite Hs.
Qed.

Lemma ws_cell_text_illegal r c s ws :
  cell_text_ok s = false -> ws_cell r c (PStr s) ws = inl IllegalCharacterError.
Proof.
  intros Hs. unfold cell_text_ok in Hs. unfold ws_cell, bind_value, check_string. cbv zeta.
  by rewrite Hs.
Qed.

Lemma rename_fields_cons index seen name rest :
  rename_fields index seen (name :: rest)
  = (if negb (isidentifier name) || bool_decide (name ∈ kwlist)
        || String.prefix "_" name || bool_decide (name ∈ seen)
     then "_" +:+ pretty index else name)
    :: rename_fields (S index) (name :: seen) rest.
Proof. done. Qed.

(** The row tuples of the pivot: the three index fields under their own
    names, then the day values under whatever names they were given. *)
Lemma itertuples_pivot (df : list df_row) :
  exists fields,
    itertuples (pivot_table df)
    = (fun k => ("specialist", PStr k.1.1) :: ("activity", PStr k.1.2)
                  :: ("unit", PStr k.2)
                  :: zip fields (pivot_cell df k <$> pivot_days df))
      <$> pivot_index df.
Proof.
  unfold itertuples, pivot_table. cbn [columns values].
  rewrite fmap_app. cbn [fmap list_fmap label_str app].
  rewrite 3!rename_fields_cons.
  eexists. rewrite <- list_fmap_compose. apply list_fmap_ext. intros i k _.
  cbn [compose app]. vm_compute (negb _ || _ || _ || _).
  vm_compute (negb (isidentifier "activity") || _ || _ || _).
  vm_compute (negb (isidentifier "unit") || _ || _ || _).
  reflexivity.
Qed.

Lemma fill_row_cells (row : namedtuple) (sp ac un : string) (max_day i : Z) (ws : worksheet) :
  getattr row "specialist" = inr (PStr sp) ->
  getattr row "activity" = inr (PStr ac) ->
  getattr row "unit" = inr (PStr un) ->
  (forall d : Z, getattr_default row (pretty d) (PStr "") = PStr "") ->
  key_ok (sp, ac, un) = true ->
  exists ws',
    fill_row max_day i row ws = inr ws'
    /\ (title ws' = title ws /\ merged_cells ws' = merged_cells ws
        /\ showGridLines ws' = showGridLines ws)
    /\ (forall r c, r ≠ i -> cells ws' !! (r, c) = cells ws !! (r, c))
    /\ cells ws' !! (i, 1) = Some (PStr (str_take 32767 sp))
    /\ cells ws' !! (i, 2) = Some (PStr (str_take 32767 ac))
    /\ cells ws' !! (i, 3) = Some (PStr (str_take 32767 un))
    /\ forall d, 1 <= d <= max_day -> cells ws' !! (i, 3 + d) = Some (PStr "").
Proof.
  intros Hsp Hac Hun Hday Hok. unfold key_ok in Hok. cbn [fst snd] in Hok.
  apply andb_prop in Hok as [Hok O3]. apply andb_prop in Hok as [O1 O2].
  unfold fill_row.
  rewrite Hsp, and_then_inr, (ws_cell_text_ok _ _ _ _ O1), and_then_inr.
  rewrite Hac, and_then_inr, (ws_cell_text_ok _ _ _ _ O2), and_then_inr.
  rewrite Hun, and_then_inr, (ws_cell_text_ok _ _ _ _ O3), and_then_inr.
  rewrite (for_cells_put _ (fun c ws => put_cell i c PNone ws)) by done.
  rewrite and_then_inr.
  rewrite (for_cells_put _ (fun d ws => put_cell i (3 + d) (PStr "") ws)).
  2:{ intros d ws0 _. cbv zeta. by rewrite Hday. }
  set (ws3 := put_cell i 3 (PStr (str_take 32767 un))
                (put_cell i 2 (PStr (str_take 32767 ac))
                   (put_cell i 1 (PStr (str_take 32767 sp)) ws))).
  set (ws4 := foldl (fun ws c => put_cell i c PNone ws) ws3 (seqZ 1 (3 + max_day))).
  eexists. split; [reflexivity|].
  assert (forall c v, c <= 3 -> cells ws3 !! (i, c) = Some v ->
            cells (foldl (fun ws d => put_cell i (3 + d) (PStr "") ws)
                         ws4 (seqZ 1 max_day)) !! (i, c) = Some v) as Hlead.
  { intros c v Hc Hv.
    rewrite (row_loop_other i (fun d => 3 + d) (fun _ => PStr "")).
    - by apply (row_loop_touch i (fun c => c)).
    - intros d Hd. apply elem_of_seqZ in Hd. intros [= ?]. lia. }
  split; [|split; [|split; [|split; [|split]]]].
  - destruct (row_loop_meta i (fun d => 3 + d) (fun _ => PStr "") (seqZ 1 max_day) ws4)
      as (-> & -> & ->).
    unfold ws4.
    destruct (row_loop_meta i (fun c => c) (fun _ => PNone) (seqZ 1 (3 + max_day)) ws3)
      as (-> & -> & ->). done.
  - intros r c Hr.
    rewrite (row_loop_other i (fun d => 3 + d) (fun _ => PStr "")) by (intros; congruence).
    unfold ws4. rewrite (row_loop_other i (fun c => c) (fun _ => PNone)) by (intros; congruence).
    unfold ws3. rewrite !put_cell_other by congruence. done.
  - apply Hlead; [lia|]. unfold ws3. rewrite !put_cell_other by (intros [= ?]; lia).
    by apply put_cell_value.
  - apply Hlead; [lia|]. unfold ws3. rewrite put_cell_other by (intros [= ?]; lia).
    by apply put_cell_value.
  - apply Hlead; [lia|]. unfold ws3. by apply put_cell_value.
  - intros d Hd.
    apply (row_loop_value i (fun d => 3 + d) (fun _ => PStr "") _ _ d); [|done..].
    apply elem_of_seqZ. lia.
Qed.

(** A group text with an illegal character stops the row. *)
Lemma fill_row_illegal (row : namedtuple) (sp ac un : string) (max_day i : Z)
    (ws : worksheet) :
  getattr row "specialist" = inr (PStr sp) ->
  getattr row "activity" = inr (PStr ac) ->
  getattr row "unit" = inr (PStr un) ->
  key_ok (sp, ac, un) = false ->
  fill_row max_day i row ws = inl IllegalCharacterError.
Proof.
  intros Hsp Hac Hun Hok. unfold key_ok in Hok. cbn [fst snd] in Hok. unfold fill_row.
  rewrite Hsp, and_then_inr.
  destruct (cell_text_ok sp) eqn:O1; [|by rewrite (ws_cell_text_illegal _ _ _ _ O1)].
  rewrite (ws_cell_text_ok _ _ _ _ O1), and_then_inr, Hac, and_then_inr.
  destruct (cell_text_ok ac) eqn:O2; [|by rewrite (ws_cell_text_illegal _ _ _ _ O2)].
  rewrite (ws_cell_text_ok _ _ _ _ O2), and_then_inr, Hun, and_then_inr.
  destruct (cell_text_ok un) eqn:O3; [done|by rewrite (ws_cell_text_illegal _ _ _ _ O3)].
Qed.

(** The data rows, one per key, from row [i] down. *)
Lemma fill_rows_cells (df : list df_row) (fields : list string)
    (keys : list (string * string * string)) (max_day i : Z) (ws : worksheet) :
  (forall k, k ∈ keys ->
     (("specialist", PStr k.1.1) :: ("activity", PStr k.1.2) :: ("unit", PStr k.2)
        :: zip fields (pivot_cell df k <$> pivot_days df)) ∈ itertuples (pivot_table df)) ->
  forallb key_ok keys = true ->
  exists ws',
    fill_rows max_day i
      ((fun k => ("specialist", PStr k.1.1) :: ("activity", PStr k.1.2)
                   :: ("unit", PStr k.2)
                   :: zip fields (pivot_cell df k <$> pivot_days df)) <$> keys) ws
    = inr ws'
    /\ (title ws' = title ws /\ merged_cells ws' = merged_cells ws
        /\ showGridLines ws' = showGridLines ws)
    /\ (forall r c, r < i \/ i + Z.of_nat (length keys) <= r ->
                    cells ws' !! (r, c) = cells ws !! (r, c))
    /\ forall n k, keys !! n = Some k ->
         cells ws' !! (i + Z.of_nat n, 1) = Some (PStr (str_take 32767 k.1.1))
         /\ cells ws' !! (i + Z.of_nat n, 2) = Some (PStr (str_take 32767 k.1.2))
         /\ cells ws' !! (i + Z.of_nat n, 3) = Some (PStr (str_take 32767 k.2))
         /\ forall d, 1 <= d <= max_day ->
              cells ws' !! (i + Z.of_nat n, 3 + d) = Some (PStr "").
Proof.
  revert i ws. induction keys as [|k keys IH]; intros i ws Hrows Hok.
  - exists ws. simpl. split; [done|]. split; [done|]. split; [done|]. intros n k Hn. done.
  - rewrite fmap_cons. cbn [fill_rows]. cbn [forallb] in Hok.
    apply andb_prop in Hok as [Hk Hok].
    set (row := ("specialist", PStr k.1.1) :: ("activity", PStr k.1.2) :: ("unit", PStr k.2)
                  :: zip fields (pivot_cell df k <$> pivot_days df)).
    destruct (fill_row_cells row k.1.1 k.1.2 k.2 max_day i ws)
      as (ws1 & -> & Hmeta1 & Hother1 & H1 & H2 & H3 & Hd1); try done.
    { intros d. apply (numeral_attribute_is_never_found (pivot_table df)).
      apply Hrows. by left. }
    destruct (IH (i + 1) ws1) as (ws' & -> & Hmeta & Hother & Hkeys); [|done|].
    { intros k' Hk'. apply Hrows. by right. }
    exists ws'. split; [done|]. split.
    { destruct Hmeta as (-> & -> & ->). done. }
    split.
    { intros r c Hr. simpl length in Hr. rewrite Hother by lia. apply Hother1. lia. }
    intros n k' Hn. destruct n as [|n].
    + injection Hn as <-. rewrite Z.add_0_r.
      rewrite !Hother by lia. split; [done|]. split; [done|]. split; [done|].
      intros d Hd. rewrite Hother by lia. by apply Hd1.
    + simpl in Hn. destruct (Hkeys n k' Hn) as (K1 & K2 & K3 & Kd).
      replace (i + Z.of_nat (S n)) with (i + 1 + Z.of_nat n) by lia. done.
Qed.

Lemma fill_rows_illegal (df : list df_row) (fields : list string)
    (keys : list (string * string * string)) (max_day i : Z) (ws : worksheet) :
  (forall k, k ∈ keys ->
     (("specialist", PStr k.1.1) :: ("activity", PStr k.1.2) :: ("unit", PStr k.2)
        :: zip fields (pivot_cell df k <$> pivot_days df)) ∈ itertuples (pivot_table df)) ->
  forallb key_ok keys = false ->
  fill_rows max_day i
    ((fun k => ("specialist", PStr k.1.1) :: ("activity", PStr k.1.2)
                 :: ("unit", PStr k.2)
                 :: zip fields (pivot_cell df k <$> pivot_days df)) <$> keys) ws
  = inl IllegalCharacterError.
Proof.
  revert i ws. induction keys as [|k keys IH]; intros i ws Hrows Hok; [done|].
  rewrite fmap_cons. cbn [fill_rows]. cbn [forallb] in Hok.
  set (row := ("specialist", PStr k.1.1) :: ("activity", PStr k.1.2) :: ("unit", PStr k.2)
                :: zip fields (pivot_cell df k <$> pivot_days df)).
  destruct (key_ok k) eqn:Hk.
  - destruct (fill_row_cells row k.1.1 k.1.2 k.2 max_day i ws)
      as (ws1 & -> & _); try done.
    { intros d. apply (numeral_attribute_is_never_found (pivot_table df)).
      apply Hrows. by left. }
    apply IH; [|done]. intros k' Hk'. apply Hrows. by right.
  - by rewrite (fill_row_illegal row k.1.1 k.1.2 k.2).
Qed.

Lemma merge_cells_other (ws : worksheet) r c :
  r ≠ 1 \/ c < 2 \/ 35 < c ->
  cells (merge_cells_A1_AI1 ws) !! (r, c) = cells ws !! (r, c).
Proof.
  intros Hrc. unfold merge_cells_A1_AI1. cbn [cells].
  assert (forall l, (forall x, x ∈ l -> 2 <= x <= 35) ->
            foldr (fun c cs => <[(1, c) := PNone]> cs) (cells ws) l !! (r, c)
            = cells ws !! (r, c)) as Hl.
  { induction l as [|x l IH]; intros Hx; [done|]. simpl.
    rewrite lookup_insert_ne.
    - apply IH. intros y Hy. apply Hx. by right.
    - intros [= <- <-]. specialize (Hx x (ltac:(by left))). lia. }
  apply Hl. intros x Hx. apply elem_of_seqZ in Hx. lia.
Qed.

Lemma group_le_key (a b : string * string * string) :
  group_le a b = true <-> key_le (Some a.1.1, a.1.2, a.2) (Some b.1.1, b.1.2, b.2).
Proof.
  unfold group_le, key_le, String.leb. simpl.
  assert (String.compare a.1.1 b.1.1 = Eq <-> Some a.1.1 = Some b.1.1) as H1.
  { rewrite string_compare_eq. split; [by intros ->|by intros [= ->]]. }
  pose proof (string_compare_eq a.1.2 b.1.2) as H2.
  destruct (String.compare a.1.1 b.1.1); destruct (String.compare a.1.2 b.1.2);
    destruct (String.compare a.2 b.2); intuition congruence.
Qed.

Lemma group_le_total (a b : string * string * string) :
  group_le a b = false -> group_le b a = true.
Proof.
  unfold group_le, String.leb.
  destruct (String.compare a.1.1 b.1.1) eqn:E1; [| done |].
  - apply string_compare_eq in E1. rewrite E1.
    assert (String.compare b.1.1 b.1.1 = Eq) as -> by by apply string_compare_eq.
    destruct (String.compare a.1.2 b.1.2) eqn:E2; [| done |].
    + apply string_compare_eq in E2. rewrite E2.
      assert (String.compare b.1.2 b.1.2 = Eq) as -> by by apply string_compare_eq.
      destruct (String.compare a.2 b.2) eqn:E3; try done.
      intros _. by rewrite (string_compare_gt_lt _ _ E3).
    + intros _. by rewrite (string_compare_gt_lt _ _ E2).
  - intros _. by rewrite (string_compare_gt_lt _ _ E1).
Qed.

(** The sheet before the data rows are written, [h] being the heading. *)
Lemma header_cells (h : string) (max_day : Z) :
  let ws :=
    foldl (fun ws d => put_cell 3 (3 + d) (PInt d) ws)
      (foldl (fun ws jh => put_cell 3 jh.1 (PStr jh.2) ws)
         (merge_cells_A1_AI1
            (put_cell 1 1 (PStr h) (set_showGridLines false (set_title "Matriz" Workbook))))
         (zip (seqZ 1 3) ["Especialista"; "Actividad"; "Unidad de medida"]))
      (seqZ 1 max_day) in
  title ws = "Matriz" /\ merged_cells ws = ["A1:AI1"] /\ showGridLines ws = false
  /\ cells ws !! (1, 1) = Some (PStr h)
  /\ cells ws !! (3, 1) = Some (PStr "Especialista")
  /\ cells ws !! (3, 2) = Some (PStr "Actividad")
  /\ cells ws !! (3, 3) = Some (PStr "Unidad de medida")
  /\ (forall d, 1 <= d <= max_day -> cells ws !! (3, 3 + d) = Some (PInt d))
  /\ (forall r c, 4 <= r -> cells ws !! (r, c) = None).
Proof.
  intros ws. subst ws.
  change (zip (seqZ 1 3) ["Especialista"; "Actividad"; "Unidad de medida"])
    with [(1, "Especialista"); (2, "Actividad"); (3, "Unidad de medida")].
  cbn [foldl fst snd].
  set (ws1 := put_cell 1 1 _ _). set (ws2 := merge_cells_A1_AI1 ws1).
  set (ws3 := put_cell 3 3 _ (put_cell 3 2 _ (put_cell 3 1 _ ws2))).
  assert (forall r c, (r ≠ 3 \/ c <= 3) ->
            cells (foldl (fun ws d => put_cell 3 (3 + d) (PInt d) ws) ws3 (seqZ 1 max_day))
              !! (r, c) = cells ws3 !! (r, c)) as Hdays.
  { intros r c Hrc. apply (row_loop_other 3 (fun d => 3 + d) PInt).
    intros d Hd. apply elem_of_seqZ in Hd. intros [= ? ?]. lia. }
  split; [|split; [|split; [|split; [|split; [|split; [|split; [|split]]]]]]].
  - by destruct (row_loop_meta 3 (fun d => 3 + d) PInt (seqZ 1 max_day) ws3) as (-> & _).
  - by destruct (row_loop_meta 3 (fun d => 3 + d) PInt (seqZ 1 max_day) ws3) as (_ & -> & _).
  - by destruct (row_loop_meta 3 (fun d => 3 + d) PInt (seqZ 1 max_day) ws3) as (_ & _ & ->).
  - rewrite Hdays by (left; lia). unfold ws3. rewrite !put_cell_other by (intros [= ?]; lia).
    unfold ws2. rewrite merge_cells_other by lia. by apply put_cell_value.
  - rewrite Hdays by (right; lia). unfold ws3. rewrite !put_cell_other by (intros [= ?]; lia).
    by apply put_cell_value.
  - rewrite Hdays by (right; lia). unfold ws3. rewrite put_cell_other by (intros [= ?]; lia).
    by apply put_cell_value.
  - rewrite Hdays by (right; lia). unfold ws3. by apply put_cell_value.
  - intros d Hd. apply (row_loop_value 3 (fun d => 3 + d) PInt).
    + apply elem_of_seqZ. lia.
    + intros y _ Hy. f_equal. lia.
    + done.
  - intros r c Hr. rewrite Hdays by (left; lia). unfold ws3.
    rewrite !put_cell_other by (intros [= ?]; lia).
    unfold ws2. rewrite merge_cells_other by lia. unfold ws1.
    rewrite put_cell_other by (intros [= ?]; lia). done.
Qed.

Lemma pivot_index_elem (df : list df_row) key :
  key ∈ pivot_index df <-> exists dr, dr ∈ df /\ group_key dr = key.
Proof.
  unfold pivot_index. rewrite elem_of_sort_by, elem_of_remove_dups, list_elem_of_fmap.
  split; intros (dr & H1 & H2); exists dr; by split.
Qed.

Lemma pivot_index_nodup (df : list df_row) : NoDup (pivot_index df).
Proof.
  unfold pivot_index. rewrite sort_by_perm. apply NoDup_remove_dups.
Qed.

Section Header.
Context `{Runtime}.

(** The header loops always go through: their values are the three
    labels and the day numbers. *)
Lemma header_loops (max_day : Z) (ws : worksheet) :
  and_then (for_cells (fun jh ws => ws_cell 3 jh.1 (PStr jh.2) ws)
              (zip (seqZ 1 3) ["Especialista"; "Actividad"; "Unidad de medida"]) ws)
           (fun ws => for_cells (fun d ws => ws_cell 3 (3 + d) (PInt d) ws)
                                (seqZ 1 max_day) ws)
  = inr (foldl (fun ws d => put_cell 3 (3 + d) (PInt d) ws)
           (foldl (fun ws jh => put_cell 3 jh.1 (PStr jh.2) ws) ws
              (zip (seqZ 1 3) ["Especialista"; "Actividad"; "Unidad de medida"]))
           (seqZ 1 max_day)).
Proof.
  rewrite (for_cells_put _ (fun jh ws => put_cell 3 jh.1 (PStr jh.2) ws)).
  - rewrite and_then_inr.
    by rewrite (for_cells_put _ (fun d ws => put_cell 3 (3 + d) (PInt d) ws)).
  - intros jh ws0 Hjh.
    change (zip (seqZ 1 3) ["Especialista"; "Actividad"; "Unidad de medida"])
      with [(1, "Especialista"); (2, "Actividad"); (3, "Unidad de medida")] in Hjh.
    rewrite !elem_of_cons, elem_of_nil in Hjh.
    destruct Hjh as [->|[->|[->|[]]]]; reflexivity.
Qed.

(** The sheet of a non-empty frame, whole, when every text it writes is
    let through. *)
Lemma matrix_sheet_cells (month_first month_last : pydate) (df : list df_row) :
  export_texts_ok month_first df = true ->
  exists ws,
    matrix_sheet month_first month_last df = inr ws
    /\ title ws = "Matriz" /\ merged_cells ws = ["A1:AI1"] /\ showGridLines ws = false
    /\ cells ws !! (1, 1)
       = Some (PStr (str_take 32767 ("Matriz mensual: " +:+ strftime_Y_m month_first)))
    /\ cells ws !! (3, 1) = Some (PStr "Especialista")
    /\ cells ws !! (3, 2) = Some (PStr "Actividad")
    /\ cells ws !! (3, 3) = Some (PStr "Unidad de medida")
    /\ (forall d, 1 <= d <= day month_last -> cells ws !! (3, 3 + d) = Some (PInt d))
    /\ (forall n k, pivot_index df !! n = Some k ->
          cells ws !! (4 + Z.of_nat n, 1) = Some (PStr (str_take 32767 k.1.1))
          /\ cells ws !! (4 + Z.of_nat n, 2) = Some (PStr (str_take 32767 k.1.2))
          /\ cells ws !! (4 + Z.of_nat n, 3) = Some (PStr (str_take 32767 k.2))
          /\ forall d, 1 <= d <= day month_last ->
               cells ws !! (4 + Z.of_nat n, 3 + d) = Some (PStr ""))
    /\ (forall r c, 4 + Z.of_nat (length (pivot_index df)) <= r -> cells ws !! (r, c) = None).
Proof.
  intros Hok. unfold export_texts_ok in Hok. apply andb_prop in Hok as [Hh Hkeys_ok].
  destruct (itertuples_pivot df) as [fields Hit].
  pose proof (header_cells
                (str_take 32767 ("Matriz mensual: " +:+ strftime_Y_m month_first))
                (day month_last)) as Hc. cbv zeta in Hc.
  destruct Hc as (T & Mg & G & A1 & B1 & B2 & B3 & Bd & Bn).
  unfold matrix_sheet. cbv zeta. change (3 + 1) with 4.
  rewrite (ws_cell_text_ok _ _ _ _ Hh), and_then_inr.
  match goal with
  | |- context [and_then (for_cells _ _ ?w) _] => pose proof (header_loops (day month_last) w) as Hl
  end.
  unfold and_then at 1 in Hl.
  destruct (for_cells _ (zip _ _) _) as [e|ws1]; [done|]. rewrite and_then_inr.
  rewrite Hl, and_then_inr, Hit.
  set (ws0 := foldl _ (foldl _ _ _) (seqZ 1 (day month_last))) in *.
  destruct (fill_rows_cells df fields (pivot_index df) (day month_last) 4 ws0)
    as (ws & -> & (Tw & Mw & Gw) & Hother & Hkeys); [|done|].
  { intros k Hk. rewrite Hit. apply list_elem_of_fmap. by exists k. }
  exists ws. split; [done|]. rewrite Tw, Mw, Gw.
  rewrite !Hother by lia.
  do 7 (split; [done|]). split.
  { intros d Hd. rewrite Hother by lia. by apply Bd. }
  split; [exact Hkeys|].
  intros r c Hr. rewrite Hother by lia. apply Bn. lia.
Qed.

(** A text that is not let through stops the export. *)
Lemma matrix_sheet_illegal (month_first month_last : pydate) (df : list df_row) :
  export_texts_ok month_first df = false ->
  matrix_sheet month_first month_last df = inl IllegalCharacterError.
Proof.
  intros Hok. unfold export_texts_ok in Hok.
  destruct (itertuples_pivot df) as [fields Hit].
  unfold matrix_sheet. cbv zeta. change (3 + 1) with 4.
  destruct (cell_text_ok _) eqn:Hh; [|by rewrite (ws_cell_text_illegal _ _ _ _ Hh)].
  rewrite (ws_cell_text_ok _ _ _ _ Hh), and_then_inr.
  match goal with
  | |- context [and_then (for_cells _ _ ?w) _] => pose proof (header_loops (day month_last) w) as Hl
  end.
  unfold and_then at 1 in Hl.
  destruct (for_cells _ (zip _ _) _) as [e|ws1]; [done|]. rewrite and_then_inr.
  rewrite Hl, and_then_inr, Hit.
  apply fill_rows_illegal; [|done].
  intros k Hk. rewrite Hit. apply list_elem_of_fmap. by exists k.
Qed.

(** X8.  The export of a range with at least one row.  openpyxl cuts a
    text to 32767 characters and refuses it when what is left holds a
    control character other than tab, line feed and carriage return.  When
    the heading or one of the specialist, activity and unit texts of the
    frame is refused, the export raises [IllegalCharacterError].
    Otherwise it returns a sheet titled "Matriz", without grid lines,
    whose cell A1 holds the heading "Matriz mensual: <month>" and is
    merged over A1:AI1, and whose row 3 is the header: the three labels,
    then the day numbers 1 to the last day of the month in columns 4
    onwards. *)
Theorem export_writes_the_header (month_first month_last : pydate)
    (specialist : option string) (w w' : world) (df : list df_row) :
  get_month_records month_first month_last specialist w = (inr df, w') ->
  df ≠ [] ->
  let out := export_month_matrix_xlsx_bytes month_first month_last specialist w in
  (export_texts_ok month_first df = false -> out = (inl IllegalCharacterError, w'))
  /\ (export_texts_ok month_first df = true ->
      exists ws,
        out = (inr ws, w')
        /\ title ws = "Matriz" /\ merged_cells ws = ["A1:AI1"] /\ showGridLines ws = false
        /\ cells ws !! (1, 1)
           = Some (PStr (str_take 32767 ("Matriz mensual: " +:+ strftime_Y_m month_first)))
        /\ cells ws !! (3, 1) = Some (PStr "Especialista")
        /\ cells ws !! (3, 2) = Some (PStr "Actividad")
        /\ cells ws !! (3, 3) = Some (PStr "Unidad de medida")
        /\ forall d, 1 <= d <= day month_last -> cells ws !! (3, 3 + d) = Some (PInt d)).
Proof.
  intros Hq Hne out. subst out. unfold export_month_matrix_xlsx_bytes. rewrite Hq.
  destruct df as [|dr df]; [done|]. split.
  - intros Hok. by rewrite (matrix_sheet_illegal month_first month_last (dr :: df) Hok).
  - intros Hok. destruct (matrix_sheet_cells month_first month_last (dr :: df) Hok)
      as (ws & -> & T & M & G & A1 & B1 & B2 & B3 & Bd & _).
    exists ws. done.
Qed.

(** X9.  When openpyxl lets every text of the export through (see X8),
    the export returns a sheet that, below the header, has one row per
    distinct (specialist, activity, unit) of the frame, in sorted order
    from row 4 down, with the three texts, cut to 32767 characters, in
    columns 1 to 3; every day cell of these rows, columns 4 to 3 + last
    day, holds the empty string, whatever the statuses of the frame are;
    and there is no cell below the last of these rows. *)
Theorem export_writes_one_row_per_group (month_first month_last : pydate)
    (specialist : option string) (w w' : world) (df : list df_row) :
  get_month_records month_first month_last specialist w = (inr df, w') ->
  df ≠ [] ->
  export_texts_ok month_first df = true ->
  exists ws,
    export_month_matrix_xlsx_bytes month_first month_last specialist w = (inr ws, w')
    /\ NoDup (pivot_index df)
    /\ (forall k, k ∈ pivot_index df <-> exists dr, dr ∈ df /\ group_key dr = k)
    /\ StronglySorted (fun a b => group_le a b = true) (pivot_index df)
    /\ (forall n k, pivot_index df !! n = Some k ->
          cells ws !! (4 + Z.of_nat n, 1) = Some (PStr (str_take 32767 k.1.1))
          /\ cells ws !! (4 + Z.of_nat n, 2) = Some (PStr (str_take 32767 k.1.2))
          /\ cells ws !! (4 + Z.of_nat n, 3) = Some (PStr (str_take 32767 k.2))
          /\ forall d, 1 <= d <= day month_last ->
               cells ws !! (4 + Z.of_nat n, 3 + d) = Some (PStr ""))
    /\ (forall r c, 4 + Z.of_nat (length (pivot_index df)) <= r -> cells ws !! (r, c) = None).
Proof.
  intros Hq Hne Hok. unfold export_month_matrix_xlsx_bytes. rewrite Hq.
  destruct df as [|dr df]; [done|].
  destruct (matrix_sheet_cells month_first month_last (dr :: df) Hok)
    as (ws & -> & _ & _ & _ & _ & _ & _ & _ & _ & Hkeys & Hbelow).
  exists ws. split; [done|]. split; [apply pivot_index_nodup|].
  split; [apply pivot_index_elem|]. split; [|by split].
  apply sort_by_strongly; [apply group_le_total|].
  intros a b c. rewrite !group_le_key. apply key_le_trans.
Qed.
End Header.

(** * Further properties of [app.py] *)

(** ** The administrator check *)

Lemma truthy_str (s : string) : truthy (PStr s) = true <-> s ≠ "".
Proof.
  unfold truthy. destruct (String.eqb_spec s "") as [->|Hs]; simpl; split; try done.
Qed.

Lemma secret_compared (secrets : exn + pyval) (environ : option string) :
  py_or (get_admin_code secrets)
        (match environ with Some s => PStr s | None => PNone end)
  = default PNone (configured_secret secrets environ).
Proof.
  unfold py_or, configured_secret, get_admin_code.
  destruct secrets as [e|v]; [by destruct environ|].
  destruct (truthy v); [done|by destruct environ].
Qed.

Lemma str_eq_spec (code : string) (v : pyval) : str_eq code v = true <-> v = PStr code.
Proof.
  destruct v as [|s|z]; simpl; [done| |done].
  destruct (String.eqb_spec code s) as [->|Hc]; split; try done.
  intros [= ->]. done.
Qed.

Lemma verify_admin_spec (secrets : exn + pyval) (environ : option string) (code : string) :
  verify_admin secrets environ code = true
  <-> code ≠ "" /\ configured_secret secrets environ = Some (PStr code).
Proof.
  unfold verify_admin. cbv zeta. rewrite secret_compared.
  rewrite andb_true_iff, str_eq_spec.
  destruct (configured_secret secrets environ) as [v|]; simpl.
  - split.
    + intros [Ht ->]. by apply truthy_str in Ht.
    + intros [Hc [= ->]]. split; [by apply truthy_str|done].
  - split; [by intros [? _]|by intros [_ ?]].
Qed.

Section Sidebar.
Context `{Runtime}.

(** X10.  The sidebar makes the user an administrator exactly when the
    role is "Administrador", a code was typed, and the code, stripped, is
    non-empty and equal to the configured secret: the value of
    [st.secrets] when that lookup returns something truthy, else the
    environment variable.  So with no secret configured, or an empty one,
    nobody is an administrator, whatever they type; and a truthy value in
    [st.secrets] hides the environment variable. *)
Theorem admin_needs_the_configured_secret (secrets : exn + pyval) (environ : option string)
    (role code : string) :
  (sidebar_is_admin secrets environ role code = true
   <-> role = "Administrador" /\ code ≠ "" /\ strip code ≠ ""
       /\ configured_secret secrets environ = Some (PStr (strip code)))
  /\ (configured_secret secrets environ = None
      \/ configured_secret secrets environ = Some (PStr "") ->
      sidebar_is_admin secrets environ role code = false)
  /\ (forall v, secrets = inr v -> truthy v = true ->
      configured_secret secrets environ = Some v).
Proof.
  assert (sidebar_is_admin secrets environ role code = true
          <-> role = "Administrador" /\ code ≠ "" /\ strip code ≠ ""
              /\ configured_secret secrets environ = Some (PStr (strip code))) as Hiff.
  { unfold sidebar_is_admin.
    destruct (String.eqb_spec role "Administrador") as [->|Hr]; [|by split; [|intros [? _]]].
    destruct (truthy (PStr code)) eqn:Hc.
    - apply truthy_str in Hc. rewrite verify_admin_spec. tauto.
    - split; [done|]. intros (_ & Hne & _). apply truthy_str in Hne. congruence. }
  split; [exact Hiff|]. split.
  - intros Hno. apply not_true_is_false. intros E.
    apply Hiff in E as (_ & _ & Hs & Hcfg). destruct Hno as [Hn|Hn]; congruence.
  - intros v -> Hv. unfold configured_secret. by rewrite Hv.
Qed.

(** X11.  The "Borrar registro" handler of the admin tab passes "ADMIN"
    for a blank actor name and "—" for a blank reason (blank after
    [strip]), and the stripped text otherwise; a deletion through the
    handler either leaves the store as it was or removes the rows with the
    given id and appends one audit entry for that id, whose actor and
    reason are never empty. *)
Theorem admin_tab_delete_fills_blank_actor_and_reason (w : world) (rid : Z)
    (actor_name motivo : string) :
  let out := tab_admin_delete rid actor_name motivo w in
  let actor := if decide (strip actor_name = "") then "ADMIN" else strip actor_name in
  let reason := if decide (strip motivo = "") then "—" else strip motivo in
  actor ≠ "" /\ reason ≠ "" /\
  (store out.2 = store w
   \/ exists a,
        audit_log (store out.2) = audit_log (store w) ++ [a] /\
        al_action a = "DELETE" /\ al_record_id a = rid /\
        al_actor a = actor /\ al_reason a = reason /\
        al_new_scheduled_date a = None /\
        forall row, row ∈ scheduled_activities (store out.2) -> sa_id row ≠ rid).
Proof.
  intros out actor reason.
  assert (strip_or actor_name "ADMIN" = actor) as Ha.
  { unfold actor.
    destruct (decide (strip actor_name = "")); [by apply strip_or_blank|by apply strip_or_given]. }
  assert (strip_or motivo "—" = reason) as Hr.
  { unfold reason.
    destruct (decide (strip motivo = "")); [by apply strip_or_blank|by apply strip_or_given]. }
  split; [rewrite <- Ha; by apply strip_or_nonempty|].
  split; [rewrite <- Hr; by apply strip_or_nonempty|].
  subst out. unfold tab_admin_delete. rewrite Ha, Hr.
  destruct (admin_delete_atomic w rid (PStr actor) (PStr reason)) as [[_ Hok]|[_ Hsame]];
    [right|by left].
  destruct Hok as (row & ac & re & n & Hin & Hid & [= <-] & [= <-] & Hrows & Haud).
  eexists. split; [exact Haud|]. do 5 (split; [done|]).
  intros x Hx. rewrite Hrows in Hx. by apply list_elem_of_filter in Hx as [? _].
Qed.
End Sidebar.

(** ** The calendar *)

Lemma valid_date_spec (d : pydate) :
  valid_date d = true
  <-> 1 <= year d <= 9999 /\ 1 <= month d <= 12
      /\ 1 <= day d <= days_in_month (year d) (month d).
Proof. unfold valid_date. rewrite !andb_true_iff, !Z.leb_le. tauto. Qed.

Lemma is_leap_spec (y : Z) :
  is_leap y = true <-> y mod 4 = 0 /\ (y mod 100 ≠ 0 \/ y mod 400 = 0).
Proof.
  unfold is_leap. rewrite andb_true_iff, orb_true_iff, negb_true_iff, !Z.eqb_eq, Z.eqb_neq.
  tauto.
Qed.

Lemma days_before_year_succ (y : Z) :
  days_before_year (y + 1) = days_before_year y + 365 + (if is_leap y then 1 else 0).
Proof.
  unfold days_before_year. cbv zeta. replace (y + 1 - 1) with y by lia.
  destruct (is_leap y) eqn:E.
  - apply is_leap_spec in E. Z.to_euclidean_division_equations. lia.
  - assert (~ (y mod 4 = 0 /\ (y mod 100 ≠ 0 \/ y mod 400 = 0))) as E'.
    { rewrite <- is_leap_spec. congruence. }
    Z.to_euclidean_division_equations. lia.
Qed.

Lemma days_before_year_mono (y y' : Z) : y <= y' -> days_before_year y <= days_before_year y'.
Proof. unfold days_before_year. cbv zeta. intros. Z.to_euclidean_division_equations. lia. Qed.

Ltac month_cases m Hm :=
  assert (m = 1 \/ m = 2 \/ m = 3 \/ m = 4 \/ m = 5 \/ m = 6 \/ m = 7 \/ m = 8 \/ m = 9
          \/ m = 10 \/ m = 11 \/ m = 12) as Hm by lia;
  destruct Hm as [->|[->|[->|[->|[->|[->|[->|[->|[->|[->|[->| ->]]]]]]]]]]].

Lemma days_in_month_bounds (y m : Z) : 28 <= days_in_month y m <= 31.
Proof.
  unfold days_in_month. destruct (m =? 2); [destruct (is_leap y); lia|].
  destruct (bool_decide _); lia.
Qed.

Lemma days_before_month_succ (y m : Z) :
  1 <= m <= 11 -> days_before_month y (m + 1) = days_before_month y m + days_in_month y m.
Proof.
  intros Hr. month_cases m Hm; try lia;
    unfold days_before_month, days_in_month; simpl; destruct (is_leap y); reflexivity.
Qed.

Lemma days_before_month_year (y : Z) :
  days_before_month y 1 = 0
  /\ days_before_month y 12 + 31 = 365 + (if is_leap y then 1 else 0).
Proof. unfold days_before_month. simpl. destruct (is_leap y); done. Qed.

Lemma days_before_month_mono (y m m' : Z) :
  1 <= m -> m < m' -> m' <= 12 ->
  days_before_month y m + days_in_month y m <= days_before_month y m'.
Proof.
  intros H1 H2 H3.
  assert (exists k : nat, m' = m + 1 + Z.of_nat k) as [k ->].
  { exists (Z.to_nat (m' - m - 1)). lia. }
  induction k as [|k IH].
  - rewrite Z.add_0_r, days_before_month_succ by lia. lia.
  - replace (m + 1 + Z.of_nat (S k)) with ((m + 1 + Z.of_nat k) + 1) by lia.
    rewrite days_before_month_succ by lia.
    pose proof (days_in_month_bounds y (m + 1 + Z.of_nat k)).
    assert (days_before_month y m + days_in_month y m
            <= days_before_month y (m + 1 + Z.of_nat k)) by (apply IH; lia).
    lia.
Qed.

Lemma days_before_month_nonneg (y m : Z) : 1 <= m <= 12 -> 0 <= days_before_month y m.
Proof.
  intros Hr. destruct (decide (m = 1)) as [->|Hne].
  - by rewrite (proj1 (days_before_month_year y)).
  - pose proof (days_before_month_mono y 1 m). pose proof (days_in_month_bounds y 1).
    rewrite (proj1 (days_before_month_year y)) in *. lia.
Qed.

(** Within a year the ordinal stays below the next year's first day. *)
Lemma day_of_year_bound (d : pydate) :
  valid_date d = true ->
  1 <= days_before_month (year d) (month d) + day d
    <= 365 + (if is_leap (year d) then 1 else 0).
Proof.
  intros (Hy & Hm & Hd)%valid_date_spec.
  pose proof (days_before_month_nonneg (year d) (month d) Hm).
  split; [lia|].
  destruct (decide (month d = 12)) as [E|E].
  - pose proof (proj2 (days_before_month_year (year d))). rewrite E in *. 
    unfold days_in_month in Hd. simpl in Hd. lia.
  - pose proof (days_before_month_mono (year d) (month d) 12).
    pose proof (proj2 (days_before_month_year (year d))). lia.
Qed.

Lemma date_lt_spec (d1 d2 : pydate) :
  date_lt d1 d2 = true
  <-> year d1 < year d2
      \/ (year d1 = year d2
          /\ (month d1 < month d2 \/ (month d1 = month d2 /\ day d1 < day d2))).
Proof.
  unfold date_lt.
  rewrite !orb_true_iff, !andb_true_iff, !orb_true_iff, !andb_true_iff,
    !Z.ltb_lt, !Z.eqb_eq. tauto.
Qed.

Lemma date_le_spec (d1 d2 : pydate) :
  date_le d1 d2 = true
  <-> year d1 < year d2
      \/ (year d1 = year d2
          /\ (month d1 < month d2 \/ (month d1 = month d2 /\ day d1 <= day d2))).
Proof.
  unfold date_le.
  rewrite !orb_true_iff, !andb_true_iff, !orb_true_iff, !andb_true_iff,
    !Z.ltb_lt, !Z.eqb_eq, Z.leb_le. tauto.
Qed.

Lemma date_le_lt (d1 d2 : pydate) : date_le d1 d2 = true <-> date_lt d1 d2 = true \/ d1 = d2.
Proof.
  rewrite date_le_spec, date_lt_spec.
  destruct d1 as [y1 m1 k1], d2 as [y2 m2 k2]; simpl. split.
  - intros [?|[-> [?|[-> ?]]]]; [tauto|tauto|].
    destruct (decide (k1 = k2)) as [->|]; [by right|left; right; split; [done|right; lia]].
  - intros [?|[= -> -> ->]]; [|lia]. lia.
Qed.

(** The ordinal grows with the date. *)
Lemma toordinal_lt (d1 d2 : pydate) :
  valid_date d1 = true -> valid_date d2 = true ->
  date_lt d1 d2 = true -> toordinal d1 < toordinal d2.
Proof.
  intros V1 V2 Hlt. apply date_lt_spec in Hlt. unfold toordinal.
  pose proof (day_of_year_bound d1 V1) as B1. pose proof (day_of_year_bound d2 V2) as B2.
  apply valid_date_spec in V1 as (Hy1 & Hm1 & Hd1). apply valid_date_spec in V2 as (Hy2 & Hm2 & Hd2).
  destruct Hlt as [Hy|[Hy [Hm|[Hm Hd]]]].
  - pose proof (days_before_year_succ (year d1)).
    pose proof (days_before_year_mono (year d1 + 1) (year d2)). lia.
  - rewrite Hy in *. pose proof (days_before_month_mono (year d2) (month d1) (month d2)). lia.
  - rewrite Hy, Hm. lia.
Qed.

Lemma date_lt_total (d1 d2 : pydate) : date_lt d1 d2 = true \/ d1 = d2 \/ date_lt d2 d1 = true.
Proof.
  rewrite !date_lt_spec. destruct d1 as [y1 m1 k1], d2 as [y2 m2 k2]; simpl.
  destruct (Z.lt_total y1 y2) as [?|[->|?]]; [tauto| |tauto].
  destruct (Z.lt_total m1 m2) as [?|[->|?]]; [tauto| |tauto].
  destruct (Z.lt_total k1 k2) as [?|[->|?]]; tauto.
Qed.

Lemma toordinal_lt_iff (d1 d2 : pydate) :
  valid_date d1 = true -> valid_date d2 = true ->
  date_lt d1 d2 = true <-> toordinal d1 < toordinal d2.
Proof.
  intros V1 V2. split; [by apply toordinal_lt|]. intros Ho.
  destruct (date_lt_total d1 d2) as [?|[->|Hgt]]; [done|lia|].
  apply toordinal_lt in Hgt; [lia|done..].
Qed.

Lemma toordinal_le_iff (d1 d2 : pydate) :
  valid_date d1 = true -> valid_date d2 = true ->
  date_le d1 d2 = true <-> toordinal d1 <= toordinal d2.
Proof.
  intros V1 V2. rewrite date_le_lt, toordinal_lt_iff by done. split.
  - intros [?| ->]; lia.
  - intros Ho. destruct (date_lt_total d1 d2) as [?|[->|Hgt]]; [left|by right|].
    + by apply toordinal_lt.
    + apply toordinal_lt in Hgt; [|done..]. lia.
Qed.

Lemma toordinal_inj (d1 d2 : pydate) :
  valid_date d1 = true -> valid_date d2 = true -> toordinal d1 = toordinal d2 -> d1 = d2.
Proof.
  intros V1 V2 Ho. destruct (date_lt_total d1 d2) as [Hlt|[?|Hlt]]; [|done|].
  - apply toordinal_lt in Hlt; [lia|done..].
  - apply toordinal_lt in Hlt; [lia|done..].
Qed.

(** [d + timedelta(days=1)] is the date one ordinal later, and raises
    only on 31 December 9999. *)
Lemma add_one_day_spec (d : pydate) :
  valid_date d = true ->
  match add_one_day d with
  | inr d' => valid_date d' = true /\ toordinal d' = toordinal d + 1
  | inl e => e = OverflowError /\ d = Date 9999 12 31
  end.
Proof.
  intros V. pose proof V as (Hy & Hm & Hd)%valid_date_spec. unfold add_one_day.
  destruct (Z.ltb_spec (day d) (days_in_month (year d) (month d))) as [H1|H1].
  { split; [apply valid_date_spec; simpl; lia|]. unfold toordinal. simpl. lia. }
  destruct (Z.ltb_spec (month d) 12) as [H2|H2].
  { split.
    - apply valid_date_spec; simpl. pose proof (days_in_month_bounds (year d) (month d + 1)). lia.
    - unfold toordinal. simpl. rewrite days_before_month_succ by lia. lia. }
  assert (month d = 12) as E12 by lia.
  assert (day d = 31) as E31.
  { rewrite E12 in Hd, H1. unfold days_in_month in Hd, H1. simpl in Hd, H1. lia. }
  destruct (Z.ltb_spec (year d) 9999) as [H3|H3].
  { split.
    - apply valid_date_spec; simpl. unfold days_in_month. simpl. lia.
    - unfold toordinal. simpl. rewrite days_before_year_succ, E12, E31.
      pose proof (days_before_month_year (year d)) as [_ Hdec].
      rewrite (proj1 (days_before_month_year (year d + 1))). lia. }
  split; [done|]. destruct d; simpl in *. f_equal; lia.
Qed.

(** [d - timedelta(days=1)] is the date one ordinal earlier, and raises
    only on 1 January of year 1. *)
Lemma sub_one_day_spec (d : pydate) :
  valid_date d = true ->
  match sub_one_day d with
  | inr d' => valid_date d' = true /\ toordinal d' = toordinal d - 1
  | inl e => e = OverflowError /\ d = Date 1 1 1
  end.
Proof.
  intros V. pose proof V as (Hy & Hm & Hd)%valid_date_spec. unfold sub_one_day.
  destruct (Z.ltb_spec 1 (day d)) as [H1|H1].
  { split; [apply valid_date_spec; simpl; lia|]. unfold toordinal. simpl. lia. }
  destruct (Z.ltb_spec 1 (month d)) as [H2|H2].
  { pose proof (days_in_month_bounds (year d) (month d - 1)). split.
    - apply valid_date_spec; simpl. lia.
    - unfold toordinal. simpl.
      pose proof (days_before_month_succ (year d) (month d - 1)) as Hs.
      replace (month d - 1 + 1) with (month d) in Hs by lia. lia. }
  assert (month d = 1) as E1 by lia. assert (day d = 1) as Ed by lia.
  destruct (Z.ltb_spec 1 (year d)) as [H3|H3].
  { split.
    - apply valid_date_spec; simpl. unfold days_in_month. simpl. lia.
    - unfold toordinal. simpl. rewrite E1, Ed.
      pose proof (days_before_year_succ (year d - 1)) as Hs.
      replace (year d - 1 + 1) with (year d) in Hs by lia.
      pose proof (days_before_month_year (year d - 1)) as [_ Hdec].
      rewrite (proj1 (days_before_month_year (year d))). lia. }
  split; [done|]. destruct d; simpl in *. f_equal; lia.
Qed.

Lemma weekday_range (d : pydate) : 0 <= weekday d < 7.
Proof. unfold weekday. apply Z.mod_pos_bound. lia. Qed.

(** ** [month_bounds] *)

Lemma month_bounds_raises (any_day : pydate) :
  valid_date any_day = true -> year any_day = 9999 -> month any_day = 12 ->
  month_bounds any_day = inl ValueError.
Proof.
  intros V Ey Em. pose proof V as (Hy & Hm & Hd)%valid_date_spec.
  assert (valid_date (Date (year any_day) (month any_day) 1) = true) as V1.
  { apply valid_date_spec; simpl. pose proof (days_in_month_bounds (year any_day) (month any_day)). lia. }
  unfold month_bounds, replace_day, py_date. rewrite V1. simpl. rewrite Ey, Em. reflexivity.
Qed.

Lemma month_bounds_returns (any_day : pydate) :
  valid_date any_day = true -> ~ (year any_day = 9999 /\ month any_day = 12) ->
  month_bounds any_day
  = inr (Date (year any_day) (month any_day) 1,
         Date (year any_day) (month any_day) (days_in_month (year any_day) (month any_day))).
Proof.
  intros V Hnot. pose proof V as (Hy & Hm & Hd)%valid_date_spec.
  set (y := year any_day) in *. set (m := month any_day) in *.
  pose proof (days_in_month_bounds y m) as Hdim.
  assert (valid_date (Date y m 1) = true) as V1 by (apply valid_date_spec; simpl; lia).
  unfold month_bounds, replace_day, py_date. fold y m. rewrite V1. simpl.
  destruct (Z.eqb_spec m 12) as [E|E].
  - assert (valid_date (Date (y + 1) 1 1) = true) as ->.
    { apply valid_date_spec; simpl. unfold days_in_month; simpl. lia. }
    unfold sub_one_day. simpl.
    assert ((1 <? y + 1) = true) as -> by (apply Z.ltb_lt; lia).
    replace (y + 1 - 1) with y by lia. rewrite E. reflexivity.
  - assert (valid_date (Date y (m + 1) 1) = true) as ->.
    { apply valid_date_spec; simpl. pose proof (days_in_month_bounds y (m + 1)). lia. }
    unfold sub_one_day. simpl.
    assert ((1 <? m + 1) = true) as -> by (apply Z.ltb_lt; lia).
    replace (m + 1 - 1) with m by lia. reflexivity.
Qed.

(** The dates between the first and the last day of a month are the
    dates of that month. *)
Lemma month_cover (y m : Z) (d : pydate) :
  valid_date d = true ->
  date_le (Date y m 1) d = true /\ date_le d (Date y m (days_in_month y m)) = true
  <-> year d = y /\ month d = m.
Proof.
  intros (Hdy & Hdm & Hdd)%valid_date_spec. rewrite !date_le_spec. simpl. split.
  - lia.
  - intros [E1 E2]. rewrite E1, E2 in *. lia.
Qed.

(** X12.  For a date of any month but December 9999, [month_bounds]
    returns the first and the last day of that date's month (29 February
    in a leap year), and a date lies between the two bounds exactly when
    it is of that year and month.  In December 9999 the function raises
    [ValueError]: the first day of the next month is beyond [date.max]. *)
Theorem month_bounds_are_first_and_last_day (any_day : pydate) :
  valid_date any_day = true ->
  let y := year any_day in
  let m := month any_day in
  (y = 9999 /\ m = 12 -> month_bounds any_day = inl ValueError)
  /\ (~ (y = 9999 /\ m = 12) ->
      month_bounds any_day = inr (Date y m 1, Date y m (days_in_month y m))
      /\ forall d, valid_date d = true ->
           (date_le (Date y m 1) d = true /\ date_le d (Date y m (days_in_month y m)) = true
            <-> year d = y /\ month d = m)).
Proof.
  intros V y m. split.
  - intros [Ey Em]. by apply month_bounds_raises.
  - intros Hnot. split; [by apply month_bounds_returns|].
    intros d Vd. by apply month_cover.
Qed.

Lemma month_bounds_are_first_and_last_day_witness :
  month_bounds (Date 2024 2 14) = inr (Date 2024 2 1, Date 2024 2 29).
Proof.
  apply (month_bounds_are_first_and_last_day (Date 2024 2 14)); [reflexivity|].
  simpl. lia.
Defined.

(** ** The dates of a range *)

Lemma map_wd_get_spec (k : Z) :
  0 <= k < 7 ->
  exists wd, map_wd_get k = inr wd /\ (k, wd) ∈ map_wd
             /\ (wd ∈ ["Sáb"; "Dom"] <-> 5 <= k)
             /\ forall wd', (k, wd') ∈ map_wd -> wd' = wd.
Proof.
  intros Hk.
  assert (k = 0 \/ k = 1 \/ k = 2 \/ k = 3 \/ k = 4 \/ k = 5 \/ k = 6) as Hc by lia.
  destruct Hc as [->|[->|[->|[->|[->|[->| ->]]]]]];
    (eexists; split; [reflexivity|]; split; [unfold map_wd; rewrite !elem_of_cons; tauto|];
     split;
     [rewrite !elem_of_cons, elem_of_nil; split; [intros [[=]|[[=]|[]]]; lia|intros; try lia; tauto]
     |intros wd'; unfold map_wd; rewrite !elem_of_cons, elem_of_nil;
      intros [[=]|[[=]|[[=]|[[=]|[[=]|[[=]|[[=]|[]]]]]]]]; done]).
Qed.

Section Fechas.
Variables (f_fin : pydate) (dias : list string) (incluir_finde : bool).
Hypothesis f_fin_valid : valid_date f_fin = true.

Lemma line_118 (cur : pydate) (wd : string) :
  map_wd_get (weekday cur) = inr wd ->
  (incluir_finde || negb (bool_decide (wd ∈ ["Sáb"; "Dom"])))
  && bool_decide (wd ∈ allowed_days dias) = true
  <-> programmed dias incluir_finde cur.
Proof.
  intros Hget. destruct (map_wd_get_spec (weekday cur) (weekday_range cur))
    as (wd0 & Hget0 & Hin & Hwe & Huniq).
  rewrite Hget in Hget0. injection Hget0 as <-.
  rewrite andb_true_iff, orb_true_iff, negb_true_iff, bool_decide_eq_false,
    bool_decide_eq_true, Hwe. unfold programmed. split.
  - intros [Hw Hal]. split; [destruct Hw; [by left|right; lia]|by exists wd].
  - intros [Hw (wd' & Hin' & Hal)]. apply Huniq in Hin' as ->.
    split; [destruct Hw; [by left|right; lia]|done].
Qed.

Lemma date_le_max (d : pydate) : valid_date d = true -> date_le d (Date 9999 12 31) = true.
Proof.
  intros (Hy & Hm & Hd)%valid_date_spec. apply date_le_spec. simpl.
  pose proof (days_in_month_bounds (year d) (month d)). lia.
Qed.

(** The loop from [cur]: with a last day before [date.max] it ends, and
    appends the programmed days from [cur] to [f_fin], in order. *)
Lemma fechas_loop_ok (fuel : nat) : forall (cur : pydate) (acc : list pydate),
  valid_date cur = true ->
  f_fin ≠ Date 9999 12 31 ->
  toordinal f_fin - toordinal cur + 1 <= Z.of_nat fuel ->
  exists l,
    fechas_loop fuel cur f_fin incluir_finde (allowed_days dias) acc = Some (inr (acc ++ l))
    /\ Forall (fun d => valid_date d = true) l
    /\ StronglySorted (fun a b => date_lt a b = true) l
    /\ forall d, valid_date d = true ->
         (d ∈ l <-> date_le cur d = true /\ date_le d f_fin = true
                    /\ programmed dias incluir_finde d).
Proof.
  induction fuel as [|fuel IH]; intros cur acc Vc Hmax Hfuel.
  - exists []. assert (date_le cur f_fin = false) as Hle.
    { apply not_true_is_false. rewrite toordinal_le_iff by done. lia. }
    simpl. rewrite Hle, app_nil_r. split; [done|]. split; [done|]. split; [constructor|].
    intros d Vd. rewrite elem_of_nil. split; [done|]. intros (H1 & H2 & _).
    apply toordinal_le_iff in H1, H2; try done. 
    rewrite <- not_true_iff_false, toordinal_le_iff in Hle by done. lia.
  - simpl. destruct (date_le cur f_fin) eqn:Hle.
    2:{ exists []. rewrite app_nil_r. split; [done|]. split; [done|]. split; [constructor|].
        intros d Vd. rewrite elem_of_nil. split; [done|]. intros (H1 & H2 & _).
        apply toordinal_le_iff in H1, H2; try done.
        rewrite <- not_true_iff_false, toordinal_le_iff in Hle by done. lia. }
    destruct (map_wd_get_spec (weekday cur) (weekday_range cur)) as (wd & Hget & _).
    rewrite Hget. pose proof (line_118 cur wd Hget) as Hkeep.
    pose proof (add_one_day_spec cur Vc) as Hnext.
    destruct (add_one_day cur) as [e|cur'].
    { destruct Hnext as [_ ->]. exfalso. apply Hmax.
      apply date_le_spec in Hle. simpl in Hle.
      pose proof f_fin_valid as (Hy & Hm & Hd)%valid_date_spec.
      pose proof (days_in_month_bounds (year f_fin) (month f_fin)).
      assert (month f_fin = 12) as E by lia. rewrite E in Hd.
      unfold days_in_month in Hd. simpl in Hd.
      destruct f_fin as [y m k]; simpl in *. f_equal; lia. }
    destruct Hnext as [Vc' Hord].
    assert (forall d, valid_date d = true ->
              (date_le cur d = true <-> d = cur \/ date_le cur' d = true)) as Hsplit.
    { intros d Vd. rewrite !toordinal_le_iff by done. split.
      - intros Ho. destruct (decide (toordinal cur = toordinal d)) as [E|E].
        + left. symmetry. by apply toordinal_inj.
        + right. lia.
      - intros [->|Ho]; lia. }
    match goal with
    | |- context [fechas_loop fuel cur' f_fin _ _ ?a] =>
        destruct (IH cur' a Vc' Hmax ltac:(lia)) as (l & Hrun & Hval & Hsort & Hmem)
    end.
    destruct ((incluir_finde || negb (bool_decide (wd ∈ ["Sáb"; "Dom"])))
              && bool_decide (wd ∈ allowed_days dias)) eqn:Hk.
    + exists (cur :: l). rewrite Hrun, <- app_assoc. split; [done|].
      split; [by constructor|]. split.
      * constructor; [done|]. apply Forall_forall. intros d Hd.
        pose proof (proj1 (Forall_forall _ _) Hval d Hd) as Vd.
        apply (Hmem d Vd) in Hd as (Hd & _). apply toordinal_lt_iff; [done..|].
        apply toordinal_le_iff in Hd; [lia|done..].
      * intros d Vd. rewrite elem_of_cons, (Hmem d Vd), (Hsplit d Vd). split.
        -- intros [->|(? & ? & ?)]; [|tauto].
           split; [by left|]. split; [done|]. by apply Hkeep.
        -- intros ([->|?] & ? & ?); [by left|right; tauto].
    + exists l. rewrite Hrun. split; [done|]. split; [done|]. split; [done|].
      intros d Vd. rewrite (Hmem d Vd), (Hsplit d Vd). split; [tauto|].
      intros ([->|?] & ? & Hp); [|tauto]. apply Hkeep in Hp. congruence.
Qed.

(** With [date.max] as the last day the loop raises when it steps past it. *)
Lemma fechas_loop_overflow (fuel : nat) : forall (cur : pydate) (acc : list pydate),
  valid_date cur = true ->
  f_fin = Date 9999 12 31 ->
  toordinal f_fin - toordinal cur + 1 <= Z.of_nat fuel ->
  fechas_loop fuel cur f_fin incluir_finde (allowed_days dias) acc = Some (inl OverflowError).
Proof.
  induction fuel as [|fuel IH]; intros cur acc Vc Hmax Hfuel.
  - pose proof (date_le_max cur Vc) as Hle. rewrite <- Hmax in Hle.
    apply toordinal_le_iff in Hle; [lia|done..].
  - simpl. pose proof (date_le_max cur Vc) as Hle. rewrite <- Hmax in Hle. rewrite Hle.
    destruct (map_wd_get_spec (weekday cur) (weekday_range cur)) as (wd & Hget & _).
    rewrite Hget. pose proof (add_one_day_spec cur Vc) as Hnext.
    destruct (add_one_day cur) as [e|cur']; [by destruct Hnext as [-> _]|].
    destruct Hnext as [Vc' Hord]. apply IH; [done..|lia].
Qed.
End Fechas.

(** X13.  The date list of the "Rango" mode, for a last day other than
    [date.max]: the loop ends, and the list holds, in increasing order and
    once each, exactly the days from [f_ini] to [f_fin] that pass the test
    of line 118: a day of Monday to Friday, or any day when "Incluir fines
    de semana" is ticked, whose name is among the chosen ones (all seven
    when none is chosen).  So a Saturday or a Sunday is programmed only
    when the box is ticked and its name is chosen, or none is; and the
    list is empty when [f_ini] is after [f_fin]. *)
Theorem range_dates_are_the_programmed_days (f_ini f_fin : pydate) (dias : list string)
    (incluir_finde : bool) :
  valid_date f_ini = true -> valid_date f_fin = true -> f_fin ≠ Date 9999 12 31 ->
  exists fechas,
    build_fechas f_ini f_fin dias incluir_finde = Some (inr fechas)
    /\ StronglySorted (fun a b => date_lt a b = true) fechas
    /\ Forall (fun d => valid_date d = true) fechas
    /\ forall d, valid_date d = true ->
         (d ∈ fechas <-> date_le f_ini d = true /\ date_le d f_fin = true
                         /\ programmed dias incluir_finde d).
Proof.
  intros Vi Vf Hmax. unfold build_fechas. destruct (date_le f_ini f_fin) eqn:Hle.
  - destruct (fechas_loop_ok f_fin dias incluir_finde Vf
                (Z.to_nat (toordinal f_fin - toordinal f_ini + 1)) f_ini [] Vi Hmax)
      as (l & Hrun & Hval & Hsort & Hmem); [lia|].
    exists l. by rewrite Hrun.
  - exists []. split; [done|]. split; [constructor|]. split; [done|].
    intros d Vd. rewrite elem_of_nil. split; [done|]. intros (H1 & H2 & _).
    apply toordinal_le_iff in H1, H2; try done.
    rewrite <- not_true_iff_false, toordinal_le_iff in Hle by done. lia.
Qed.

(** X14.  With 31 December 9999 as the last day of the range, the loop
    steps past [date.max] and the form raises [OverflowError], whatever
    the first day and the chosen weekdays. *)
Theorem range_to_date_max_overflows (f_ini : pydate) (dias : list string)
    (incluir_finde : bool) :
  valid_date f_ini = true ->
  build_fechas f_ini (Date 9999 12 31) dias incluir_finde = Some (inl OverflowError).
Proof.
  intros Vi. unfold build_fechas.
  rewrite (date_le_max f_ini Vi).
  apply fechas_loop_overflow; [done..|lia].
Qed.

(** ** The "Registrar" form *)

Section Registrar.
Context `{Runtime}.

Lemma registro_record_insertable especialista actividad unidad_final notas actor_name f :
  insertable (registro_record especialista actividad unidad_final notas actor_name f) = true.
Proof. reflexivity. Qed.

Lemma registro_record_row especialista actividad unidad_final notas actor_name f n t :
  new_row (registro_record especialista actividad unidad_final notas actor_name f) n t
  = Activity n (strip especialista) (strip actividad) unidad_final (isoformat f) ""
      (strip notas) t
      (or_text (PStr (strip (if truthy (PStr actor_name) then actor_name else "—"))) "—")
      None None.
Proof.
  unfold new_row, registro_record, field_text, dict_get. simplify_map_eq. 
  simpl. by destruct (String.eqb_spec (strip notas) "") as [E|E]; [rewrite E|].
Qed.

(** X15.  "Registrar" with a store that satisfies the invariant and has
    room for the rows.  The form is turned down, and the store left as it
    is, exactly when the specialist or the activity is empty, or both the
    unit and its free text are, or there is no date.  Otherwise it appends
    one row per date, in the order of the dates and with consecutive fresh
    ids: specialist, activity and notes stripped, the unit as chosen (the
    stripped free text for "Otro"), the date in ISO form, an empty status,
    no update stamp, and as creator the stripped name from the sidebar,
    or "—" when that is empty; the audit log is left alone.  The check is
    made before stripping: a specialist or activity of spaces only is
    stored as the empty string. *)
Theorem registrar_stores_one_row_per_date (especialista actividad unidad unidad_otro : string)
    (fechas : list pydate) (notas actor_name : string) (w : world) :
  wf_db (store w) ->
  seq_scheduled_activities (store w) + Z.of_nat (length fechas) < 2 ^ 63 ->
  let out := tab_reg_submit especialista actividad unidad unidad_otro fechas notas
                            actor_name w in
  let missing := especialista = "" \/ actividad = "" \/ (unidad = "" /\ unidad_otro = "")
                 \/ fechas = [] in
  let creator :=
    let a := strip (if decide (actor_name = "") then "—" else actor_name) in
    if decide (a = "") then "—" else a in
  (missing -> out = (inr Faltan_datos, w))
  /\ (~ missing ->
      out.1 = inr (Listo (length fechas))
      /\ clock out.2 = (clock w + length fechas)%nat
      /\ audit_log (store out.2) = audit_log (store w)
      /\ scheduled_activities (store out.2)
         = scheduled_activities (store w)
           ++ imap (fun i f =>
                      Activity (seq_scheduled_activities (store w) + 1 + Z.of_nat i)
                        (strip especialista) (strip actividad)
                        (if decide (unidad = "Otro") then strip unidad_otro else unidad)
                        (isoformat f) "" (strip notas) (now_iso (clock w + i)) creator
                        None None) fechas).
Proof.
  intros Hwf Hroom out missing creator. subst out. unfold tab_reg_submit.
  set (cond := truthy (PStr especialista) && truthy (PStr actividad)
               && (truthy (PStr unidad) || truthy (PStr unidad_otro))
               && negb (bool_decide (fechas = []))).
  assert (cond = true <-> ~ missing) as Hcond.
  { unfold cond. rewrite !andb_true_iff, orb_true_iff, negb_true_iff, bool_decide_eq_false.
    unfold missing, truthy. rewrite !negb_true_iff.
    destruct (String.eqb_spec especialista ""), (String.eqb_spec actividad ""),
      (String.eqb_spec unidad ""), (String.eqb_spec unidad_otro ""); split; try tauto;
      intros; intuition congruence. }
  split.
  - intros Hm. assert (cond = false) as ->; [|done].
    apply not_true_is_false. intros E. by apply Hcond in E.
  - intros Hm. apply Hcond in Hm. rewrite Hm. cbn [negb]. cbv zeta.
    set (uf := if String.eqb unidad "Otro" then strip unidad_otro else unidad).
    rewrite add_scheduled_records_run; [|done| |by rewrite length_fmap].
    2:{ apply Forall_fmap, Forall_forall. intros f _. apply registro_record_insertable. }
    cbn [fst snd store clock scheduled_activities audit_log].
    rewrite length_fmap. do 3 (split; [done|]). f_equal.
    apply list_eq. intros i.
    rewrite new_rows_lookup, list_lookup_fmap, list_lookup_imap.
    destruct (fechas !! i) as [f|]; [|done]. cbn [fmap option_fmap option_map].
    rewrite registro_record_row. f_equal. f_equal.
    + unfold uf. by destruct (String.eqb_spec unidad "Otro"), (decide (unidad = "Otro")).
    + unfold creator, or_text, truthy.
      destruct (String.eqb_spec actor_name ""), (decide (actor_name = "")); try done;
        cbn [negb].
      * by destruct (String.eqb_spec (strip "—") ""), (decide (strip "—" = "")).
      * by destruct (String.eqb_spec (strip actor_name) ""), (decide (strip actor_name = "")).
Qed.
End Registrar.

(** ** The board *)

Lemma string_leb_total (a b : string) : String.leb a b = false -> String.leb b a = true.
Proof.
  unfold String.leb. destruct (String.compare a b) eqn:E; try done. intros _.
  by rewrite (string_compare_gt_lt _ _ E).
Qed.

Lemma string_leb_trans (a b c : string) :
  String.leb a b = true -> String.leb b c = true -> String.leb a c = true.
Proof.
  unfold String.leb. intros H1 H2.
  pose proof (string_compare_le_trans a b c) as Ht.
  destruct (String.compare a c); try done.
  exfalso. apply Ht; [by destruct (String.compare a b)|by destruct (String.compare b c)|done].
Qed.

Lemma sum_list_with_perm {A} (f : A -> nat) (l1 l2 : list A) :
  l1 ≡ₚ l2 -> sum_list_with f l1 = sum_list_with f l2.
Proof. induction 1; simpl; lia. Qed.

Lemma sum_list_with_map {A B} (f : B -> nat) (g : A -> B) (l : list A) :
  sum_list_with f (g <$> l) = sum_list_with (fun x => f (g x)) l.
Proof. induction l as [|x l IH]; [done|]. cbn [fmap list_fmap sum_list_with]. by f_equal. Qed.

(** Counting a list by the groups of a key counts every element once. *)
Lemma group_sizes_sum {A K} `{EqDecision K} (key : A -> K) (ks : list K) (l : list A) :
  NoDup ks -> (forall x, x ∈ l -> key x ∈ ks) ->
  sum_list_with (fun k => length (filter (fun x => key x = k) l)) ks = length l.
Proof.
  intros Hnd. induction l as [|x l IH]; intros Hin.
  - clear Hin Hnd. induction ks as [|k ks IHk]; simpl; [done|]. exact IHk.
  - assert (key x ∈ ks) as Hx by (apply Hin; left).
    specialize (IH (fun y Hy => Hin y (list_elem_of_further _ _ _ Hy))).
    cbn [length]. rewrite <- IH. clear IH Hin.
    induction ks as [|k ks IHk]; [by apply elem_of_nil in Hx|].
    apply NoDup_cons in Hnd as [Hk Hnd]. simpl.
    destruct (decide (key x = k)) as [E|E].
    + rewrite filter_cons_True by done. simpl. f_equal. f_equal.
      assert (key x ∉ ks) as Hout by (by rewrite E).
      clear IHk Hx. induction ks as [|k' ks IHk']; simpl; [done|].
      apply not_elem_of_cons in Hout as [Hne Hout]. apply NoDup_cons in Hnd as [_ Hnd].
      apply not_elem_of_cons in Hk as [_ Hk].
      rewrite filter_cons_False by done. f_equal. by apply IHk'.
    + rewrite filter_cons_False by done. apply elem_of_cons in Hx as [?|Hx]; [done|].
      rewrite (IHk Hnd Hx). lia.
Qed.

(** X16.  The board's summary has one row per specialist of the frame,
    in the order of the names.  A row's [planned] is the number of the
    specialist's rows, and the numbers of all rows add up to the size of
    the frame; [completed], [missed] and [pending] together never exceed
    [planned], and fall short of it exactly when one of the specialist's
    rows has a status that is none of "✓", "✗" and the empty string. *)
Theorem board_counts_every_row_once (dfm : list df_row) :
  let resumen := tablero_resumen dfm in
  StronglySorted (fun a b => String.compare a b = Lt) (rs_specialist <$> resumen)
  /\ (forall s, s ∈ rs_specialist <$> resumen <-> exists r, r ∈ dfm /\ df_specialist r = s)
  /\ sum_list_with planned resumen = length dfm
  /\ forall row, row ∈ resumen ->
       let g := filter (fun r => df_specialist r = rs_specialist row) dfm in
       planned row = length g
       /\ (completed row + missed row + pending row <= planned row)%nat
       /\ ((completed row + missed row + pending row = planned row)%nat
           <-> forall r, r ∈ g -> df_status r ∈ ["✓"; "✗"; ""]).
Proof.
  intros resumen. subst resumen. unfold tablero_resumen.
  set (ks := sort_by String.leb (remove_dups (df_specialist <$> dfm))).
  assert (forall s, s ∈ ks <-> exists r, r ∈ dfm /\ df_specialist r = s) as Hks.
  { intros s. unfold ks. rewrite elem_of_sort_by, elem_of_remove_dups, list_elem_of_fmap.
    split; intros (r & ? & ?); by exists r. }
  assert (NoDup ks) as Hnd.
  { unfold ks. rewrite sort_by_perm. apply NoDup_remove_dups. }
  rewrite <- list_fmap_compose.
  assert (forall l : list string, (rs_specialist ∘ (fun s : string =>
            let g := filter (fun r => df_specialist r = s) dfm in
            Resumen s (length g) (count_status "✓" g) (count_status "✗" g)
                    (count_status "" g))) <$> l = l) as Hid.
  { intros l. apply list_eq. intros i. rewrite list_lookup_fmap. by destruct (l !! i). }
  rewrite Hid. split; [|split; [exact Hks|split]].
  - assert (StronglySorted (fun a b => String.leb a b = true) ks) as Hs.
    { apply sort_by_strongly; [apply string_leb_total|apply string_leb_trans]. }
    clear Hks Hid. induction Hs as [|x l Hs IH Hx]; [constructor|].
    apply NoDup_cons in Hnd as [Hx' Hnd]. constructor; [by apply IH|].
    apply Forall_forall. intros y Hy. pose proof (proj1 (Forall_forall _ _) Hx y Hy) as Hle.
    unfold String.leb in Hle. destruct (String.compare x y) eqn:E; try done.
    apply string_compare_eq in E as ->. done.
  - rewrite sum_list_with_map. simpl.
    apply (group_sizes_sum df_specialist ks dfm Hnd).
    intros r Hr. apply Hks. by exists r.
  - intros row (s & -> & Hs)%list_elem_of_fmap. simpl. split; [done|].
    generalize (filter (fun r => df_specialist r = s) dfm). intros g. unfold count_status.
    induction g as [|r g IH].
    { split; [done|]. split; [|done]. intros _ r Hr. by apply elem_of_nil in Hr. }
    destruct IH as [IH1 IH2].
    assert ((forall r0, r0 ∈ r :: g -> df_status r0 ∈ ["✓"; "✗"; ""])
            <-> df_status r ∈ ["✓"; "✗"; ""]
                /\ forall r0, r0 ∈ g -> df_status r0 ∈ ["✓"; "✗"; ""]) as ->.
    { split.
      - intros Hall. split; [apply Hall; left|]. intros r0 Hr0. apply Hall. by right.
      - intros [H1 H2] r0 [->|Hr0]%elem_of_cons; [done|by apply H2]. }
    rewrite <- IH2, !elem_of_cons, elem_of_nil, !filter_cons.
    destruct (decide (df_status r = "✓")) as [E1|E1],
             (decide (df_status r = "✗")) as [E2|E2],
             (decide (df_status r = "")) as [E3|E3]; cbn [length];
      try (exfalso; congruence);
      (split; [lia|]);
      (split; [intros ?; first [split; [tauto|lia]|exfalso; lia]
              |intros [Hd ?]; first [lia|exfalso; tauto]]).
Qed.

(** ** Dates as text *)

Lemma digits_ok_all : forallb digits_ok (seqZ 0 10000) = true.
Proof. vm_compute. reflexivity. Qed.

Lemma digits_ok_below (n : Z) : 0 <= n < 10000 -> digits_ok n = true.
Proof.
  intros Hn. pose proof digits_ok_all as Hall. rewrite forallb_forall in Hall.
  apply Hall, list_elem_of_In, elem_of_seqZ. lia.
Qed.

(** The text of a valid date, digit by digit. *)
Lemma isoformat_digits (d : pydate) :
  valid_date d = true ->
  exists y1 y2 y3 y4 m1 m2 d1 d2,
    isoformat d = iso_text y1 y2 y3 y4 m1 m2 d1 d2
    /\ year d = 1000 * y1 + 100 * y2 + 10 * y3 + y4
    /\ month d = 10 * m1 + m2 /\ day d = 10 * d1 + d2
    /\ Forall (fun x => 0 <= x <= 9) [y1; y2; y3; y4; m1; m2; d1; d2].
Proof.
  intros (Hy & Hm & Hd)%valid_date_spec.
  pose proof (days_in_month_bounds (year d) (month d)) as Hdim.
  pose proof (digits_ok_below (year d) ltac:(lia)) as [Ey _]%andb_prop.
  pose proof (digits_ok_below (month d) ltac:(lia)) as [_ Em]%andb_prop.
  pose proof (digits_ok_below (day d) ltac:(lia)) as [_ Ed]%andb_prop.
  assert ((month d <? 100) = true) as Hm100 by (apply Z.ltb_lt; lia).
  assert ((day d <? 100) = true) as Hd100 by (apply Z.ltb_lt; lia).
  rewrite Hm100 in Em. rewrite Hd100 in Ed. simpl in Em, Ed.
  apply String.eqb_eq in Ey, Em, Ed.
  exists (year d / 1000), (year d / 100 mod 10), (year d / 10 mod 10), (year d mod 10),
    (month d / 10), (month d mod 10), (day d / 10), (day d mod 10).
  split; [unfold isoformat; rewrite Ey, Em, Ed; reflexivity|].
  split; [Z.to_euclidean_division_equations; lia|].
  split; [Z.to_euclidean_division_equations; lia|].
  split; [Z.to_euclidean_division_equations; lia|].
  repeat (constructor; [Z.to_euclidean_division_equations; lia|]). constructor.
Qed.

Lemma digit_char_compare (a b : Z) :
  0 <= a <= 9 -> 0 <= b <= 9 -> Ascii.compare (digit_char a) (digit_char b) = (a ?= b).
Proof.
  intros Ha Hb. unfold Ascii.compare, digit_char.
  rewrite !Ascii.N_ascii_embedding by lia.
  rewrite (Z2N.inj_compare (48 + a) (48 + b)) by lia. apply Z.add_compare_mono_l.
Qed.

(** On valid dates the order of the texts is the order of the dates. *)
Lemma isoformat_leb (d1 d2 : pydate) :
  valid_date d1 = true -> valid_date d2 = true ->
  String.leb (isoformat d1) (isoformat d2) = date_le d1 d2.
Proof.
  intros V1 V2.
  destruct (isoformat_digits d1 V1)
    as (a1 & a2 & a3 & a4 & a5 & a6 & a7 & a8 & -> & Ey1 & Em1 & Ed1 & Hr1).
  destruct (isoformat_digits d2 V2)
    as (b1 & b2 & b3 & b4 & b5 & b6 & b7 & b8 & -> & Ey2 & Em2 & Ed2 & Hr2).
  repeat match goal with
         | H : Forall _ (_ :: _) |- _ => apply Forall_cons in H as [? H]
         end.
  unfold String.leb, iso_text. cbn [String.compare].
  rewrite !digit_char_compare by done.
  replace (Ascii.compare hyphen hyphen) with Eq by reflexivity.
  repeat match goal with
         | |- context [?a ?= ?b] => destruct (Z.compare_spec a b)
         end;
    symmetry;
    first [apply date_le_spec; lia
          |apply not_true_is_false; rewrite date_le_spec; lia].
Qed.

Section MonthQuery.
Context `{Runtime}.

(** X17.  The board's query for the month of a date.  When SQLite's
    [date()] leaves the two bounds as they are, and reads every stored
    date as a valid date that pandas reads as the same one, the query
    with the bounds [month_bounds] returned does not raise, and its frame
    holds exactly the stored rows dated in that year and month: the
    comparison of the ISO texts agrees with the order of the dates. *)
Theorem month_query_returns_the_month (any_day first last : pydate) (w : world) :
  valid_date any_day = true ->
  month_bounds any_day = inr (first, last) ->
  sql_date (isoformat first) = Some (isoformat first) ->
  sql_date (isoformat last) = Some (isoformat last) ->
  (forall r, r ∈ scheduled_activities (store w) ->
     exists d, valid_date d = true /\ sql_date (sa_scheduled_date r) = Some (isoformat d)
               /\ to_datetime (sa_scheduled_date r) = Some d) ->
  exists df,
    (get_month_records first last None w).1 = inr df
    /\ forall dr, dr ∈ df <->
         (exists r, r ∈ scheduled_activities (store w) /\ to_df_row r dr)
         /\ year (df_scheduled_date dr) = year any_day
         /\ month (df_scheduled_date dr) = month any_day.
Proof.
  intros V Hb Hfirst Hlast Hcanon.
  assert (~ (year any_day = 9999 /\ month any_day = 12)) as Hnot.
  { intros [Ey Em]. by rewrite (month_bounds_raises any_day V Ey Em) in Hb. }
  rewrite (month_bounds_returns any_day V Hnot) in Hb. injection Hb as <- <-.
  set (y := year any_day) in *. set (m := month any_day) in *.
  pose proof V as (Hy & Hm & Hd)%valid_date_spec. fold y m in Hy, Hm, Hd.
  pose proof (days_in_month_bounds y m) as Hdim.
  assert (valid_date (Date y m 1) = true) as V1 by (apply valid_date_spec; simpl; lia).
  assert (valid_date (Date y m (days_in_month y m)) = true) as V2
    by (apply valid_date_spec; simpl; lia).
  destruct (get_month_records_total (Date y m 1) (Date y m (days_in_month y m)) None w)
    as [df Hdf].
  { apply Forall_forall. intros s (r & -> & Hr)%list_elem_of_fmap.
    destruct (Hcanon r Hr) as (d & _ & _ & Hpd). intros _. by exists d. }
  exists df. split; [done|].
  pose proof (get_month_records_frame _ _ _ _ _ Hdf) as Hf2.
  assert (forall r d, r ∈ scheduled_activities (store w) ->
            valid_date d = true -> sql_date (sa_scheduled_date r) = Some (isoformat d) ->
            (r ∈ month_rows (Date y m 1) (Date y m (days_in_month y m)) None (store w)
             <-> year d = y /\ month d = m)) as Hsel.
  { intros r d Hr Vd Hsql. rewrite month_rows_elem. unfold month_where. cbn [specialist_param].
    rewrite Hfirst, Hlast, Hsql. cbn [sql_le]. rewrite !isoformat_leb by done.
    rewrite andb_true_r, andb_true_iff, month_cover by done. tauto. }
  intros dr. split.
  - intros Hdr. apply list_elem_of_lookup in Hdr as [i Hi].
    destruct (Forall2_lookup_r _ _ _ _ _ Hf2 Hi) as (r & Hr & Hrow).
    apply list_elem_of_lookup_2 in Hr.
    assert (r ∈ scheduled_activities (store w)) as Hin by (by apply month_rows_elem in Hr as [? _]).
    destruct (Hcanon r Hin) as (d & Vd & Hsql & Hpd).
    apply (Hsel r d Hin Vd Hsql) in Hr.
    split; [by exists r|]. destruct Hrow as (d' & Hd' & ->). simpl.
    rewrite Hpd in Hd'. by injection Hd' as <-.
  - intros [(r & Hin & Hrow) [Ey Em]].
    destruct (Hcanon r Hin) as (d & Vd & Hsql & Hpd).
    assert (df_scheduled_date dr = d) as Edr.
    { destruct Hrow as (d' & Hd' & ->). simpl. congruence. }
    rewrite Edr in Ey, Em.
    pose proof (proj2 (Hsel r d Hin Vd Hsql) (conj Ey Em)) as Hr.
    apply list_elem_of_lookup in Hr as [i Hi].
    destruct (Forall2_lookup_l _ _ _ _ _ Hf2 Hi) as (dr' & Hdr' & Hrow').
    rewrite (to_df_row_fun r dr dr' Hrow Hrow'). by eapply list_elem_of_lookup_2.
Qed.
End MonthQuery.

(** ** Row ids over time *)

Section Orphans.
Context `{Runtime}.

(** An id at or below the counter that no row carries is carried by no
    row of any later store. *)
Lemma absent_id_stays_absent (calls : list call) (w : world) (rid : Z) :
  rid <= seq_scheduled_activities (store w) ->
  (forall row, row ∈ scheduled_activities (store w) -> sa_id row ≠ rid) ->
  forall row, row ∈ scheduled_activities (store (run calls w)) -> sa_id row ≠ rid.
Proof.
  intros Hseq Hout row Hrow Hid.
  destruct (run_evolves calls w) as [_ [_ Hids _]].
  destruct (Hids rid) as [(x & Hx & Hin)%list_elem_of_fmap|Hlt].
  - apply list_elem_of_fmap. by exists row.
  - by apply (Hout x Hin).
  - lia.
Qed.

(** X18.  The id of a deleted record is never given to another row: after
    [admin_delete_record] has returned [True] on a store that satisfies
    the invariant, no run of further calls (batches included) produces a
    row with that id, and the audit log keeps an entry DELETE for it. *)
Theorem deleted_id_is_never_reused (w : world) (rid : Z) (actor reason : pyval)
    (calls : list call) :
  wf_db (store w) ->
  (admin_delete_record rid actor reason w).1 = inr true ->
  let w' := run calls (admin_delete_record rid actor reason w).2 in
  (forall row, row ∈ scheduled_activities (store w') -> sa_id row ≠ rid)
  /\ exists a, a ∈ audit_log (store w') /\ al_action a = "DELETE" /\ al_record_id a = rid.
Proof.
  intros Hwf Hok w'. subst w'.
  destruct (admin_delete_atomic w rid actor reason) as [[_ Hdel]|[Hno _]]; [|done].
  destruct Hdel as (row & ac & re & n & Hin & Hid & _ & _ & Hrows & Haud).
  set (w1 := (admin_delete_record rid actor reason w).2) in *.
  split.
  - apply absent_id_stays_absent.
    + destruct (step_evolves w (AdminDelete rid actor reason)) as [_ [Hseq _ _]].
      simpl in Hseq. fold w1 in Hseq.
      pose proof (wf_sa_ids _ Hwf) as Hids. rewrite Forall_forall in Hids.
      assert (1 <= rid <= seq_scheduled_activities (store w)); [|lia].
      apply Hids, list_elem_of_fmap. by exists row.
    + intros x Hx. rewrite Hrows in Hx. by apply list_elem_of_filter in Hx as [? _].
  - destruct (run_evolves calls w1) as [_ [_ _ Hpre]].
    exists (Audit n "DELETE" rid (Some (sa_scheduled_date row)) None ac re
                  (now_iso (clock w))).
    split; [|done].
    eapply elem_of_prefix; [|exact Hpre]. rewrite Haud. apply elem_of_app. right.
    apply list_elem_of_here.
Qed.
End Orphans.

Lemma deleted_id_is_never_reused_witness :
  Forall (fun row => sa_id row ≠ 2)
    (scheduled_activities
       (store (@run iso_runtime [CreateBatch march_batch]
                 (@admin_delete_record iso_runtime 2 (PStr "admin1") (PStr "duplicate")
                    w_marked).2))).
Proof.
  apply Forall_forall.
  apply (deleted_id_is_never_reused (H:=iso_runtime) w_marked 2 (PStr "admin1")
           (PStr "duplicate") [CreateBatch march_batch]).
  - apply w_marked_wf.
  - vm_compute. reflexivity.
Defined.

(** ** A date SQLite cannot read *)

Section Unreadable.
Context `{Runtime}.

(** X19.  [admin_update_scheduled_date] takes any text for the new date.
    With a text SQLite's [date()] does not read, the call still returns
    [True], the row is kept with that text as its date, and from then on
    no range query, whatever its bounds and filter, returns the record. *)
Theorem reschedule_to_unreadable_date_hides_the_record (w : world) (row : activity)
    (d1 actor reason : string) :
  wf_db (store w) ->
  seq_audit_log (store w) < 2 ^ 63 - 1 ->
  row ∈ scheduled_activities (store w) ->
  sql_date d1 = None ->
  let out := admin_update_scheduled_date (sa_id row) (PStr d1) (PStr actor) (PStr reason) w in
  out.1 = inr true
  /\ (exists row', row' ∈ scheduled_activities (store out.2)
                   /\ sa_id row' = sa_id row /\ sa_scheduled_date row' = d1)
  /\ forall date_from date_to specialist df,
       (get_month_records date_from date_to specialist out.2).1 = inr df ->
       forall dr, dr ∈ df -> df_id dr ≠ sa_id row.
Proof.
  intros Hwf Hroom Hin Hnull out. subst out.
  rewrite (admin_update_str w row d1 actor reason Hwf Hroom Hin). cbn [fst snd store].
  split; [done|]. split.
  - exists (reschedule (sa_id row) d1 (now_iso (clock w)) (Some actor) row).
    split; [apply list_elem_of_fmap; by exists row|].
    unfold reschedule. rewrite Z.eqb_refl. done.
  - intros date_from date_to specialist df Hdf dr Hdr Hid.
    destruct (get_month_records_sound _ _ _ _ _ _ Hdf Hdr) as (r & Hr & Hto & Hw).
    apply month_where_date in Hw as [s Hs].
    cbn [store scheduled_activities] in Hr.
    apply list_elem_of_fmap in Hr as (x & -> & Hx).
    rewrite (to_df_row_id _ _ Hto), reschedule_id in Hid.
    unfold reschedule in Hs. rewrite Hid, Z.eqb_refl in Hs. simpl in Hs. congruence.
Qed.
End Unreadable.

Lemma reschedule_to_unreadable_date_hides_the_record_witness :
  (@admin_update_scheduled_date iso_runtime 2 (PStr "mañana") (PStr "admin1")
     (PStr "client request") w_marked).1 = inr true.
Proof.
  apply (reschedule_to_unreadable_date_hides_the_record (H:=iso_runtime) w_marked row_2
           "mañana" "admin1" "client request").
  - apply w_marked_wf.
  - vm_compute. reflexivity.
  - apply row_2_stored.
  - vm_compute. reflexivity.
Defined.

(** ** Worked runs of the properties above *)

Lemma w_marked_rows (row : activity) :
  row ∈ scheduled_activities (store w_marked) ->
  1 <= sa_id row <= 3
  /\ exists d, valid_date d = true
               /\ @sql_date iso_runtime (sa_scheduled_date row) = Some (isoformat d)
               /\ @to_datetime iso_runtime (sa_scheduled_date row) = Some d.
Proof.
  intros Hrow. apply list_elem_of_In in Hrow. vm_compute in Hrow.
  destruct Hrow as [<-|[<-|[<-|[]]]]; (split; [simpl; lia|]).
  - exists (Date 2024 3 1). by vm_compute.
  - exists (Date 2024 3 2). by vm_compute.
  - exists (Date 2024 3 3). by vm_compute.
Qed.

Lemma march_frame_run :
  @get_month_records iso_runtime (Date 2024 3 1) (Date 2024 3 31) None w_marked
  = (inr march_frame, w_marked).
Proof. vm_compute. reflexivity. Qed.

Lemma march_frame_rows : march_frame ≠ [].
Proof. intros E. vm_compute in E. discriminate. Qed.

Lemma every_run_keeps_the_invariant_witness :
  wf_db init_db
  /\ wf_db (store (@run iso_runtime [CreateBatch march_batch; AdminDelete 2 (PStr "admin1")
                                       (PStr "duplicate")] (World init_db 0))).
Proof.
  split; [apply init_db_wf|].
  apply (every_run_keeps_the_invariant (H:=iso_runtime)). apply init_db_wf.
Defined.

Lemma status_update_of_unknown_ids_changes_nothing_witness :
  @update_records_status_and_notes iso_runtime [mark_99] w_marked
  = (inr tt, World (store w_marked) (clock w_marked + 1)).
Proof.
  apply (status_update_of_unknown_ids_changes_nothing (H:=iso_runtime) [mark_99] w_marked).
  - intros ch z row ->%list_elem_of_singleton Hz Hrow.
    vm_compute in Hz. injection Hz as <-.
    apply w_marked_rows in Hrow as [Hid _]. lia.
  - repeat constructor.
Defined.

Lemma range_query_is_ordered_witness :
  exists rows,
    Forall2 (@to_df_row iso_runtime) rows march_frame
    /\ StronglySorted (fun r1 r2 => key_le (@order_key iso_runtime r1)
                                           (@order_key iso_runtime r2)) rows.
Proof.
  apply (range_query_is_ordered (H:=iso_runtime) (Date 2024 3 1) (Date 2024 3 31) None
           w_marked march_frame).
  by rewrite march_frame_run.
Defined.

Lemma created_records_are_read_back_witness :
  wf_db init_db
  /\ forall df,
       (@get_month_records iso_runtime (Date 2024 3 1) (Date 2024 3 31) None
          (@add_scheduled_records iso_runtime march_batch (World init_db 0)).2).1 = inr df ->
       length df = 3%nat.
Proof.
  split; [apply init_db_wf|]. intros df Hdf.
  destruct (created_records_are_read_back (H:=iso_runtime) march_batch (World init_db 0)
              init_db_wf) with (date_from := Date 2024 3 1) (date_to := Date 2024 3 31)
              (df := df) as [_ Hlen].
  - repeat constructor.
  - vm_compute. reflexivity.
  - exact Hdf.
  - apply (Hlen ltac:(repeat constructor) []). vm_compute. reflexivity.
Defined.

Lemma march_frame_texts : @export_texts_ok iso_runtime (Date 2024 3 1) march_frame = true.
Proof. vm_compute. reflexivity. Qed.

Lemma export_writes_the_header_witness :
  exists ws,
    @export_month_matrix_xlsx_bytes iso_runtime (Date 2024 3 1) (Date 2024 3 31) None
      w_marked = (inr ws, w_marked)
    /\ cells ws !! (3, 3 + 31) = Some (PInt 31).
Proof.
  destruct (export_writes_the_header (H:=iso_runtime) (Date 2024 3 1) (Date 2024 3 31)
              None w_marked w_marked march_frame march_frame_run march_frame_rows)
    as [_ Hret].
  destruct (Hret march_frame_texts) as (ws & Hrun & _ & _ & _ & _ & _ & _ & _ & Hdays).
  exists ws. split; [exact Hrun|]. apply Hdays. simpl. lia.
Defined.

Lemma export_writes_one_row_per_group_witness :
  exists ws,
    @export_month_matrix_xlsx_bytes iso_runtime (Date 2024 3 1) (Date 2024 3 31) None
      w_marked = (inr ws, w_marked)
    /\ forall r c, 4 + Z.of_nat (length (pivot_index march_frame)) <= r ->
                   cells ws !! (r, c) = None.
Proof.
  destruct (export_writes_one_row_per_group (H:=iso_runtime) (Date 2024 3 1)
              (Date 2024 3 31) None w_marked w_marked march_frame march_frame_run
              march_frame_rows march_frame_texts)
    as (ws & Hrun & _ & _ & _ & _ & Hbelow).
  exists ws. split; [exact Hrun|exact Hbelow].
Defined.

Lemma range_dates_are_the_programmed_days_witness :
  exists fechas,
    build_fechas (Date 2024 3 1) (Date 2024 3 10) [] false = Some (inr fechas)
    /\ StronglySorted (fun a b => date_lt a b = true) fechas.
Proof.
  destruct (range_dates_are_the_programmed_days (Date 2024 3 1) (Date 2024 3 10) [] false)
    as (fechas & Hrun & Hsort & _); [reflexivity|reflexivity|discriminate|].
  exists fechas. split; [exact Hrun|exact Hsort].
Defined.

Lemma range_to_date_max_overflows_witness :
  build_fechas (Date 9999 12 30) (Date 9999 12 31) [] false = Some (inl OverflowError).
Proof. apply (range_to_date_max_overflows (Date 9999 12 30)). reflexivity. Defined.

Lemma registrar_stores_one_row_per_date_witness :
  wf_db init_db
  /\ (@tab_reg_submit iso_runtime " Ana " "Informe mensual" "Informe" ""
        [Date 2024 3 1; Date 2024 3 2] "" "Ana" (World init_db 0)).1 = inr (Listo 2).
Proof.
  split; [apply init_db_wf|].
  apply (registrar_stores_one_row_per_date (H:=iso_runtime) " Ana " "Informe mensual"
           "Informe" "" [Date 2024 3 1; Date 2024 3 2] "" "Ana" (World init_db 0)).
  - apply init_db_wf.
  - vm_compute. reflexivity.
  - intros [?|[?|[[? _]|?]]]; discriminate.
Defined.

Lemma month_query_returns_the_month_witness :
  exists df,
    (@get_month_records iso_runtime (Date 2024 3 1) (Date 2024 3 31) None w_marked).1 = inr df
    /\ forall dr, dr ∈ df <->
         (exists r, r ∈ scheduled_activities (store w_marked) /\ @to_df_row iso_runtime r dr)
         /\ year (df_scheduled_date dr) = 2024 /\ month (df_scheduled_date dr) = 3.
Proof.
  apply (month_query_returns_the_month (H:=iso_runtime) (Date 2024 3 15) (Date 2024 3 1)
           (Date 2024 3 31) w_marked).
  - reflexivity.
  - reflexivity.
  - vm_compute. reflexivity.
  - vm_compute. reflexivity.
  - intros r Hr. by apply w_marked_rows in Hr as [_ Hd].
Defined.
